(** * ETCI 2021 flood-detection dataset: indexer, sample loader, data module

    A shallow embedding of [torchgeo/datasets/etci2021.py].  Python
    dictionaries are finite maps ([gmap]), exceptions are an explicit result
    type, and every access to the outside world (globbing, existence checks,
    image decoding, downloads) goes through a state-and-exception monad over
    a [World] that also records the calls that were made. *)

From Stdlib Require Import ZArith Ascii String List Lia.
From Stdlib Require Import Floats.SpecFloat.
From stdpp Require Import gmap strings list sorting.

Local Open Scope Z_scope.

(* ================================================================== *)
(** * Paths: byte strings, their order, [os.path.join]                 *)
(* ================================================================== *)

Module Path.

(** Python compares [str] values lexicographically by code point; on
    UTF-8 encoded paths this is the byte-wise order of [String.compare]. *)
Definition le (a b : string) : Prop := String.leb a b = true.

#[global] Instance le_dec a b : Decision (le a b).
Proof. unfold le. apply _. Defined.

(** [sorted(xs)] on a list of strings. *)
Definition sorted (xs : list string) : list string := merge_sort le xs.

Definition ends_with_sep (a : string) : bool :=
  match rev (list_ascii_of_string a) with
  | c :: _ => Ascii.eqb c "/"
  | [] => false
  end.

(** One step of [posixpath.join]: an absolute component restarts the
    path, an empty or slash-terminated prefix takes no separator. *)
Definition join2 (path b : string) : string :=
  if String.prefix "/" b then b
  else if (String.eqb path "" || ends_with_sep path)%bool then path +:+ b
  else path +:+ "/" +:+ b.

(** [os.path.join(a, *p)] *)
Definition join (a : string) (p : list string) : string :=
  fold_left join2 p a.

End Path.

(* ================================================================== *)
(** * Python values: exceptions, dictionaries, list indexing            *)
(* ================================================================== *)

Inductive exn : Type :=
  | AssertionError
  | RuntimeError (msg : string)
  | KeyError (key : string)
  | IndexError
  | ValueError
  | TypeError
  | OSError (path : string)
  | AttributeError.

Inductive result (A : Type) : Type :=
  | Ok (a : A)
  | Raise (e : exn).
Arguments Ok {A} a.
Arguments Raise {A} e.

#[global] Instance result_ret : MRet result := λ A a, Ok a.
#[global] Instance result_bind : MBind result :=
  λ A B k r, match r with Ok a => k a | Raise e => Raise e end.

(** [d[k]] on a dictionary with string keys. *)
Definition dict_get {V} (d : gmap string V) (k : string) : result V :=
  match d !! k with
  | Some v => Ok v
  | None => Raise (KeyError k)
  end.

(** [k in d.keys()] *)
Definition dict_contains {V} (d : gmap string V) (k : string) : bool :=
  bool_decide (is_Some (d !! k)).

(** [l[i]] on a list: negative indices count from the end, anything out
    of range raises [IndexError]. *)
Definition list_getitem {A} (l : list A) (i : Z) : result A :=
  let n := Z.of_nat (length l) in
  let j := if i <? 0 then i + n else i in
  if (0 <=? j) && (j <? n) then
    match l !! Z.to_nat j with
    | Some x => Ok x
    | None => Raise IndexError
    end
  else Raise IndexError.

(** [l[start:stop]] *)
Definition list_slice {A} (l : list A) (start stop : Z) : list A :=
  let n := Z.of_nat (length l) in
  let norm i := if i <? 0 then Z.max 0 (i + n) else Z.min i n in
  let a := norm start in
  let b := norm stop in
  take (Z.to_nat (b - a)) (drop (Z.to_nat a) l).

(** [zip] of three and of four lists stops at the shortest one. *)
Fixpoint zip3 {A B C} (xs : list A) (ys : list B) (zs : list C) : list (A * B * C) :=
  match xs, ys, zs with
  | x :: xs, y :: ys, z :: zs => (x, y, z) :: zip3 xs ys zs
  | _, _, _ => []
  end.

Fixpoint zip4 {A B C D} (xs : list A) (ys : list B) (zs : list C) (us : list D)
  : list (A * B * C * D) :=
  match xs, ys, zs, us with
  | x :: xs, y :: ys, z :: zs, u :: us => (x, y, z, u) :: zip4 xs ys zs us
  | _, _, _, _ => []
  end.

(* ================================================================== *)
(** * The outside world                                                 *)
(* ================================================================== *)

(** What PIL hands back for an opened file: the picture size and its
    pixels after [convert("RGB")] (three 8-bit channels) and after
    [convert("L")] (one 8-bit channel). *)
Record PILImage : Type := {
  im_height : nat;
  im_width : nat;
  im_rgb : nat → nat → nat → Z;   (* row, column, channel *)
  im_l : nat → nat → Z            (* row, column *)
}.

(** The file system as the program observes it.  [fs_glob] is the list
    [glob.glob] returns, in whatever order the operating system lists the
    directory. *)
Record FileSystem : Type := {
  fs_exists : string → bool;
  fs_glob : string → list string;
  fs_open : string → option PILImage
}.

Inductive Event : Type :=
  | EvExists (path : string)
  | EvGlob (pattern : string)
  | EvOpen (path : string)
  | EvDownload (url root filename : string) (md5 : option string)
  | EvPrint (msg : string).

Section World.

(** [G] is the state of a torch random generator. *)
Context {G : Type}.

Record World : Type := {
  w_fs : FileSystem;
  w_default_generator : G;     (* torch's global generator *)
  w_log : list Event           (* calls made so far, oldest first *)
}.

Definition M (A : Type) : Type := World → result A * World.

Definition ret {A} (a : A) : M A := λ w, (Ok a, w).
Definition raise {A} (e : exn) : M A := λ w, (Raise e, w).
Definition bind {A B} (m : M A) (k : A → M B) : M B :=
  λ w, match m w with
       | (Ok a, w') => k a w'
       | (Raise e, w') => (Raise e, w')
       end.
Definition lift {A} (r : result A) : M A := λ w, (r, w).

Definition log_event (ev : Event) (w : World) : World :=
  {| w_fs := w_fs w;
     w_default_generator := w_default_generator w;
     w_log := w_log w ++ [ev] |}.

Definition log_events (evs : list Event) (w : World) : World :=
  {| w_fs := w_fs w;
     w_default_generator := w_default_generator w;
     w_log := w_log w ++ evs |}.

Definition set_fs (fs : FileSystem) (w : World) : World :=
  {| w_fs := fs;
     w_default_generator := w_default_generator w;
     w_log := w_log w |}.

(** [os.path.exists] *)
Definition path_exists (p : string) : M bool :=
  λ w, (Ok (fs_exists (w_fs w) p), log_event (EvExists p) w).

(** [glob.glob] *)
Definition glob (pattern : string) : M (list string) :=
  λ w, (Ok (fs_glob (w_fs w) pattern), log_event (EvGlob pattern) w).

(** [Image.open] *)
Definition Image_open (p : string) : M PILImage :=
  λ w, (match fs_open (w_fs w) p with
        | Some img => Ok img
        | None => Raise (OSError p)
        end, log_event (EvOpen p) w).

Definition print (msg : string) : M unit :=
  λ w, (Ok tt, log_event (EvPrint msg) w).

Definition assert_ (b : bool) : M unit :=
  if b then ret tt else raise AssertionError.

(** [for x in xs: acc = body acc x] *)
Fixpoint for_ {A S} (xs : list A) (acc : S) (body : S → A → M S) : M S :=
  match xs with
  | [] => ret acc
  | x :: xs => bind (body acc x) (λ acc', for_ xs acc' body)
  end.

End World.

Arguments World G : clear implicits.
Arguments M G A : clear implicits.

Declare Scope py_scope.
Delimit Scope py_scope with py.
Notation "x <- m ;; k" := (bind m (λ x, k))
  (at level 100, m at next level, right associativity) : py_scope.
Notation "m ;;; k" := (bind m (λ _, k))
  (at level 100, right associativity) : py_scope.

(* ================================================================== *)
(** * IEEE 754 arithmetic                                               *)
(* ================================================================== *)

(** Python's [float] is binary64. *)
Module F64.
Definition prec : Z := 53.
Definition emax : Z := 1024.

(** [float(z)] *)
Definition of_Z (z : Z) : spec_float := binary_normalize prec emax z 0 false.
Definition mul : spec_float → spec_float → spec_float := SFmul prec emax.
Definition div : spec_float → spec_float → spec_float := SFdiv prec emax.

(** A decimal literal [m / 10^e], correctly rounded. *)
Definition of_decimal (m : Z) (e : nat) : spec_float :=
  div (of_Z m) (of_Z (10 ^ Z.of_nat e)).

(** [int(x)]: truncation towards zero; infinities and NaN raise. *)
Definition to_int (x : spec_float) : result Z :=
  match x with
  | S754_zero _ => Ok 0
  | S754_finite s m e =>
      let a := if 0 <=? e then Z.pos m * 2 ^ e else Z.pos m / 2 ^ (- e) in
      Ok (if s then - a else a)
  | S754_infinity _ => Raise ValueError       (* OverflowError *)
  | S754_nan => Raise ValueError
  end.
End F64.

(** [torch.float32] is binary32. *)
Module F32.
Definition prec : Z := 24.
Definition emax : Z := 128.

Definition of_Z (z : Z) : spec_float := binary_normalize prec emax z 0 false.
Definition sub : spec_float → spec_float → spec_float := SFsub prec emax.
Definition div : spec_float → spec_float → spec_float := SFdiv prec emax.

(** Rounding a binary64 value to binary32. *)
Definition of_f64 (x : spec_float) : spec_float :=
  match x with
  | S754_finite s m e => binary_round prec emax s m e
  | _ => x
  end.

(** A Python float literal stored in a float32 tensor. *)
Definition of_decimal (m : Z) (e : nat) : spec_float := of_f64 (F64.of_decimal m e).

Definition zero : spec_float := S754_zero false.
Definition is_zero (x : spec_float) : bool := SFeqb x zero.

(** Conversion to a 64-bit integer: truncation towards zero (the C cast;
    its result on NaN, infinities and out-of-range values is unspecified
    and taken to be 0 here). *)
Definition to_int (x : spec_float) : Z :=
  match F64.to_int x with
  | Ok z => if (- 2 ^ 63 <=? z) && (z <? 2 ^ 63) then z else 0
  | Raise _ => 0
  end.
End F32.

(* ================================================================== *)
(** * Tensors                                                           *)
(* ================================================================== *)

Inductive dtype : Type := Bool | UInt8 | Int64 | Float32.

#[global] Instance dtype_eq_dec : EqDecision dtype.
Proof. solve_decision. Defined.

Inductive scalar : Type :=
  | SInt (z : Z)
  | SFloat (x : spec_float).

(** A tensor: element type, shape, and the elements in row-major order. *)
Record Tensor : Type := {
  t_dtype : dtype;
  t_shape : list nat;
  t_data : list scalar
}.

Module Torch.

Definition numel (shape : list nat) : nat := foldr Nat.mul 1%nat shape.

(** Type promotion of [torch.cat] / [torch.stack]. *)
Definition dtype_rank (d : dtype) : nat :=
  match d with Bool => 0 | UInt8 => 1 | Int64 => 2 | Float32 => 3 end.
Definition promote (a b : dtype) : dtype :=
  if (dtype_rank a <? dtype_rank b)%nat then b else a.

Definition wrap64 (z : Z) : Z := (z + 2 ^ 63) mod 2 ^ 64 - 2 ^ 63.

Definition cast_scalar (d : dtype) (s : scalar) : scalar :=
  match d, s with
  | Float32, SInt z => SFloat (F32.of_Z z)
  | Float32, SFloat x => SFloat x
  | Int64, SInt z => SInt (wrap64 z)
  | Int64, SFloat x => SInt (F32.to_int x)
  | UInt8, SInt z => SInt (z mod 256)
  | UInt8, SFloat x => SInt (F32.to_int x mod 256)
  | Bool, SInt z => SInt (if z =? 0 then 0 else 1)
  | Bool, SFloat x => SInt (if F32.is_zero x then 0 else 1)
  end.

(** [tensor.to(dtype)] *)
Definition to (d : dtype) (t : Tensor) : Tensor :=
  {| t_dtype := d; t_shape := t_shape t; t_data := cast_scalar d <$> t_data t |}.

(** [np.array(img.convert("RGB"))]: an HxWx3 array of bytes. *)
Definition array_RGB (img : PILImage) : Tensor :=
  {| t_dtype := UInt8;
     t_shape := [im_height img; im_width img; 3%nat];
     t_data :=
       h ← seq 0 (im_height img);
       w ← seq 0 (im_width img);
       c ← seq 0 3;
       [SInt (im_rgb img h w c mod 256)] |}.

(** [np.array(img.convert("L"))]: an HxW array of bytes. *)
Definition array_L (img : PILImage) : Tensor :=
  {| t_dtype := UInt8;
     t_shape := [im_height img; im_width img];
     t_data :=
       h ← seq 0 (im_height img);
       w ← seq 0 (im_width img);
       [SInt (im_l img h w mod 256)] |}.

(** [torch.from_numpy] shares the array. *)
Definition from_numpy (a : Tensor) : Tensor := a.

(** Element [i, j, k] of a three-dimensional tensor. *)
Definition get3 (t : Tensor) (i j k : nat) : scalar :=
  match t_shape t with
  | [_; s1; s2] => nth ((i * s1 + j) * s2 + k) (t_data t) (SInt 0)
  | _ => SInt 0
  end.

(** [tensor.permute(dims)] on a three-dimensional tensor: dimension [n]
    of the result is dimension [dims[n]] of the argument. *)
Definition permute (t : Tensor) (dims : list nat) : result Tensor :=
  match t_shape t, dims with
  | [s0; s1; s2], [p0; p1; p2] =>
      if bool_decide (Permutation [p0; p1; p2] [0; 1; 2]%nat) then
        let sz p := nth p [s0; s1; s2] 0%nat in
        Ok {| t_dtype := t_dtype t;
              t_shape := [sz p0; sz p1; sz p2];
              t_data :=
                i0 ← seq 0 (sz p0);
                i1 ← seq 0 (sz p1);
                i2 ← seq 0 (sz p2);
                let old q :=
                  if (p0 =? q)%nat then i0 else if (p1 =? q)%nat then i1 else i2 in
                [get3 t (old 0%nat) (old 1%nat) (old 2%nat)] |}
      else Raise (RuntimeError "permute: repeated dim")
  | _, _ => Raise (RuntimeError "permute: number of dims does not match")
  end.

(** [torch.cat(tensors, dim=0)].  One-dimensional empty tensors are
    skipped, as torch does; the remaining ones must agree on every
    dimension but the first. *)
Definition cat (tensors : list Tensor) : result Tensor :=
  match filter (λ t, t_shape t ≠ [0%nat]) tensors with
  | [] =>
      match tensors with
      | [] => Raise (RuntimeError "cat: expected a non-empty list of Tensors")
      | t :: _ =>
          Ok {| t_dtype := foldr promote Bool (t_dtype <$> tensors);
                t_shape := [0%nat]; t_data := [] |}
      end
  | t :: rest =>
      match t_shape t with
      | [] => Raise (RuntimeError "cat: zero-dimensional tensor")
      | _ :: tl =>
          if forallb (λ u, bool_decide (tail (t_shape u) = tl ∧ t_shape u ≠ [])) rest
          then
            Ok {| t_dtype := foldr promote Bool (t_dtype <$> tensors);
                  t_shape := sum_list (default 0%nat ∘ head ∘ t_shape <$> t :: rest) :: tl;
                  t_data :=
                    let d := foldr promote Bool (t_dtype <$> tensors) in
                    u ← t :: rest; cast_scalar d <$> t_data u |}
          else Raise (RuntimeError "cat: sizes of tensors must match except in dimension 0")
      end
  end.

(** [tensor.unsqueeze(0)] *)
Definition unsqueeze (t : Tensor) : Tensor :=
  {| t_dtype := t_dtype t; t_shape := 1%nat :: t_shape t; t_data := t_data t |}.

(** [torch.stack(tensors, dim=0)]: all shapes must be equal. *)
Definition stack (tensors : list Tensor) : result Tensor :=
  match tensors with
  | [] => Raise (RuntimeError "stack expects a non-empty TensorList")
  | t :: rest =>
      if forallb (λ u, bool_decide (t_shape u = t_shape t)) rest then
        let d := foldr promote Bool (t_dtype <$> tensors) in
        Ok {| t_dtype := d;
              t_shape := length tensors :: t_shape t;
              t_data := u ← tensors; cast_scalar d <$> t_data u |}
      else Raise (RuntimeError "stack expects each tensor to be equal size")
  end.

(** [tensor[i]]: selection along the first dimension. *)
Definition getitem (t : Tensor) (i : Z) : result Tensor :=
  match t_shape t with
  | [] => Raise IndexError
  | n :: tl =>
      let j := if i <? 0 then i + Z.of_nat n else i in
      if (0 <=? j) && (j <? Z.of_nat n) then
        Ok {| t_dtype := t_dtype t;
              t_shape := tl;
              t_data := take (numel tl) (drop (Z.to_nat j * numel tl) (t_data t)) |}
      else Raise IndexError
  end.

Definition clamp_scalar (lo hi : Z) (s : scalar) : scalar :=
  match s with
  | SInt z => SInt (Z.min (Z.max z lo) hi)
  | SFloat x =>
      match x with
      | S754_nan => SFloat x
      | _ => if SFltb x (F32.of_Z lo) then SFloat (F32.of_Z lo)
             else if SFltb (F32.of_Z hi) x then SFloat (F32.of_Z hi)
             else SFloat x
      end
  end.

(** [torch.clamp(tensor, min=lo, max=hi)] *)
Definition clamp (t : Tensor) (lo hi : Z) : Tensor :=
  {| t_dtype := t_dtype t; t_shape := t_shape t;
     t_data := clamp_scalar lo hi <$> t_data t |}.

Definition gt_scalar (c : Z) (s : scalar) : scalar :=
  match s with
  | SInt z => SInt (if c <? z then 1 else 0)
  | SFloat x => SInt (if SFltb (F32.of_Z c) x then 1 else 0)
  end.

(** [tensor > c], a boolean tensor *)
Definition gt (t : Tensor) (c : Z) : Tensor :=
  {| t_dtype := Bool; t_shape := t_shape t; t_data := gt_scalar c <$> t_data t |}.

Definition div_scalar (d : spec_float) (s : scalar) : scalar :=
  match s with
  | SFloat x => SFloat (F32.div x d)
  | SInt z => SFloat (F32.div (F32.of_Z z) d)
  end.

(** [tensor /= d] for a float divisor: in place, so the tensor must
    already be a floating-point one. *)
Definition idiv (t : Tensor) (d : spec_float) : result Tensor :=
  if decide (t_dtype t = Float32) then
    Ok {| t_dtype := Float32; t_shape := t_shape t;
          t_data := div_scalar d <$> t_data t |}
  else Raise (RuntimeError "result type Float can't be cast to the desired output type").

Definition normalize_scalar (mean std : spec_float) (s : scalar) : scalar :=
  match s with
  | SFloat x => SFloat (F32.div (F32.sub x mean) std)
  | SInt z => SFloat (F32.div (F32.sub (F32.of_Z z) mean) std)
  end.

(** [torchvision.transforms.Normalize(mean, std)(tensor)]: per channel
    [(x - mean[c]) / std[c]], the channel being the third dimension from
    the end. *)
Definition Normalize (mean std : list spec_float) (t : Tensor) : result Tensor :=
  if negb (bool_decide (t_dtype t = Float32)) then Raise TypeError
  else
    match rev (t_shape t) with
    | w :: h :: c :: _ =>
        if existsb F32.is_zero std then Raise ValueError
        else if bool_decide ((length mean = c ∨ length mean = 1%nat) ∧
                             (length std = c ∨ length std = 1%nat)) then
          Ok {| t_dtype := Float32; t_shape := t_shape t;
                t_data :=
                  imap (λ i x,
                          let ch := ((i / (h * w)) mod c)%nat in
                          normalize_scalar
                            (nth (ch mod length mean) mean F32.zero)
                            (nth (ch mod length std) std F32.zero) x)
                       (t_data t) |}
        else Raise (RuntimeError "The size of tensor a must match the size of tensor b")
    | _ => Raise ValueError
    end.

End Torch.

(* ================================================================== *)
(** * class ETCI2021                                                    *)
(* ================================================================== *)

(** A sample is a dictionary from names ("image", "mask") to tensors. *)
Abbreviation Sample := (gmap string Tensor).

(** A file record is a dictionary from names ("vv", "vh", "flood_mask",
    "water_mask") to paths. *)
Abbreviation FileRecord := (gmap string string).

Module ETCI2021.
Section Class.

Context {G : Type}.

(** [download_and_extract_archive(url, root, filename, md5)] lives in
    [torchgeo/datasets/utils.py]; all that is known of it here is that it
    changes the file system or raises. *)
Variable download_and_extract_archive :
  string → string → string → option string → FileSystem → result FileSystem.

Definition bands : list string := ["VV"; "VH"].
Definition masks : list string := ["flood"; "water_body"].

Definition metadata : gmap string (gmap string string) :=
  <["train" :=
      <["filename" := "train.zip"]>
      (<["md5" := "1e95792fe0f6e3c9000abdeab2a8ab0f"]>
      (<["directory" := "train"]>
      (<["url" := "https://drive.google.com/file/d/14HqNW5uWLS92n7KrxKgDwUTsSEST6LCr"]> ∅)))]>
 (<["val" :=
      <["filename" := "val_with_ref_labels.zip"]>
      (<["md5" := "fd18cecb318efc69f8319f90c3771bdf"]>
      (<["directory" := "test"]>
      (<["url" := "https://drive.google.com/file/d/19sriKPHCZLfJn_Jmk3Z_0b3VaCBVRVyn"]> ∅)))]>
 (<["test" :=
      <["filename" := "test_without_ref_labels.zip"]>
      (<["md5" := "da9fa69e1498bd49d5c766338c6dac3d"]>
      (<["directory" := "test_internal"]>
      (<["url" := "https://drive.google.com/file/d/1rpMVluASnSHBfm2FhpPDio0GyCPOqg7E"]> ∅)))]>
  ∅)).

(** The attributes of an instance.  [files] is assigned last by
    [__init__]; until then it is empty here. *)
Record self : Type := {
  root : string;
  split : string;
  transforms : option (Sample → result Sample);
  checksum : bool;
  files : list FileRecord
}.

Local Open Scope py_scope.

Definition _check_integrity (s : self) : M G bool :=
  meta <- lift (dict_get metadata (split s)) ;;
  directory <- lift (dict_get meta "directory") ;;
  let dirpath := Path.join (root s) [directory] in
  ex <- path_exists dirpath ;;
  if negb ex then ret false else ret true.

Definition _download (s : self) : M G unit :=
  ok <- _check_integrity s ;;
  if ok then print "Files already downloaded and verified"
  else
    meta <- lift (dict_get metadata (split s)) ;;
    url <- lift (dict_get meta "url") ;;
    meta <- lift (dict_get metadata (split s)) ;;
    filename <- lift (dict_get meta "filename") ;;
    md5 <- (if checksum s then
              meta <- lift (dict_get metadata (split s)) ;;
              v <- lift (dict_get meta "md5") ;; ret (Some v)
            else ret None) ;;
    λ w,
      let w' := log_event (EvDownload url (root s) filename md5) w in
      match download_and_extract_archive url (root s) filename md5 (w_fs w) with
      | Ok fs' => (Ok tt, set_fs fs' w')
      | Raise e => (Raise e, w')
      end.

(** The body of [for folder in folders:] in [_load_files]; [files] is
    the list built so far. *)
Definition _load_files_folder (split : string) (files : list FileRecord)
    (folder : string) : M G (list FileRecord) :=
  vvs <- glob (Path.join folder ["vv"; "*.png"]) ;;
  let vvs := Path.sorted vvs in
  vhs <- glob (Path.join folder ["vh"; "*.png"]) ;;
  let vhs := Path.sorted vhs in
  water_masks <- glob (Path.join folder ["water_body_label"; "*.png"]) ;;
  let water_masks := Path.sorted water_masks in
  if negb (String.eqb split "test") then
    flood_masks <- glob (Path.join folder ["flood_label"; "*.png"]) ;;
    let flood_masks := Path.sorted flood_masks in
    ret (fold_left
           (λ files '(vv, vh, flood_mask, water_mask),
              files ++ [ <["vv" := vv]> (<["vh" := vh]>
                         (<["flood_mask" := flood_mask]>
                         (<["water_mask" := water_mask]> ∅))) ])
           (zip4 vvs vhs flood_masks water_masks) files)
  else
    ret (fold_left
           (λ files '(vv, vh, water_mask),
              files ++ [ <["vv" := vv]> (<["vh" := vh]>
                         (<["water_mask" := water_mask]> ∅)) ])
           (zip3 vvs vhs water_masks) files).

Definition _load_files (root split : string) : M G (list FileRecord) :=
  let files := [] in
  meta <- lift (dict_get metadata split) ;;
  directory <- lift (dict_get meta "directory") ;;
  folders <- glob (Path.join root [directory; "*"]) ;;
  let folders := Path.sorted folders in
  let folders := (λ folder, Path.join folder ["tiles"]) <$> folders in
  for_ folders files (_load_files_folder split).

Definition __init__ (root split : string)
    (transforms : option (Sample → result Sample))
    (download checksum : bool) : M G self :=
  assert_ (dict_contains metadata split) ;;;
  let s := {| root := root; split := split; transforms := transforms;
              checksum := checksum; files := [] |} in
  (if download then _download s else ret tt) ;;;
  ok <- _check_integrity s ;;
  if negb ok then
    raise (RuntimeError
             ("Dataset not found or corrupted. " +:+
              "You can use download=True to download it"))
  else
    fs <- _load_files root split ;;
    ret {| root := root; split := split; transforms := transforms;
           checksum := checksum; files := fs |}.

Definition _load_image (path : string) : M G Tensor :=
  let filename := Path.join path [] in
  img <- Image_open filename ;;
  let array := Torch.array_RGB img in
  let tensor := Torch.from_numpy array in
  (* Convert from HxWxC to CxHxW *)
  lift (Torch.permute tensor [2; 0; 1]%nat).

Definition _load_target (path : string) : M G Tensor :=
  let filename := Path.join path [] in
  img <- Image_open filename ;;
  let array := Torch.array_L img in
  let tensor := Torch.from_numpy array in
  let tensor := Torch.clamp tensor 0 1 in
  let tensor := Torch.to Int64 tensor in
  ret tensor.

Definition __getitem__ (s : self) (index : Z) : M G Sample :=
  files <- lift (list_getitem (files s) index) ;;
  p <- lift (dict_get files "vv") ;;
  vv <- _load_image p ;;
  p <- lift (dict_get files "vh") ;;
  vh <- _load_image p ;;
  p <- lift (dict_get files "water_mask") ;;
  water_mask <- _load_target p ;;
  mask <- (if negb (String.eqb (split s) "test") then
             p <- lift (dict_get files "flood_mask") ;;
             flood_mask <- _load_target p ;;
             lift (Torch.stack [water_mask; flood_mask])
           else ret (Torch.unsqueeze water_mask)) ;;
  image <- lift (Torch.cat [vv; vh]) ;;
  let sample : Sample := <["image" := image]> (<["mask" := mask]> ∅) in
  match transforms s with
  | Some f => lift (f sample)
  | None => ret sample
  end.

Definition __len__ (s : self) : Z := Z.of_nat (length (files s)).

End Class.
End ETCI2021.

(* ================================================================== *)
(** * torch.utils.data                                                  *)
(* ================================================================== *)

(** Random generators: [Generator()], [manual_seed], which rejects a seed
    it cannot store, and [randperm], which returns a permutation of
    [0 .. n-1] and the advanced generator. *)
Class TorchRandom (G : Type) : Type := {
  Generator : G;
  manual_seed : G → Z → result G;
  randperm : nat → G → list nat * G;
  randperm_perm : ∀ n g, Permutation (randperm n g).1 (seq 0 n)
}.

Module Data.
Section Data.

Context {G : Type} `{!TorchRandom G}.

(** What a loader can wrap: a whole dataset, or a [Subset] of one. *)
Inductive Dataset : Type :=
  | Whole (d : ETCI2021.self)
  | Subset (d : ETCI2021.self) (indices : list nat).

Definition len (d : Dataset) : Z :=
  match d with
  | Whole d => ETCI2021.__len__ d
  | Subset _ indices => Z.of_nat (length indices)
  end.

(** [itertools.accumulate]: running sums. *)
Fixpoint accumulate (acc : Z) (xs : list Z) : list Z :=
  match xs with
  | [] => []
  | x :: xs => (acc + x) :: accumulate (acc + x) xs
  end.

(** [random_split(dataset, lengths, generator)] *)
Definition random_split (dataset : ETCI2021.self) (lengths : list Z) (generator : G)
  : result (list Dataset) :=
  let total := foldr Z.add 0 lengths in
  if negb (total =? ETCI2021.__len__ dataset) then Raise ValueError
  else
    let indices := (randperm (Z.to_nat total) generator).1 in
    Ok (zip_with
          (λ offset length, Subset dataset (list_slice indices (offset - length) offset))
          (accumulate 0 lengths) lengths).

Record DataLoader : Type := {
  dl_dataset : Dataset;
  dl_batch_size : Z;
  dl_num_workers : Z;
  dl_shuffle : bool
}.

(** [DataLoader(dataset, batch_size=, num_workers=, shuffle=)]: the
    constructor rejects a negative worker count and a non-positive batch
    size. *)
Definition DataLoader_new (dataset : Dataset) (batch_size num_workers : Z)
    (shuffle : bool) : result DataLoader :=
  if num_workers <? 0 then Raise ValueError
  else if batch_size <=? 0 then Raise ValueError
  else Ok {| dl_dataset := dataset; dl_batch_size := batch_size;
             dl_num_workers := num_workers; dl_shuffle := shuffle |}.

End Data.
End Data.

(* ================================================================== *)
(** * class ETCI2021DataModule                                          *)
(* ================================================================== *)

Module ETCI2021DataModule.
Section Class.

Context {G : Type} `{!TorchRandom G}.

Variable download_and_extract_archive :
  string → string → string → option string → FileSystem → result FileSystem.

Definition band_means : list spec_float :=
  [ F32.of_decimal 52253931 8; F32.of_decimal 52253931 8; F32.of_decimal 52253931 8;
    F32.of_decimal 61221701 8; F32.of_decimal 61221701 8; F32.of_decimal 61221701 8;
    F32.of_Z 0 ].

Definition band_stds : list spec_float :=
  [ F32.of_decimal 35221376 8; F32.of_decimal 35221376 8; F32.of_decimal 35221376 8;
    F32.of_decimal 37364622 8; F32.of_decimal 37364622 8; F32.of_decimal 37364622 8;
    F32.of_Z 1 ].

Record self : Type := {
  root_dir : string;
  seed : Z;
  batch_size : Z;
  num_workers : Z;
  norm : Tensor → result Tensor;
  train_dataset : option Data.Dataset;
  val_dataset : option Data.Dataset;
  test_dataset : option Data.Dataset
}.

Definition __init__ (root_dir : string) (seed batch_size num_workers : Z) : self :=
  {| root_dir := root_dir; seed := seed; batch_size := batch_size;
     num_workers := num_workers;
     norm := Torch.Normalize band_means band_stds;
     train_dataset := None; val_dataset := None; test_dataset := None |}.

(** Moves the water mask over to the input layers. *)
Definition preprocess (s : self) (sample : Sample) : result Sample :=
  image ← dict_get sample "image";
  m ← dict_get sample "mask";
  m0 ← Torch.getitem m 0;
  let water_mask := Torch.unsqueeze m0 in
  m ← dict_get sample "mask";
  flood_mask ← Torch.getitem m 1;
  let flood_mask := Torch.to Int64 (Torch.gt flood_mask 0) in
  c ← Torch.cat [image; water_mask];
  let sample := <["image" := Torch.to Float32 c]> sample in
  x ← dict_get sample "image";
  x ← Torch.idiv x (F32.of_Z 255);
  let sample := <["image" := x]> sample in
  x ← dict_get sample "image";
  x ← norm s x;
  let sample := <["image" := x]> sample in
  let sample := <["mask" := flood_mask]> sample in
  Ok sample.

Definition attr {A} (a : option A) : result A :=
  match a with
  | Some x => Ok x
  | None => Raise AttributeError
  end.



Definition test_dataloader (s : self) : result Data.DataLoader :=
  d ← attr (test_dataset s);
  Data.DataLoader_new d (batch_size s) (num_workers s) false.

Local Open Scope py_scope.

Definition prepare_data (s : self) : M G unit :=
  ETCI2021.__init__ download_and_extract_archive (root_dir s) "train" None false false ;;;
  ret tt.

(** [int(0.8 * n)] in Python's floating point. *)
Definition int_0_8_times (n : Z) : result Z :=
  F64.to_int (F64.mul (F64.of_decimal 8 1) (F64.of_Z n)).

Definition setup (s : self) : M G self :=
  train_val_dataset <-
    ETCI2021.__init__ download_and_extract_archive
      (root_dir s) "train" (Some (preprocess s)) false false ;;
  test <-
    ETCI2021.__init__ download_and_extract_archive
      (root_dir s) "val" (Some (preprocess s)) false false ;;
  let size_train_val := ETCI2021.__len__ train_val_dataset in
  size_train <- lift (int_0_8_times size_train_val) ;;
  let size_val := size_train_val - size_train in
  generator <- lift (manual_seed Generator (seed s)) ;;
  parts <- lift (Data.random_split train_val_dataset [size_train; size_val]
                   generator) ;;
  match parts with
  | [train; val] =>
      ret {| root_dir := root_dir s; seed := seed s; batch_size := batch_size s;
             num_workers := num_workers s; norm := norm s;
             train_dataset := Some train;
             val_dataset := Some val;
             test_dataset := Some (Data.Whole test) |}
  | _ => raise ValueError
  end.

End Class.
End ETCI2021DataModule.

(* ================================================================== *)
(** * The indexer as the specification words it                         *)
(* ================================================================== *)

Module Spec.

Definition record4 (vv vh flood_mask water_mask : string) : FileRecord :=
  <["vv" := vv]> (<["vh" := vh]>
  (<["flood_mask" := flood_mask]> (<["water_mask" := water_mask]> ∅))).

Definition record3 (vv vh water_mask : string) : FileRecord :=
  <["vv" := vv]> (<["vh" := vh]> (<["water_mask" := water_mask]> ∅)).

(** The sorted listing of one channel directory of a folder. *)
Definition listing (fs : FileSystem) (folder sub : string) : list string :=
  Path.sorted (fs_glob fs (Path.join folder [sub; "*.png"])).

(** "A plain sorted zip of glob results": the records of one folder. *)
Definition folder_records (fs : FileSystem) (split folder : string) : list FileRecord :=
  if negb (String.eqb split "test") then
    (λ '(vv, vh, flood_mask, water_mask), record4 vv vh flood_mask water_mask) <$>
      zip4 (listing fs folder "vv") (listing fs folder "vh")
           (listing fs folder "flood_label") (listing fs folder "water_body_label")
  else
    (λ '(vv, vh, water_mask), record3 vv vh water_mask) <$>
      zip3 (listing fs folder "vv") (listing fs folder "vh")
           (listing fs folder "water_body_label").

(** The folders of a split directory, in sorted order. *)
Definition folders (fs : FileSystem) (root directory : string) : list string :=
  (λ folder, Path.join folder ["tiles"]) <$>
    Path.sorted (fs_glob fs (Path.join root [directory; "*"])).

(** "An ordered list of per-sample file-path records". *)
Definition index (fs : FileSystem) (root split : string) : list FileRecord :=
  match ETCI2021.metadata !! split ≫= (.!! "directory") with
  | Some directory =>
      folder ← folders fs root directory; folder_records fs split folder
  | None => []
  end.

(** A decoded band in CxHxW layout: entry [c, h, x] is channel [c] of the
    pixel in row [h], column [x]. *)
Definition band (img : PILImage) : Tensor :=
  {| t_dtype := UInt8;
     t_shape := [3%nat; im_height img; im_width img];
     t_data :=
       c ← seq 0 3;
       h ← seq 0 (im_height img);
       x ← seq 0 (im_width img);
       [SInt (im_rgb img h x c mod 256)] |}.

(** A decoded mask as 0/1 labels: 1 wherever the pixel is not 0. *)
Definition binary_mask (img : PILImage) : Tensor :=
  {| t_dtype := Int64;
     t_shape := [im_height img; im_width img];
     t_data :=
       h ← seq 0 (im_height img);
       x ← seq 0 (im_width img);
       [SInt (if 0 <? im_l img h x mod 256 then 1 else 0)] |}.

(** The image of a sample: the VV band followed by the VH band. *)
Definition image (vv vh : PILImage) : Tensor :=
  {| t_dtype := UInt8;
     t_shape := [6%nat; im_height vv; im_width vv];
     t_data := t_data (band vv) ++ t_data (band vh) |}.

(** The mask of a train or val sample: water mask, then flood mask. *)
Definition mask2 (water flood : PILImage) : Tensor :=
  {| t_dtype := Int64;
     t_shape := [2%nat; im_height water; im_width water];
     t_data := t_data (binary_mask water) ++ t_data (binary_mask flood) |}.

(** The mask of a test sample: the water mask alone. *)
Definition mask1 (water : PILImage) : Tensor :=
  {| t_dtype := Int64;
     t_shape := [1%nat; im_height water; im_width water];
     t_data := t_data (binary_mask water) |}.

(** The record key and the subdirectory of every channel of a split. *)
Definition channels (split : string) : list (string * string) :=
  [("vv", "vv"); ("vh", "vh"); ("water_mask", "water_body_label")] ++
  (if negb (String.eqb split "test") then [("flood_mask", "flood_label")] else []).

End Spec.

Definition not_found_message : string :=
  "Dataset not found or corrupted. You can use download=True to download it".

(** A computation only ever appends to the call log. *)
Definition log_grows {G A} (m : M G A) : Prop :=
  ∀ w, ∃ evs, w_log (m w).2 = w_log w ++ evs.

(** A file is indexed once when exactly one record holds it under the
    key of its channel. *)
Definition indexed_once (recs : list FileRecord) (key f : string) : Prop :=
  exists ! i : nat, recs !! i ≫= (.!! key) = Some f.

(** Every file listed in a channel directory of [folder] is in exactly one
    of the records the folder contributes. *)
Definition folder_fully_indexed {G} (w : World G) (split folder : string) : Prop :=
  ∃ recs,
    (ETCI2021._load_files_folder split [] folder w).1 = Ok recs ∧
    ∀ key sub f,
      (key, sub) ∈ Spec.channels split →
      f ∈ fs_glob (w_fs w) (Path.join folder [sub; "*.png"]) →
      indexed_once recs key f.

(** The index lists of the train and validation partitions of a data
    module that has been set up. *)
Definition partition_indices (s : ETCI2021DataModule.self)
  : option (list nat * list nat) :=
  match ETCI2021DataModule.train_dataset s, ETCI2021DataModule.val_dataset s with
  | Some (Data.Subset _ train), Some (Data.Subset _ val) => Some (train, val)
  | _, _ => None
  end.

(** The dataset object [ETCI2021(root, split, transforms)] over a file
    system on which construction succeeds. *)
Definition constructed (fs : FileSystem) (root split : string)
    (transforms : option (Sample → result Sample)) : ETCI2021.self :=
  {| ETCI2021.root := root; ETCI2021.split := split;
     ETCI2021.transforms := transforms; ETCI2021.checksum := false;
     ETCI2021.files := Spec.index fs root split |}.

(** Every file a record of this split names opens as an [H] x [W] picture. *)
Definition tile_ok (fs : FileSystem) (split : string) (rec : FileRecord)
    (H W : nat) : Prop :=
  ∀ key, key ∈ (Spec.channels split).*1 →
    ∃ path img,
      rec !! key = Some path ∧ fs_open fs path = Some img ∧
      im_height img = H ∧ im_width img = W.

(* ================================================================== *)
(** * ETCI2021.plot                                                     *)
(* ================================================================== *)

Module Plot.
Section Plot.

(** Whether [Axes.imshow] accepts an array is decided by matplotlib. *)
Variable imshow_accepts : Tensor → bool.

(** One panel of a figure: the array shown, whether the axis is switched
    off, and the title. *)
Record Axes : Type := {
  ax_image : option Tensor;
  ax_axis_off : bool;
  ax_title : option string
}.

Record Figure : Type := {
  fig_size : Z * Z;
  fig_axes : list Axes;
  fig_suptitle : option string
}.

Definition blank_axes : Axes :=
  {| ax_image := None; ax_axis_off := false; ax_title := None |}.

(** [tensor[start:stop]] along the first dimension. *)
Definition slice0 (t : Tensor) (start stop : option Z) : result Tensor :=
  match t_shape t with
  | [] => Raise IndexError
  | n :: tl =>
      let len := Z.of_nat n in
      let norm d i :=
        match i with
        | None => d
        | Some i => if i <? 0 then Z.max 0 (i + len) else Z.min i len
        end in
      let a := norm 0 start in
      let b := norm len stop in
      let k := Z.to_nat (b - a) in
      Ok {| t_dtype := t_dtype t;
            t_shape := k :: tl;
            t_data := take (k * Torch.numel tl)
                        (drop (Z.to_nat a * Torch.numel tl) (t_data t)) |}
  end.

(** [np.rollaxis(a, 0, 3)]: the first axis moves behind the third. *)
Definition rollaxis_0_3 (a : Tensor) : result Tensor :=
  match t_shape a with
  | s0 :: s1 :: s2 :: rest =>
      let blk := Torch.numel rest in
      Ok {| t_dtype := t_dtype a;
            t_shape := s1 :: s2 :: s0 :: rest;
            t_data :=
              i1 ← seq 0 s1;
              i2 ← seq 0 s2;
              i0 ← seq 0 s0;
              take blk (drop (((i0 * s1 + i1) * s2 + i2) * blk) (t_data a)) |}
  | _ => Raise ValueError      (* numpy.AxisError *)
  end.

(** [tensor.shape[0]] *)
Definition shape0 (t : Tensor) : result Z :=
  match t_shape t with
  | n :: _ => Ok (Z.of_nat n)
  | [] => Raise IndexError
  end.

(** [axs[i].method(...)] *)
Definition on_axes (axs : list Axes) (i : Z) (f : Axes → result Axes)
  : result (list Axes) :=
  ax ← list_getitem axs i;
  ax' ← f ax;
  Ok (<[Z.to_nat (if i <? 0 then i + Z.of_nat (length axs) else i) := ax']> axs).

Definition imshow (axs : list Axes) (i : Z) (x : Tensor) : result (list Axes) :=
  on_axes axs i (λ ax,
    if imshow_accepts x then
      Ok {| ax_image := Some x; ax_axis_off := ax_axis_off ax; ax_title := ax_title ax |}
    else Raise TypeError).

Definition axis_off (axs : list Axes) (i : Z) : result (list Axes) :=
  on_axes axs i (λ ax,
    Ok {| ax_image := ax_image ax; ax_axis_off := true; ax_title := ax_title ax |}).

Definition set_title (axs : list Axes) (i : Z) (title : string) : result (list Axes) :=
  on_axes axs i (λ ax,
    Ok {| ax_image := ax_image ax; ax_axis_off := ax_axis_off ax; ax_title := Some title |}).

Definition plot (sample : Sample) (show_titles : bool) (suptitle : option string)
  : result Figure :=
  image ← dict_get sample "image";
  x ← slice0 image None (Some 3);
  vv ← rollaxis_0_3 x;
  image ← dict_get sample "image";
  x ← slice0 image (Some 3) None;
  vh ← rollaxis_0_3 x;
  m ← dict_get sample "mask";
  water_mask ← Torch.getitem m 0;
  m ← dict_get sample "mask";
  n ← shape0 m;
  let showing_flood_mask := 1 <? n in
  let showing_predictions := dict_contains sample "prediction" in
  let num_panels := 3 in
  '(flood_mask, num_panels) ←
    (if showing_flood_mask then
       m ← dict_get sample "mask";
       flood_mask ← Torch.getitem m 1;
       Ok (Some flood_mask, num_panels + 1)
     else Ok (None, num_panels));
  '(predictions, num_panels) ←
    (if showing_predictions then
       predictions ← dict_get sample "prediction";
       Ok (Some predictions, num_panels + 1)
     else Ok (None, num_panels));
  let axs := replicate (Z.to_nat num_panels) blank_axes in
  axs ← imshow axs 0 vv;
  axs ← axis_off axs 0;
  axs ← imshow axs 1 vh;
  axs ← axis_off axs 1;
  axs ← imshow axs 2 water_mask;
  axs ← axis_off axs 2;
  axs ← (if show_titles then
           axs ← set_title axs 0 "VV";
           axs ← set_title axs 1 "VH";
           set_title axs 2 "Water mask"
         else Ok axs);
  let idx := 0 in
  '(axs, idx) ←
    (match flood_mask with
     | Some flood_mask =>
         axs ← imshow axs (3 + idx) flood_mask;
         axs ← axis_off axs (3 + idx);
         axs ← (if show_titles then set_title axs (3 + idx) "Flood mask" else Ok axs);
         Ok (axs, idx + 1)
     | None => Ok (axs, idx)
     end);
  '(axs, idx) ←
    (match predictions with
     | Some predictions =>
         axs ← imshow axs (3 + idx) predictions;
         axs ← axis_off axs (3 + idx);
         axs ← (if show_titles then set_title axs (3 + idx) "Predictions" else Ok axs);
         Ok (axs, idx + 1)
     | None => Ok (axs, idx)
     end);
  Ok {| fig_size := (num_panels * 4, 3); fig_axes := axs; fig_suptitle := suptitle |}.

End Plot.

(** A finished panel: the array it shows, its axis switched off, and its
    title when titles are shown. *)
Definition panel (show_titles : bool) (shown : Tensor * string) : Axes :=
  {| ax_image := Some shown.1; ax_axis_off := true;
     ax_title := if show_titles then Some shown.2 else None |}.

End Plot.

(* ================================================================== *)
(** * Call traces                                                       *)
(* ================================================================== *)

(** The world after the computation is the world before it with more
    calls in the log, each of them satisfying [P]: the file system and the
    global generator are as they were. *)
Definition only_logs {G A} (P : Event → Prop) (m : M G A) : Prop :=
  ∀ w, ∃ evs, (m w).2 = log_events evs w ∧ Forall P evs.

Definition is_lookup (ev : Event) : Prop :=
  match ev with EvExists _ | EvGlob _ => True | _ => False end.

Definition is_open (ev : Event) : Prop :=
  match ev with EvOpen _ => True | _ => False end.

Definition is_lookup_or_open (ev : Event) : Prop := is_lookup ev ∨ is_open ev.

Module Trace.

(** The listings made for one folder, in the order they are made. *)
Definition folder_globs (split folder : string) : list Event :=
  (λ sub, EvGlob (Path.join folder [sub; "*.png"])) <$>
    (["vv"; "vh"; "water_body_label"] ++
     (if negb (String.eqb split "test") then ["flood_label"] else [])).

(** All the listings [_load_files] makes. *)
Definition load_files (fs : FileSystem) (root split directory : string) : list Event :=
  EvGlob (Path.join root [directory; "*"]) ::
  (folder ← Spec.folders fs root directory; folder_globs split folder).

(** The number of records a folder yields: the length of its shortest
    listing. *)
Definition folder_count (fs : FileSystem) (split folder : string) : nat :=
  foldr Nat.min
    (length (fs_glob fs (Path.join folder ["vv"; "*.png"])))
    ((λ c, length (fs_glob fs (Path.join folder [c.2; "*.png"]))) <$> Spec.channels split).

End Trace.

(* ================================================================== *)
(** * Fixtures: small concrete worlds                                   *)
(* ================================================================== *)

Module Fixture.

Definition blank : PILImage :=
  {| im_height := 2; im_width := 2;
     im_rgb := λ h w c, Z.of_nat (100 * c + 10 * h + w);
     im_l := λ h w, if (h =? w)%nat then 255 else 0 |}.

(** Two event folders under [data/train]; folder [a] holds two tiles,
    folder [b] one.  Listings come back unsorted. *)
Definition glob_table : list (string * list string) :=
  [ ("data/train/*", ["data/train/b"; "data/train/a"]);
    ("data/train/a/tiles/vv/*.png",
       ["data/train/a/tiles/vv/2.png"; "data/train/a/tiles/vv/1.png"]);
    ("data/train/a/tiles/vh/*.png",
       ["data/train/a/tiles/vh/1.png"; "data/train/a/tiles/vh/2.png"]);
    ("data/train/a/tiles/water_body_label/*.png",
       ["data/train/a/tiles/water_body_label/2.png";
        "data/train/a/tiles/water_body_label/1.png"]);
    ("data/train/a/tiles/flood_label/*.png",
       ["data/train/a/tiles/flood_label/1.png"; "data/train/a/tiles/flood_label/2.png"]);
    ("data/train/b/tiles/vv/*.png", ["data/train/b/tiles/vv/7.png"]);
    ("data/train/b/tiles/vh/*.png", ["data/train/b/tiles/vh/7.png"]);
    ("data/train/b/tiles/water_body_label/*.png",
       ["data/train/b/tiles/water_body_label/7.png"]);
    ("data/train/b/tiles/flood_label/*.png", ["data/train/b/tiles/flood_label/7.png"]);
    ("data/test/*", ["data/test/c"]);
    ("data/test/c/tiles/vv/*.png", ["data/test/c/tiles/vv/1.png"]);
    ("data/test/c/tiles/vh/*.png", ["data/test/c/tiles/vh/1.png"]);
    ("data/test/c/tiles/water_body_label/*.png",
       ["data/test/c/tiles/water_body_label/1.png"]);
    ("data/test/c/tiles/flood_label/*.png", ["data/test/c/tiles/flood_label/1.png"]);
    ("data/test_internal/*", ["data/test_internal/d"]);
    ("data/test_internal/d/tiles/vv/*.png", ["data/test_internal/d/tiles/vv/1.png"]);
    ("data/test_internal/d/tiles/vh/*.png", ["data/test_internal/d/tiles/vh/1.png"]);
    ("data/test_internal/d/tiles/water_body_label/*.png",
       ["data/test_internal/d/tiles/water_body_label/1.png"]) ].

Definition table_glob (table : list (string * list string)) (pattern : string)
  : list string :=
  match list_find (λ e, e.1 = pattern) table with
  | Some (_, (_, l)) => l
  | None => []
  end.

Definition fs : FileSystem :=
  {| fs_exists := λ p, bool_decide (p ∈ ["data/train"; "data/test"; "data/test_internal"]);
     fs_glob := table_glob glob_table;
     fs_open := λ p, if String.prefix "data/" p then Some blank else None |}.

(** The same tree, but one [vh] tile of folder [a] is missing. *)
Definition ragged_fs : FileSystem :=
  {| fs_exists := fs_exists fs;
     fs_glob := table_glob
                  (("data/train/a/tiles/vh/*.png", ["data/train/a/tiles/vh/1.png"])
                   :: glob_table);
     fs_open := fs_open fs |}.

Definition world (f : FileSystem) : World unit :=
  {| w_fs := f; w_default_generator := tt; w_log := [] |}.

Definition no_download (url root filename : string) (md5 : option string)
    (f : FileSystem) : result FileSystem :=
  Raise (RuntimeError "offline").

(** The dataset [ETCI2021("data", split)] over [fs]. *)
Definition dataset (split : string) : ETCI2021.self :=
  {| ETCI2021.root := "data"; ETCI2021.split := split;
     ETCI2021.transforms := None; ETCI2021.checksum := false;
     ETCI2021.files := Spec.index fs "data" split |}.

Definition sample : Sample :=
  <["image" := Spec.image blank blank]> (<["mask" := Spec.mask2 blank blank]> ∅).

Definition datamodule : ETCI2021DataModule.self :=
  ETCI2021DataModule.__init__ "data" 0 64 0.

(** A toy generator: the state is a number, and [randperm] lists the
    indices upwards on even states and downwards on odd ones. *)
#[export] Program Instance rng : TorchRandom Z :=
  {| Generator := 67280421310721;
     manual_seed := λ _ seed,
       if (- 2 ^ 63 <=? seed) && (seed <? 2 ^ 64) then Ok seed
       else Raise (RuntimeError "Overflow when unpacking long");
     randperm := λ n g, (if Z.even g then seq 0 n else reverse (seq 0 n), g + 1) |}.
Next Obligation.
  intros n g. cbn. destruct (Z.even g); [done|apply reverse_Permutation].
Qed.

Definition world_rng (f : FileSystem) (g : Z) : World Z :=
  {| w_fs := f; w_default_generator := g; w_log := [] |}.

Definition first_train_record : FileRecord :=
  Spec.record4 "data/train/a/tiles/vv/1.png" "data/train/a/tiles/vh/1.png"
    "data/train/a/tiles/flood_label/1.png" "data/train/a/tiles/water_body_label/1.png".

End Fixture.

(** Further worlds: damaged trees, a downloader and a plotting backend. *)
Module Cases.

(** A picture of another size than [Fixture.blank]. *)
Definition wide : PILImage :=
  {| im_height := 2; im_width := 3;
     im_rgb := λ h w c, Z.of_nat (c + h + w);
     im_l := λ h w, Z.of_nat (h + w) |}.

(** The tree of [Fixture.fs], but the first VH tile has another size. *)
Definition mismatched_fs : FileSystem :=
  {| fs_exists := fs_exists Fixture.fs;
     fs_glob := fs_glob Fixture.fs;
     fs_open := λ p, if String.eqb p "data/train/a/tiles/vh/1.png" then Some wide
                     else fs_open Fixture.fs p |}.

(** The tree of [Fixture.fs], but the first VV tile cannot be opened. *)
Definition unreadable_fs : FileSystem :=
  {| fs_exists := fs_exists Fixture.fs;
     fs_glob := fs_glob Fixture.fs;
     fs_open := λ p, if String.eqb p "data/train/a/tiles/vv/1.png" then None
                     else fs_open Fixture.fs p |}.

(** Nothing on disk yet. *)
Definition empty_fs : FileSystem :=
  {| fs_exists := λ _, false; fs_glob := λ _, []; fs_open := λ _, None |}.

(** A downloader that unpacks the tree of [Fixture.fs]. *)
Definition unpack (url root filename : string) (md5 : option string)
    (f : FileSystem) : result FileSystem :=
  Ok Fixture.fs.

(** The train dataset as the data module builds it. *)
Definition piped_dataset : ETCI2021.self :=
  {| ETCI2021.root := "data"; ETCI2021.split := "train";
     ETCI2021.transforms := Some (ETCI2021DataModule.preprocess Fixture.datamodule);
     ETCI2021.checksum := false;
     ETCI2021.files := Spec.index Fixture.fs "data" "train" |}.

(** A backend that draws two- and three-dimensional arrays only. *)
Definition accepts_images (t : Tensor) : bool :=
  bool_decide (length (t_shape t) ∈ [2; 3]%nat).

(** The metadata entry of the train split. *)
Definition train_meta : gmap string string :=
  <["filename" := "train.zip"]>
  (<["md5" := "1e95792fe0f6e3c9000abdeab2a8ab0f"]>
  (<["directory" := "train"]>
  (<["url" := "https://drive.google.com/file/d/14HqNW5uWLS92n7KrxKgDwUTsSEST6LCr"]> ∅))).

(** A sample with a prediction added to it. *)
Definition predicted_sample : Sample :=
  <["prediction" := Spec.binary_mask Fixture.blank]> Fixture.sample.

End Cases.

(* ================================================================== *)
(** * Properties of the path order and of [sorted]                      *)
(* ================================================================== *)

Lemma string_compare_refl (s : string) : String.compare s s = Eq.
Proof.
  induction s as [|c s IH]; simpl; [reflexivity|].
  unfold Ascii.compare. rewrite N.compare_refl. exact IH.
Qed.

Lemma string_compare_lt_trans (a b c : string) :
  String.compare a b = Lt → String.compare b c = Lt → String.compare a c = Lt.
Proof.
  revert b c. induction a as [|x a IH]; intros [|y b] [|z c]; simpl; try congruence.
  unfold Ascii.compare.
  destruct (N.compare_spec (N_of_ascii x) (N_of_ascii y)) as [Hxy|Hxy|Hxy];
    destruct (N.compare_spec (N_of_ascii y) (N_of_ascii z)) as [Hyz|Hyz|Hyz];
    try congruence; intros Hab Hbc.
  - rewrite Hxy, Hyz, N.compare_refl. eauto.
  - rewrite Hxy. by apply N.compare_lt_iff in Hyz as ->.
  - rewrite <- Hyz. by apply N.compare_lt_iff in Hxy as ->.
  - assert (N_of_ascii x < N_of_ascii z)%N as Hxz by lia.
    by apply N.compare_lt_iff in Hxz as ->.
Qed.

#[global] Instance path_le_refl : Reflexive Path.le.
Proof. intros s. unfold Path.le, String.leb. by rewrite string_compare_refl. Qed.

#[global] Instance path_le_total : Total Path.le.
Proof. intros a b. apply String.leb_total. Qed.

#[global] Instance path_le_antisym : AntiSymm (=) Path.le.
Proof. intros a b. apply String.leb_antisym. Qed.

#[global] Instance path_le_trans : Transitive Path.le.
Proof.
  intros a b c. unfold Path.le, String.leb.
  destruct (String.compare a b) eqn:Hab; try discriminate;
    destruct (String.compare b c) eqn:Hbc; try discriminate; intros _ _.
  - apply String.compare_eq_iff in Hab as ->. by rewrite Hbc.
  - apply String.compare_eq_iff in Hab as ->. by rewrite Hbc.
  - apply String.compare_eq_iff in Hbc as <-. by rewrite Hab.
  - by rewrite (string_compare_lt_trans a b c).
Qed.

Lemma sorted_Sorted (xs : list string) : Sorted Path.le (Path.sorted xs).
Proof. apply Sorted_merge_sort, _. Qed.

Lemma sorted_Permutation (xs : list string) : Path.sorted xs ≡ₚ xs.
Proof. apply merge_sort_Permutation. Qed.

(** The sorted list depends on the set of names only, not on the order
    in which the directory was listed. *)
Lemma sorted_order_independent (xs ys : list string) :
  xs ≡ₚ ys → Path.sorted xs = Path.sorted ys.
Proof.
  intros Hp. apply (Sorted_unique Path.le); try apply sorted_Sorted.
  by rewrite !sorted_Permutation.
Qed.

Lemma sorted_length (xs : list string) : length (Path.sorted xs) = length xs.
Proof. by rewrite sorted_Permutation. Qed.

Lemma sorted_NoDup (xs : list string) : NoDup xs → NoDup (Path.sorted xs).
Proof. by rewrite sorted_Permutation. Qed.

Lemma sorted_elem_of (x : string) (xs : list string) : x ∈ Path.sorted xs ↔ x ∈ xs.
Proof. by rewrite sorted_Permutation. Qed.

Example join_ex1 : Path.join "data" ["train"; "*"] = "data/train/*".
Proof. reflexivity. Qed.

Example join_ex2 : Path.join "data/" ["/abs"; "vv"] = "/abs/vv".
Proof. reflexivity. Qed.

Example sorted_ex1 :
  Path.sorted ["b/10.png"; "b/2.png"; "a"; "b"; "B"] = ["B"; "a"; "b"; "b/10.png"; "b/2.png"].
Proof. vm_compute. reflexivity. Qed.

(* ================================================================== *)
(** * Zips                                                              *)
(* ================================================================== *)

Lemma zip4_lookup {A B C D} (xs : list A) (ys : list B) (zs : list C) (us : list D)
    (i : nat) x y z u :
  zip4 xs ys zs us !! i = Some (x, y, z, u) ↔
  xs !! i = Some x ∧ ys !! i = Some y ∧ zs !! i = Some z ∧ us !! i = Some u.
Proof.
  revert ys zs us i.
  induction xs as [|x' xs IH]; intros [|y' ys] [|z' zs] [|u' us] [|i]; simpl;
    try (split; [discriminate | intros (? & ? & ? & ?); discriminate]).
  - split; [intros [= -> -> -> ->]; done | intros ([= ->] & [= ->] & [= ->] & [= ->]); done].
  - apply IH.
Qed.

Lemma zip3_lookup {A B C} (xs : list A) (ys : list B) (zs : list C) (i : nat) x y z :
  zip3 xs ys zs !! i = Some (x, y, z) ↔
  xs !! i = Some x ∧ ys !! i = Some y ∧ zs !! i = Some z.
Proof.
  revert ys zs i.
  induction xs as [|x' xs IH]; intros [|y' ys] [|z' zs] [|i]; simpl;
    try (split; [discriminate | intros (? & ? & ?); discriminate]).
  - split; [intros [= -> -> ->]; done | intros ([= ->] & [= ->] & [= ->]); done].
  - apply IH.
Qed.

Lemma zip4_length {A B C D} (xs : list A) (ys : list B) (zs : list C) (us : list D) :
  length (zip4 xs ys zs us) =
  Nat.min (Nat.min (Nat.min (length xs) (length ys)) (length zs)) (length us).
Proof.
  revert ys zs us.
  induction xs as [|x xs IH]; intros [|y ys] [|z zs] [|u us]; simpl; try lia.
  rewrite IH. lia.
Qed.

Lemma zip3_length {A B C} (xs : list A) (ys : list B) (zs : list C) :
  length (zip3 xs ys zs) = Nat.min (Nat.min (length xs) (length ys)) (length zs).
Proof.
  revert ys zs.
  induction xs as [|x xs IH]; intros [|y ys] [|z zs]; simpl; try lia.
  rewrite IH. lia.
Qed.

(** A loop that appends one item per element builds a map. *)
Lemma fold_left_append {A B} (g : list B → A → list B) (f : A → B)
    (xs : list A) (acc : list B) :
  (∀ acc x, g acc x = acc ++ [f x]) →
  fold_left g xs acc = acc ++ (f <$> xs).
Proof.
  intros Hg. revert acc. induction xs as [|x xs IH]; intros acc; simpl.
  - by rewrite app_nil_r.
  - by rewrite IH, Hg, <- app_assoc.
Qed.

(* ================================================================== *)
(** * The indexer                                                       *)
(* ================================================================== *)

Section Indexer.

Context {G : Type}.
Implicit Types (w : World G) (fs : FileSystem).

Lemma log_events_fs evs w : w_fs (log_events evs w) = w_fs w.
Proof. reflexivity. Qed.

Lemma log_events_app evs1 evs2 w :
  log_events evs2 (log_events evs1 w) = log_events (evs1 ++ evs2) w.
Proof. unfold log_events; simpl. by rewrite app_assoc. Qed.

Lemma log_event_events ev w : log_event ev w = log_events [ev] w.
Proof. reflexivity. Qed.

Lemma bind_lift_Ok {A B} (a : A) (k : A → M G B) w :
  bind (lift (Ok a)) k w = k a w.
Proof. reflexivity. Qed.

Lemma bind_lift_Raise {A B} e (k : A → M G B) w :
  bind (lift (Raise e)) k w = (Raise e, w).
Proof. reflexivity. Qed.

Lemma bind_glob {B} pattern (k : list string → M G B) w :
  bind (glob pattern) k w =
    k (fs_glob (w_fs w) pattern) (log_event (EvGlob pattern) w).
Proof. reflexivity. Qed.

(** One turn of the folder loop appends the folder's sorted zip and
    only lists directories. *)
Lemma load_files_folder_spec split files folder w :
  ∃ evs,
    ETCI2021._load_files_folder split files folder w =
      (Ok (files ++ Spec.folder_records (w_fs w) split folder), log_events evs w).
Proof.
  exists ((λ sub, EvGlob (Path.join folder [sub; "*.png"])) <$>
            ["vv"; "vh"; "water_body_label"] ++
            (if negb (String.eqb split "test") then ["flood_label"] else [])).
  unfold ETCI2021._load_files_folder, Spec.folder_records, Spec.listing, bind, glob, ret.
  destruct (String.eqb split "test"); simpl;
    (apply (f_equal2 pair);
     [ f_equal; apply fold_left_append
     | unfold log_event, log_events; simpl; f_equal; by rewrite <- !app_assoc ]).
  - by intros acc [[??]?].
  - by intros acc [[[??]?]?].
Qed.

Lemma load_files_loop_spec split folders files w :
  ∃ evs,
    for_ folders files (ETCI2021._load_files_folder split) w =
      (Ok (files ++ (folder ← folders; Spec.folder_records (w_fs w) split folder)),
       log_events evs w).
Proof.
  revert files w. induction folders as [|folder folders IH]; intros files w; simpl.
  - exists []. unfold ret, log_events. rewrite !app_nil_r. by destruct w.
  - unfold bind.
    destruct (load_files_folder_spec split files folder w) as [evs1 ->].
    destruct (IH (files ++ Spec.folder_records (w_fs w) split folder)
                 (log_events evs1 w)) as [evs2 ->].
    exists (evs1 ++ evs2). by rewrite log_events_app, log_events_fs, <- app_assoc.
Qed.

Lemma metadata_valid split :
  dict_contains ETCI2021.metadata split = true ↔ split ∈ ["train"; "val"; "test"].
Proof.
  unfold dict_contains, ETCI2021.metadata. rewrite bool_decide_eq_true.
  rewrite !elem_of_cons, elem_of_nil.
  destruct (decide (split = "train")) as [->|?];
    [rewrite lookup_insert_eq; split; intros _; eauto 6|].
  rewrite lookup_insert_ne by done.
  destruct (decide (split = "val")) as [->|?];
    [rewrite lookup_insert_eq; split; intros _; eauto 6|].
  rewrite lookup_insert_ne by done.
  destruct (decide (split = "test")) as [->|?];
    [rewrite lookup_insert_eq; split; intros _; eauto 6|].
  rewrite lookup_insert_ne, lookup_empty by done.
  split; [by intros [? ?] | intros [?|[?|[?|[]]]]; done].
Qed.

Lemma metadata_directory split :
  dict_contains ETCI2021.metadata split = true →
  ∃ meta directory,
    ETCI2021.metadata !! split = Some meta ∧ meta !! "directory" = Some directory.
Proof.
  rewrite metadata_valid, !elem_of_cons, elem_of_nil.
  intros [->|[->|[->|[]]]]; eexists _, _; split; reflexivity.
Qed.

Lemma load_files_spec root split w :
  dict_contains ETCI2021.metadata split = true →
  ∃ evs,
    ETCI2021._load_files root split w =
      (Ok (Spec.index (w_fs w) root split), log_events evs w).
Proof.
  intros (meta & directory & Hm & Hd)%metadata_directory.
  unfold ETCI2021._load_files, Spec.index, dict_get.
  rewrite Hm, bind_lift_Ok, Hd, bind_lift_Ok, bind_glob. simpl mbind.
  destruct (load_files_loop_spec split (Spec.folders (w_fs w) root directory) []
              (log_event (EvGlob (Path.join root [directory; "*"])) w)) as [evs Hl].
  unfold Spec.folders in Hl. rewrite Hl, Hd.
  eexists. by rewrite log_event_events, log_events_app.
Qed.

(** The sorted zip sees the set of names in each directory, not the
    order of the listing. *)
Lemma index_order_independent fs1 fs2 root split :
  (∀ pattern, fs_glob fs1 pattern ≡ₚ fs_glob fs2 pattern) →
  Spec.index fs1 root split = Spec.index fs2 root split.
Proof.
  intros Hp.
  assert (∀ p, Path.sorted (fs_glob fs1 p) = Path.sorted (fs_glob fs2 p)) as Hs
    by (intros p; apply sorted_order_independent, Hp).
  unfold Spec.index, Spec.folders, Spec.folder_records, Spec.listing.
  destruct (_ ≫= _); [|done].
  rewrite Hs. apply list_bind_ext; [|done]. intros folder.
  by rewrite !Hs.
Qed.

(** C1: for a valid split, [_load_files] returns exactly the sorted zip:
    the folders of the split directory in sorted order and, for each, the
    sorted listings of its vv, vh, water (and flood) directories paired
    index by index.  The list is therefore fixed by the path names: two
    file systems that list the same names in different orders give the
    same list. *)
Theorem load_files_sorted_zip (root split : string) (w : World G) :
  dict_contains ETCI2021.metadata split = true →
  (ETCI2021._load_files root split w).1 = Ok (Spec.index (w_fs w) root split) ∧
  ∀ w' : World G,
    (∀ pattern, fs_glob (w_fs w) pattern ≡ₚ fs_glob (w_fs w') pattern) →
    (ETCI2021._load_files root split w').1 = (ETCI2021._load_files root split w).1.
Proof.
  intros Hv. destruct (load_files_spec root split w Hv) as [evs ->].
  split; [done|]. intros w' Hp.
  destruct (load_files_spec root split w' Hv) as [evs' ->]. simpl.
  f_equal. symmetry. by apply index_order_independent.
Qed.

Example load_files_fixture :
  (ETCI2021._load_files "data" "train" (Fixture.world Fixture.fs)).1 =
  Ok [ Spec.record4 "data/train/a/tiles/vv/1.png" "data/train/a/tiles/vh/1.png"
         "data/train/a/tiles/flood_label/1.png" "data/train/a/tiles/water_body_label/1.png";
       Spec.record4 "data/train/a/tiles/vv/2.png" "data/train/a/tiles/vh/2.png"
         "data/train/a/tiles/flood_label/2.png" "data/train/a/tiles/water_body_label/2.png";
       Spec.record4 "data/train/b/tiles/vv/7.png" "data/train/b/tiles/vh/7.png"
         "data/train/b/tiles/flood_label/7.png" "data/train/b/tiles/water_body_label/7.png" ].
Proof. vm_compute. reflexivity. Qed.

(** ** Matching counts *)

Lemma indexed_once_intro (recs : list FileRecord) (key : string)
    (l : list string) (f : string) :
  (∀ i : nat, recs !! i ≫= (.!! key) = l !! i) →
  NoDup l → f ∈ l → indexed_once recs key f.
Proof.
  intros Hrec Hnd [i Hi]%list_elem_of_lookup.
  exists i. split; [by rewrite Hrec|].
  intros j Hj. rewrite Hrec in Hj. by eapply NoDup_lookup.
Qed.

Lemma zip4_records_lookup (a b c d : list string) (n i : nat) :
  length a = n → length b = n → length c = n → length d = n →
  ((λ '(vv, vh, fl, wa), Spec.record4 vv vh fl wa) <$> zip4 a b c d) !! i =
    (x ← a !! i; y ← b !! i; z ← c !! i; u ← d !! i; Some (Spec.record4 x y z u)).
Proof.
  intros Ha Hb Hc Hd. rewrite list_lookup_fmap.
  destruct (decide (i < n)%nat) as [Hi|Hi].
  - destruct (lookup_lt_is_Some_2 a i) as [x Hx]; [lia|].
    destruct (lookup_lt_is_Some_2 b i) as [y Hy]; [lia|].
    destruct (lookup_lt_is_Some_2 c i) as [z Hz]; [lia|].
    destruct (lookup_lt_is_Some_2 d i) as [u Hu]; [lia|].
    rewrite Hx, Hy, Hz, Hu. simpl.
    by rewrite (proj2 (zip4_lookup a b c d i x y z u)).
  - rewrite (lookup_ge_None_2 a i) by lia.
    rewrite (lookup_ge_None_2 (zip4 a b c d) i); [done|].
    rewrite zip4_length. lia.
Qed.

Lemma zip3_records_lookup (a b c : list string) (n i : nat) :
  length a = n → length b = n → length c = n →
  ((λ '(vv, vh, wa), Spec.record3 vv vh wa) <$> zip3 a b c) !! i =
    (x ← a !! i; y ← b !! i; z ← c !! i; Some (Spec.record3 x y z)).
Proof.
  intros Ha Hb Hc. rewrite list_lookup_fmap.
  destruct (decide (i < n)%nat) as [Hi|Hi].
  - destruct (lookup_lt_is_Some_2 a i) as [x Hx]; [lia|].
    destruct (lookup_lt_is_Some_2 b i) as [y Hy]; [lia|].
    destruct (lookup_lt_is_Some_2 c i) as [z Hz]; [lia|].
    rewrite Hx, Hy, Hz. simpl.
    by rewrite (proj2 (zip3_lookup a b c i x y z)).
  - rewrite (lookup_ge_None_2 a i) by lia.
    rewrite (lookup_ge_None_2 (zip3 a b c) i); [done|].
    rewrite zip3_length. lia.
Qed.

(** Reading one key out of the [i]-th record of a zip of equally long
    lists gives the [i]-th entry of that key's list. *)
Ltac record_key n i :=
  match goal with
  | |- context [?l !! i] =>
      destruct (decide (i < n)%nat);
      [ repeat match goal with
               | |- context [?l' !! i] =>
                   lazymatch goal with
                   | H : l' !! i = Some _ |- _ => fail
                   | _ => let x := fresh "x" in
                          let Hx := fresh "Hx" in
                          destruct (lookup_lt_is_Some_2 l' i) as [x Hx];
                          [lia | rewrite !Hx]
                   end
               end; reflexivity
      | repeat match goal with
               | |- context [?l' !! i] => rewrite (lookup_ge_None_2 l' i) by lia
               end; reflexivity ]
  end.

(** C2 (amended): when the channel directories of a folder list the same
    number [N] of distinct files, the folder contributes exactly [N]
    records and every listed file is in exactly one of them. *)
Theorem load_files_folder_matched (w : World G) (split folder : string) (N : nat) :
  (∀ key sub, (key, sub) ∈ Spec.channels split →
     length (fs_glob (w_fs w) (Path.join folder [sub; "*.png"])) = N ∧
     NoDup (fs_glob (w_fs w) (Path.join folder [sub; "*.png"]))) →
  ∃ recs,
    (∀ files, (ETCI2021._load_files_folder split files folder w).1 = Ok (files ++ recs)) ∧
    length recs = N ∧
    folder_fully_indexed w split folder.
Proof.
  intros Hch.
  assert (∀ key sub, (key, sub) ∈ Spec.channels split →
            length (Spec.listing (w_fs w) folder sub) = N ∧
            NoDup (Spec.listing (w_fs w) folder sub)) as Hl.
  { intros key sub [Hn Hd]%Hch. unfold Spec.listing.
    by rewrite sorted_length, Hn; split; [|apply sorted_NoDup]. }
  exists (Spec.folder_records (w_fs w) split folder).
  assert (∀ files, (ETCI2021._load_files_folder split files folder w).1 =
                   Ok (files ++ Spec.folder_records (w_fs w) split folder)) as Hrun.
  { intros files. by destruct (load_files_folder_spec split files folder w) as [evs ->]. }
  split; [done|].
  unfold folder_fully_indexed. rewrite Hrun. simpl.
  unfold Spec.channels, Spec.folder_records in *.
  destruct (negb (String.eqb split "test")).
  - destruct (Hl "vv" "vv") as [Hvv Hvv']; [simpl; repeat constructor|].
    destruct (Hl "vh" "vh") as [Hvh Hvh']; [simpl; repeat constructor|].
    destruct (Hl "water_mask" "water_body_label") as [Hwa Hwa']; [simpl; repeat constructor|].
    destruct (Hl "flood_mask" "flood_label") as [Hfl Hfl']; [simpl; repeat constructor|].
    split; [by rewrite length_fmap, zip4_length, Hvv, Hvh, Hwa, Hfl; lia|].
    eexists; split; [done|].
    intros key sub f Hin Hf.
    apply (indexed_once_intro _ key (Spec.listing (w_fs w) folder sub));
      [| by apply Hl with key | by apply sorted_elem_of].
    intros i. rewrite (zip4_records_lookup _ _ _ _ N) by done.
    set_unfold in Hin.
    destruct Hin as [[= -> ->]|[[= -> ->]|[[= -> ->]|[[= -> ->]|[]]]]];
      record_key N i.
  - destruct (Hl "vv" "vv") as [Hvv Hvv']; [simpl; repeat constructor|].
    destruct (Hl "vh" "vh") as [Hvh Hvh']; [simpl; repeat constructor|].
    destruct (Hl "water_mask" "water_body_label") as [Hwa Hwa']; [simpl; repeat constructor|].
    split; [by rewrite length_fmap, zip3_length, Hvv, Hvh, Hwa; lia|].
    eexists; split; [done|].
    intros key sub f Hin Hf.
    apply (indexed_once_intro _ key (Spec.listing (w_fs w) folder sub));
      [| by apply Hl with key | by apply sorted_elem_of].
    intros i. rewrite (zip3_records_lookup _ _ _ N) by done.
    set_unfold in Hin.
    destruct Hin as [[= -> ->]|[[= -> ->]|[[= -> ->]|[]]]];
      record_key N i.
Qed.

End Indexer.

Lemma load_files_sorted_zip_witness :
  dict_contains ETCI2021.metadata "train" = true ∧
  (ETCI2021._load_files "data" "train" (Fixture.world Fixture.fs)).1 =
    Ok (Spec.index Fixture.fs "data" "train").
Proof.
  split; [reflexivity|].
  exact (proj1 (load_files_sorted_zip "data" "train" (Fixture.world Fixture.fs) eq_refl)).
Defined.

(** C2 as stated fails: with two [vv] tiles and one [vh] tile in a folder,
    the zip stops after one record and the second [vv] tile is in none. *)
Lemma load_files_folder_unmatched :
  ¬ folder_fully_indexed (Fixture.world Fixture.ragged_fs) "train" "data/train/a/tiles".
Proof.
  intros (recs & Hrun & Hall).
  vm_compute in Hrun. injection Hrun as <-.
  destruct (Hall "vv" "vv" "data/train/a/tiles/vv/2.png") as (i & Hi & _).
  - simpl. repeat constructor.
  - apply (bool_decide_unpack _). vm_compute. exact I.
  - destruct i as [|i]; vm_compute in Hi; discriminate.
Qed.

Lemma load_files_folder_matched_witness :
  let w := Fixture.world Fixture.fs in
  (∀ key sub, (key, sub) ∈ Spec.channels "train" →
     length (fs_glob (w_fs w) (Path.join "data/train/a/tiles" [sub; "*.png"])) = 2%nat ∧
     NoDup (fs_glob (w_fs w) (Path.join "data/train/a/tiles" [sub; "*.png"]))) ∧
  ∃ recs,
    (∀ files, (ETCI2021._load_files_folder "train" files "data/train/a/tiles" w).1 =
              Ok (files ++ recs)) ∧
    length recs = 2%nat ∧
    folder_fully_indexed w "train" "data/train/a/tiles".
Proof.
  intros w.
  assert (∀ key sub, (key, sub) ∈ Spec.channels "train" →
     length (fs_glob (w_fs w) (Path.join "data/train/a/tiles" [sub; "*.png"])) = 2%nat ∧
     NoDup (fs_glob (w_fs w) (Path.join "data/train/a/tiles" [sub; "*.png"]))) as H.
  { intros key sub Hin. set_unfold in Hin.
    destruct Hin as [[= -> ->]|[[= -> ->]|[[= -> ->]|[[= -> ->]|[]]]]];
      (split; [reflexivity | apply (bool_decide_unpack _); vm_compute; exact I]). }
  split; [exact H|].
  exact (load_files_folder_matched w "train" "data/train/a/tiles" 2 H).
Defined.

(* ================================================================== *)
(** * Construction of the dataset                                       *)
(* ================================================================== *)

Section Construction.

Context {G : Type}.
Variable download_and_extract_archive :
  string → string → string → option string → FileSystem → result FileSystem.
Implicit Types (w : World G).

Local Abbreviation init := (ETCI2021.__init__ download_and_extract_archive).

Lemma split_directory split directory :
  ETCI2021.metadata !! split ≫= (.!! "directory") = Some directory →
  dict_contains ETCI2021.metadata split = true ∧
  ∃ meta, ETCI2021.metadata !! split = Some meta ∧ meta !! "directory" = Some directory.
Proof.
  intros H. destruct (ETCI2021.metadata !! split) as [meta|] eqn:Hm; [|done].
  split; [|by exists meta].
  unfold dict_contains. rewrite Hm. by apply bool_decide_eq_true.
Qed.

Lemma valid_split_directory split :
  split ∈ ["train"; "val"; "test"] →
  ∃ directory, ETCI2021.metadata !! split ≫= (.!! "directory") = Some directory.
Proof.
  intros (meta & directory & Hm & Hd)%metadata_valid%metadata_directory.
  exists directory. by rewrite Hm.
Qed.

Lemma check_integrity_run (s : ETCI2021.self) w directory :
  ETCI2021.metadata !! ETCI2021.split s ≫= (.!! "directory") = Some directory →
  ETCI2021._check_integrity s w =
    (Ok (fs_exists (w_fs w) (Path.join (ETCI2021.root s) [directory])),
     log_event (EvExists (Path.join (ETCI2021.root s) [directory])) w).
Proof.
  intros (_ & meta & Hm & Hd)%split_directory.
  unfold ETCI2021._check_integrity, dict_get.
  rewrite Hm, bind_lift_Ok, Hd, bind_lift_Ok.
  unfold bind, path_exists, ret.
  by destruct (fs_exists _ _).
Qed.

(** Construction without download: one existence check, then the index. *)
Lemma init_no_download_run root split transforms checksum w directory :
  ETCI2021.metadata !! split ≫= (.!! "directory") = Some directory →
  ∃ evs,
    init root split transforms false checksum w =
      if fs_exists (w_fs w) (Path.join root [directory]) then
        (Ok {| ETCI2021.root := root; ETCI2021.split := split;
               ETCI2021.transforms := transforms; ETCI2021.checksum := checksum;
               ETCI2021.files := Spec.index (w_fs w) root split |},
         log_events (EvExists (Path.join root [directory]) :: evs) w)
      else
        (Raise (RuntimeError not_found_message),
         log_event (EvExists (Path.join root [directory])) w).
Proof.
  intros Hdir. pose proof (split_directory _ _ Hdir) as [Hv _].
  destruct (load_files_spec root split
              (log_event (EvExists (Path.join root [directory])) w) Hv) as [evs Hl].
  exists evs.
  unfold ETCI2021.__init__. rewrite Hv. unfold assert_.
  unfold bind at 1. unfold ret at 1. unfold bind at 1. unfold ret at 1.
  unfold bind at 1. rewrite (check_integrity_run _ w directory) by done.
  cbn [ETCI2021.root].
  destruct (fs_exists (w_fs w) (Path.join root [directory])); cbn [negb].
  - unfold bind. rewrite Hl. unfold ret.
    by rewrite log_event_events, log_events_app.
  - reflexivity.
Qed.

(** C5: with [download=False] and a valid split, construction raises the
    "dataset not found" [RuntimeError] exactly when the split directory
    [root/metadata[split]["directory"]] does not exist; when it exists,
    construction returns the dataset with its index. *)
Theorem init_not_found_iff (root split : string) (transforms : option (Sample → result Sample))
    (checksum : bool) (w : World G) (directory : string) :
  ETCI2021.metadata !! split ≫= (.!! "directory") = Some directory →
  let r := (init root split transforms false checksum w).1 in
  let dirpath := Path.join root [directory] in
  ((∃ msg, r = Raise (RuntimeError msg)) ↔ fs_exists (w_fs w) dirpath = false) ∧
  (fs_exists (w_fs w) dirpath = false → r = Raise (RuntimeError not_found_message)) ∧
  (fs_exists (w_fs w) dirpath = true →
     ∃ s, r = Ok s ∧ ETCI2021.files s = Spec.index (w_fs w) root split).
Proof.
  intros Hdir r dirpath. subst r dirpath.
  destruct (init_no_download_run root split transforms checksum w directory Hdir)
    as [evs ->].
  destruct (fs_exists (w_fs w) (Path.join root [directory])); simpl.
  - split; [|split]; [split; [by intros [? ?]|done] | done | eauto].
  - split; [|split]; [split; eauto | done | done].
Qed.

(** ** The call log only grows *)

Lemma grows_ret {A} (a : A) : log_grows (ret (G:=G) a).
Proof. intros w. exists []. simpl. by rewrite app_nil_r. Qed.

Lemma grows_raise {A} e : log_grows (raise (G:=G) (A:=A) e).
Proof. intros w. exists []. simpl. by rewrite app_nil_r. Qed.

Lemma grows_lift {A} (r : result A) : log_grows (lift (G:=G) r).
Proof. intros w. exists []. simpl. by rewrite app_nil_r. Qed.

Lemma grows_logged {A} (f : World G → result A) ev :
  log_grows (λ w, (f w, log_event ev w)).
Proof. intros w. by exists [ev]. Qed.

Lemma grows_bind {A B} (m : M G A) (k : A → M G B) :
  log_grows m → (∀ a, log_grows (k a)) → log_grows (bind m k).
Proof.
  intros Hm Hk w. unfold bind. destruct (Hm w) as [evs1 H1].
  destruct (m w) as [[a|e] w1]; simpl in *.
  - destruct (Hk a w1) as [evs2 H2]. exists (evs1 ++ evs2).
    by rewrite H2, H1, app_assoc.
  - by exists evs1.
Qed.

Lemma grows_for {A S} (xs : list A) (body : S → A → M G S) acc :
  (∀ acc x, log_grows (body acc x)) → log_grows (for_ xs acc body).
Proof.
  intros Hb. revert acc. induction xs as [|x xs IH]; intros acc; simpl.
  - apply grows_ret.
  - apply grows_bind; [apply Hb | apply IH].
Qed.

Ltac grows :=
  repeat first
    [ apply grows_ret | apply grows_raise | apply grows_lift
    | apply (grows_logged _ _)
    | apply grows_for; intros
    | apply grows_bind; [|intros]
    | match goal with
      | |- log_grows (if ?b then _ else _) => destruct b
      | |- log_grows (match ?o with Some _ => _ | None => _ end) => destruct o
      end ].

Lemma grows_check_integrity s : log_grows (ETCI2021._check_integrity (G:=G) s).
Proof. unfold ETCI2021._check_integrity, path_exists. grows. Qed.

Lemma grows_download s :
  log_grows (ETCI2021._download (G:=G) download_and_extract_archive s).
Proof.
  unfold ETCI2021._download, print. grows; try apply grows_check_integrity.
  intros w. simpl. destruct (download_and_extract_archive _ _ _ _ _); by eexists.
Qed.

Lemma grows_load_files root split : log_grows (ETCI2021._load_files (G:=G) root split).
Proof.
  unfold ETCI2021._load_files, ETCI2021._load_files_folder, glob. grows.
Qed.

(** Whatever follows the first existence check is appended after it. *)
Lemma after_check_integrity {B} s (k : bool → M G B) w directory :
  ETCI2021.metadata !! ETCI2021.split s ≫= (.!! "directory") = Some directory →
  (∀ b, log_grows (k b)) →
  ∃ evs, w_log (bind (ETCI2021._check_integrity s) k w).2 =
         w_log w ++ EvExists (Path.join (ETCI2021.root s) [directory]) :: evs.
Proof.
  intros Hdir Hk. unfold bind. rewrite (check_integrity_run s w directory Hdir).
  destruct (Hk (fs_exists (w_fs w) (Path.join (ETCI2021.root s) [directory]))
               (log_event (EvExists (Path.join (ETCI2021.root s) [directory])) w))
    as [evs ->].
  exists evs. simpl. by rewrite <- app_assoc.
Qed.

(** C6: a split outside "train", "val", "test" makes [__init__] raise
    [AssertionError] with the world untouched: nothing was downloaded and no
    path was looked up.  For a split in that set the assertion passes, and
    the first call recorded is the existence check of the split directory. *)
Theorem init_split_assertion (root split : string)
    (transforms : option (Sample → result Sample)) (download checksum : bool)
    (w : World G) :
  (split ∉ ["train"; "val"; "test"] →
     init root split transforms download checksum w = (Raise AssertionError, w)) ∧
  (split ∈ ["train"; "val"; "test"] →
     assert_ (dict_contains ETCI2021.metadata split) w = (Ok tt, w) ∧
     ∃ directory evs,
       ETCI2021.metadata !! split ≫= (.!! "directory") = Some directory ∧
       w_log (init root split transforms download checksum w).2 =
         w_log w ++ EvExists (Path.join root [directory]) :: evs).
Proof.
  split.
  - intros Hn. unfold ETCI2021.__init__.
    destruct (dict_contains ETCI2021.metadata split) eqn:Hc; [|done].
    by apply metadata_valid in Hc.
  - intros Hv. pose proof Hv as Hc%metadata_valid.
    destruct (valid_split_directory split Hv) as [directory Hdir].
    rewrite Hc. split; [done|]. exists directory.
    enough (∃ evs, w_log (init root split transforms download checksum w).2 =
                   w_log w ++ EvExists (Path.join root [directory]) :: evs)
      as [evs Hevs] by (by exists evs).
    unfold ETCI2021.__init__. rewrite Hc. unfold assert_.
    unfold bind at 1. unfold ret at 1. cbv iota.
    set (s := {| ETCI2021.root := root; ETCI2021.split := split;
                 ETCI2021.transforms := transforms; ETCI2021.checksum := checksum;
                 ETCI2021.files := [] |}).
    assert (∀ b : bool, log_grows
              (if negb b then raise (G:=G) (RuntimeError
                 ("Dataset not found or corrupted. " +:+
                  "You can use download=True to download it"))
               else bind (ETCI2021._load_files root split)
                      (λ fs, ret {| ETCI2021.root := root; ETCI2021.split := split;
                                    ETCI2021.transforms := transforms;
                                    ETCI2021.checksum := checksum;
                                    ETCI2021.files := fs |}))) as Hrest.
    { intros b. destruct b; cbn [negb]; [|apply grows_raise].
      apply grows_bind; [apply grows_load_files | intros; apply grows_ret]. }
    destruct download.
    + unfold ETCI2021._download.
      assert (∀ (m : M G bool) (k1 : bool → M G unit) (k2 : unit → M G ETCI2021.self) w0,
                bind (bind m k1) k2 w0 = bind m (λ b, bind (k1 b) k2) w0) as Hassoc.
      { intros m k1 k2 w0. unfold bind. by destruct (m w0) as [[?|?] ?]. }
      rewrite Hassoc.
      apply (after_check_integrity s _ w directory Hdir).
      intros b. apply grows_bind.
      * pose proof (grows_download s) as Hd. unfold ETCI2021._download in Hd.
        destruct b.
        -- unfold print. grows.
        -- unfold print. grows.
           intros w0. simpl. destruct (download_and_extract_archive _ _ _ _ _); by eexists.
      * intros _. apply grows_bind; [apply grows_check_integrity|apply Hrest].
    + unfold bind at 1. unfold ret at 1. cbv iota.
      apply (after_check_integrity s _ w directory Hdir), Hrest.
Qed.

End Construction.

Lemma init_not_found_iff_witness :
  let w := Fixture.world Fixture.fs in
  let r := (ETCI2021.__init__ Fixture.no_download "nowhere" "val" None false false w).1 in
  ETCI2021.metadata !! "val" ≫= (.!! "directory") = Some "test" ∧
  fs_exists (w_fs w) "nowhere/test" = false ∧
  r = Raise (RuntimeError not_found_message).
Proof.
  intros w r. split; [reflexivity|]. split; [reflexivity|].
  exact (proj1 (proj2 (init_not_found_iff Fixture.no_download "nowhere" "val" None false w
                         "test" eq_refl)) eq_refl).
Defined.

Lemma init_split_assertion_witness :
  let w := Fixture.world Fixture.fs in
  ("validation" ∉ ["train"; "val"; "test"]) ∧
  ETCI2021.__init__ Fixture.no_download "data" "validation" None true false w =
    (Raise AssertionError, w).
Proof.
  intros w.
  assert ("validation" ∉ ["train"; "val"; "test"]) as H
    by (apply (bool_decide_unpack _); vm_compute; exact I).
  split; [exact H|].
  exact (proj1 (init_split_assertion Fixture.no_download "data" "validation" None true false w) H).
Defined.

(* ================================================================== *)
(** * Row-major indexing                                                *)
(* ================================================================== *)

Section Flat.

Context {A : Type}.
Implicit Types (g : nat → list A).

Lemma bind_seq_length g (m s n : nat) :
  (∀ x, length (g x) = m) → length (seq s n ≫= g) = (n * m)%nat.
Proof.
  intros Hg. revert s. induction n as [|n IH]; intros s; [done|].
  simpl seq. rewrite bind_cons, length_app, Hg, IH. lia.
Qed.

(** In a concatenation of blocks of equal length [m], entry [i * m + j]
    is entry [j] of block [i]. *)
Lemma bind_seq_lookup g (m s n i j : nat) :
  (∀ x, length (g x) = m) → (i < n)%nat → (j < m)%nat →
  (seq s n ≫= g) !! (i * m + j)%nat = g (s + i)%nat !! j.
Proof.
  intros Hg. revert s i. induction n as [|n IH]; intros s i Hi Hj; [lia|].
  simpl seq. rewrite bind_cons. destruct i as [|i].
  - rewrite lookup_app_l by (rewrite Hg; lia). by rewrite Nat.add_0_r.
  - rewrite lookup_app_r by (rewrite Hg; lia). rewrite Hg.
    replace (S i * m + j - m)%nat with (i * m + j)%nat by lia.
    rewrite IH by lia. do 2 f_equal. lia.
Qed.

Lemma bind2_length (f : nat → nat → A) (H W : nat) :
  length (h ← seq 0 H; x ← seq 0 W; [f h x]) = (H * W)%nat.
Proof.
  apply bind_seq_length. intros h.
  rewrite (bind_seq_length _ 1) by done. lia.
Qed.

Lemma bind2_lookup (f : nat → nat → A) (H W h x : nat) :
  (h < H)%nat → (x < W)%nat →
  (h ← seq 0 H; x ← seq 0 W; [f h x]) !! (h * W + x)%nat = Some (f h x).
Proof.
  intros Hh Hx.
  rewrite (bind_seq_lookup _ W) by
    (try done; intros h'; rewrite (bind_seq_length _ 1) by done; lia).
  replace x with (x * 1 + 0)%nat at 1 by lia.
  by rewrite (bind_seq_lookup _ 1) by (done || lia).
Qed.

Lemma bind3_length (f : nat → nat → nat → A) (C H W : nat) :
  length (c ← seq 0 C; h ← seq 0 H; x ← seq 0 W; [f c h x]) = (C * (H * W))%nat.
Proof. apply bind_seq_length. intros c. apply bind2_length. Qed.

Lemma bind3_lookup (f : nat → nat → nat → A) (C H W c h x : nat) :
  (c < C)%nat → (h < H)%nat → (x < W)%nat →
  (c ← seq 0 C; h ← seq 0 H; x ← seq 0 W; [f c h x]) !! ((c * H + h) * W + x)%nat =
    Some (f c h x).
Proof.
  intros Hc Hh Hx.
  replace ((c * H + h) * W + x)%nat with (c * (H * W) + (h * W + x))%nat by lia.
  rewrite (bind_seq_lookup _ (H * W)); [|intros; apply bind2_length|done|nia].
  by apply bind2_lookup.
Qed.

Lemma fmap_bind {B C} (f : B → C) (g : A → list B) (l : list A) :
  f <$> (l ≫= g) = l ≫= (λ x, f <$> g x).
Proof.
  induction l as [|a l IH]; [done|].
  by rewrite !bind_cons, fmap_app, IH.
Qed.

End Flat.

(* ================================================================== *)
(** * Decoding images and masks                                         *)
(* ================================================================== *)

Lemma get3_array_RGB (img : PILImage) (h x c : nat) :
  (h < im_height img)%nat → (x < im_width img)%nat → (c < 3)%nat →
  Torch.get3 (Torch.array_RGB img) h x c = SInt (im_rgb img h x c mod 256).
Proof.
  intros Hh Hx Hc. unfold Torch.get3, Torch.array_RGB. cbn [t_shape t_data].
  apply nth_lookup_Some.
  by apply (bind3_lookup (λ h x c, SInt (im_rgb img h x c mod 256))).
Qed.

(** [permute((2, 0, 1))] of the decoded array is the band in CxHxW. *)
Lemma permute_array_RGB (img : PILImage) :
  Torch.permute (Torch.from_numpy (Torch.array_RGB img)) [2; 0; 1]%nat = Ok (Spec.band img).
Proof.
  unfold Torch.permute, Torch.from_numpy, Spec.band.
  cbn [t_shape t_dtype Torch.array_RGB].
  rewrite bool_decide_eq_true_2 by (apply (bool_decide_unpack _); vm_compute; exact I).
  cbn [nth Nat.eqb]. do 2 f_equal.
  apply Forall_bind_ext, Forall_forall. intros c Hc%elem_of_seq.
  apply Forall_bind_ext, Forall_forall. intros h Hh%elem_of_seq.
  apply Forall_bind_ext, Forall_forall. intros x Hx%elem_of_seq.
  f_equal. apply get3_array_RGB; lia.
Qed.

Lemma get3_band (img : PILImage) (c h x : nat) :
  (c < 3)%nat → (h < im_height img)%nat → (x < im_width img)%nat →
  Torch.get3 (Spec.band img) c h x = SInt (im_rgb img h x c mod 256).
Proof.
  intros Hc Hh Hx. unfold Torch.get3, Spec.band. cbn [t_shape t_data].
  apply nth_lookup_Some.
  by apply (bind3_lookup (λ c h x, SInt (im_rgb img h x c mod 256))).
Qed.

Lemma clamp_to_long (z : Z) :
  Torch.cast_scalar Int64 (Torch.clamp_scalar 0 1 (SInt z)) =
    SInt (if 0 <? z then 1 else 0).
Proof.
  unfold Torch.clamp_scalar, Torch.cast_scalar. f_equal.
  destruct (Z.ltb_spec 0 z).
  - by replace (Z.min (Z.max z 0) 1) with 1 by lia.
  - by replace (Z.min (Z.max z 0) 1) with 0 by lia.
Qed.

(** Clamping to [0, 1] and converting to [long] gives the 0/1 mask. *)
Lemma clamp_array_L (img : PILImage) :
  Torch.to Int64 (Torch.clamp (Torch.from_numpy (Torch.array_L img)) 0 1) =
    Spec.binary_mask img.
Proof.
  unfold Torch.to, Torch.clamp, Torch.from_numpy, Torch.array_L, Spec.binary_mask.
  cbn [t_shape t_dtype t_data]. f_equal.
  rewrite <- list_fmap_compose.
  rewrite fmap_bind. apply list_bind_ext; [|done]. intros h.
  rewrite fmap_bind. apply list_bind_ext; [|done]. intros x.
  change (Torch.cast_scalar Int64 ∘ Torch.clamp_scalar 0 1 <$>
            [SInt (im_l img h x mod 256)])
    with [Torch.cast_scalar Int64 (Torch.clamp_scalar 0 1 (SInt (im_l img h x mod 256)))].
  by rewrite clamp_to_long.
Qed.

Lemma binary_mask_entries (img : PILImage) :
  Forall (λ s, s = SInt 0 ∨ s = SInt 1) (t_data (Spec.binary_mask img)).
Proof.
  unfold Spec.binary_mask. cbn [t_data].
  apply Forall_bind, Forall_forall. intros h _.
  apply Forall_bind, Forall_forall. intros x _.
  apply Forall_singleton. destruct (0 <? _); auto.
Qed.

Section Loading.

Context {G : Type}.
Implicit Types (w : World G).

Lemma bind_run {A B} (m : M G A) (k : A → M G B) w a w' :
  m w = (Ok a, w') → bind m k w = k a w'.
Proof. intros H. unfold bind. by rewrite H. Qed.

Lemma load_image_run path w img :
  fs_open (w_fs w) path = Some img →
  ETCI2021._load_image path w = (Ok (Spec.band img), log_event (EvOpen path) w).
Proof.
  intros Ho. unfold ETCI2021._load_image, Image_open, bind, lift.
  change (Path.join path []) with path. rewrite Ho.
  by rewrite permute_array_RGB.
Qed.

Lemma load_target_run path w img :
  fs_open (w_fs w) path = Some img →
  ETCI2021._load_target path w = (Ok (Spec.binary_mask img), log_event (EvOpen path) w).
Proof.
  intros Ho. unfold ETCI2021._load_target, Image_open, bind, ret.
  change (Path.join path []) with path. rewrite Ho.
  by rewrite clamp_array_L.
Qed.

(** C8: whenever the mask file opens, [_load_target] returns a [long]
    tensor of the picture's size whose entries are all 0 or 1: entry
    [h, x] is 1 exactly when the decoded pixel is not 0, so 255 becomes 1. *)
Theorem load_target_binary (path : string) (w : World G) (img : PILImage) :
  fs_open (w_fs w) path = Some img →
  ∃ t,
    (ETCI2021._load_target path w).1 = Ok t ∧
    t_dtype t = Int64 ∧
    t_shape t = [im_height img; im_width img] ∧
    Forall (λ s, s = SInt 0 ∨ s = SInt 1) (t_data t) ∧
    ∀ h x, (h < im_height img)%nat → (x < im_width img)%nat →
      t_data t !! (h * im_width img + x)%nat =
        Some (SInt (if 0 <? im_l img h x mod 256 then 1 else 0)).
Proof.
  intros Ho. exists (Spec.binary_mask img).
  rewrite (load_target_run path w img Ho).
  split; [done|]. split; [done|]. split; [done|].
  split; [apply binary_mask_entries|].
  intros h x Hh Hx. unfold Spec.binary_mask. cbn [t_data].
  by apply (bind2_lookup (λ h x, SInt (if 0 <? im_l img h x mod 256 then 1 else 0))).
Qed.

(** ** Assembling a sample *)

Lemma cast_uint8_band (img : PILImage) :
  Torch.cast_scalar UInt8 <$> t_data (Spec.band img) = t_data (Spec.band img).
Proof.
  unfold Spec.band. cbn [t_data].
  rewrite fmap_bind. apply list_bind_ext; [|done]. intros c.
  rewrite fmap_bind. apply list_bind_ext; [|done]. intros h.
  rewrite fmap_bind. apply list_bind_ext; [|done]. intros x.
  cbn. by rewrite Z.mod_mod.
Qed.

Lemma cast_int64_binary_mask (img : PILImage) :
  Torch.cast_scalar Int64 <$> t_data (Spec.binary_mask img) =
    t_data (Spec.binary_mask img).
Proof.
  unfold Spec.binary_mask. cbn [t_data].
  rewrite fmap_bind. apply list_bind_ext; [|done]. intros h.
  rewrite fmap_bind. apply list_bind_ext; [|done]. intros x.
  cbn. by destruct (0 <? _).
Qed.

Lemma cat_bands (vv vh : PILImage) :
  im_height vh = im_height vv → im_width vh = im_width vv →
  Torch.cat [Spec.band vv; Spec.band vh] = Ok (Spec.image vv vh).
Proof.
  intros Hh Hw. unfold Torch.cat.
  rewrite !filter_cons_True, filter_nil by done.
  cbn [t_shape Spec.band forallb tail].
  rewrite Hh, Hw, bool_decide_eq_true_2 by done.
  cbn [andb]. unfold Spec.image. do 2 f_equal.
  rewrite bind_cons, bind_singleton.
  change (foldr Torch.promote Bool (t_dtype <$> [Spec.band vv; Spec.band vh])) with UInt8.
  by rewrite !cast_uint8_band.
Qed.

Lemma stack_masks (water flood : PILImage) :
  im_height flood = im_height water → im_width flood = im_width water →
  Torch.stack [Spec.binary_mask water; Spec.binary_mask flood] =
    Ok (Spec.mask2 water flood).
Proof.
  intros Hh Hw. unfold Torch.stack.
  cbn [t_shape Spec.binary_mask forallb].
  rewrite Hh, Hw, !bool_decide_eq_true_2 by done.
  cbn [andb]. unfold Spec.mask2. do 2 f_equal.
  rewrite bind_cons, bind_singleton.
  change (foldr Torch.promote Bool
            (t_dtype <$> [Spec.binary_mask water; Spec.binary_mask flood])) with Int64.
  by rewrite !cast_int64_binary_mask.
Qed.

Lemma getitem_run_labelled (s : ETCI2021.self) index w rec
    pvv pvh pwa pfl (vv vh water flood : PILImage) :
  ETCI2021.transforms s = None →
  String.eqb (ETCI2021.split s) "test" = false →
  list_getitem (ETCI2021.files s) index = Ok rec →
  rec !! "vv" = Some pvv → rec !! "vh" = Some pvh →
  rec !! "water_mask" = Some pwa → rec !! "flood_mask" = Some pfl →
  fs_open (w_fs w) pvv = Some vv → fs_open (w_fs w) pvh = Some vh →
  fs_open (w_fs w) pwa = Some water → fs_open (w_fs w) pfl = Some flood →
  im_height vh = im_height vv → im_width vh = im_width vv →
  im_height flood = im_height water → im_width flood = im_width water →
  ETCI2021.__getitem__ s index w =
    (Ok (<["image" := Spec.image vv vh]> (<["mask" := Spec.mask2 water flood]> ∅)),
     log_events [EvOpen pvv; EvOpen pvh; EvOpen pwa; EvOpen pfl] w).
Proof.
  intros Htr Hsp Hrec Hvv Hvh Hwa Hfl Ovv Ovh Owa Ofl ? ? ? ?.
  unfold ETCI2021.__getitem__, dict_get.
  rewrite Hrec, bind_lift_Ok, Hvv, bind_lift_Ok.
  rewrite (bind_run _ _ _ _ _ (load_image_run pvv w vv Ovv)).
  rewrite Hvh, bind_lift_Ok.
  rewrite (bind_run _ _ _ _ _ (load_image_run pvh (log_event (EvOpen pvv) w) vh Ovh)).
  rewrite Hwa, bind_lift_Ok.
  rewrite (bind_run _ _ _ _ _
             (load_target_run pwa (log_event (EvOpen pvh) (log_event (EvOpen pvv) w)) water Owa)).
  rewrite Hsp. cbn [negb].
  erewrite bind_run; last first.
  { rewrite Hfl, bind_lift_Ok.
    rewrite (bind_run _ _ _ _ _
               (load_target_run pfl
                  (log_event (EvOpen pwa) (log_event (EvOpen pvh) (log_event (EvOpen pvv) w)))
                  flood Ofl)).
    by rewrite stack_masks. }
  rewrite cat_bands, bind_lift_Ok, Htr by done.
  unfold ret. by rewrite !log_event_events, !log_events_app.
Qed.

Lemma getitem_run_unlabelled (s : ETCI2021.self) index w rec
    pvv pvh pwa (vv vh water : PILImage) :
  ETCI2021.transforms s = None →
  String.eqb (ETCI2021.split s) "test" = true →
  list_getitem (ETCI2021.files s) index = Ok rec →
  rec !! "vv" = Some pvv → rec !! "vh" = Some pvh → rec !! "water_mask" = Some pwa →
  fs_open (w_fs w) pvv = Some vv → fs_open (w_fs w) pvh = Some vh →
  fs_open (w_fs w) pwa = Some water →
  im_height vh = im_height vv → im_width vh = im_width vv →
  ETCI2021.__getitem__ s index w =
    (Ok (<["image" := Spec.image vv vh]> (<["mask" := Spec.mask1 water]> ∅)),
     log_events [EvOpen pvv; EvOpen pvh; EvOpen pwa] w).
Proof.
  intros Htr Hsp Hrec Hvv Hvh Hwa Ovv Ovh Owa ? ?.
  unfold ETCI2021.__getitem__, dict_get.
  rewrite Hrec, bind_lift_Ok, Hvv, bind_lift_Ok.
  rewrite (bind_run _ _ _ _ _ (load_image_run pvv w vv Ovv)).
  rewrite Hvh, bind_lift_Ok.
  rewrite (bind_run _ _ _ _ _ (load_image_run pvh (log_event (EvOpen pvv) w) vh Ovh)).
  rewrite Hwa, bind_lift_Ok.
  rewrite (bind_run _ _ _ _ _
             (load_target_run pwa (log_event (EvOpen pvh) (log_event (EvOpen pvv) w)) water Owa)).
  rewrite Hsp. cbn [negb].
  erewrite bind_run; [|reflexivity].
  rewrite cat_bands, bind_lift_Ok, Htr by done.
  unfold ret. by rewrite !log_event_events, !log_events_app.
Qed.

(** ** Reading the assembled tensors *)

Lemma band_length (img : PILImage) :
  length (t_data (Spec.band img)) = (3 * (im_height img * im_width img))%nat.
Proof. apply bind3_length. Qed.

Lemma binary_mask_length (img : PILImage) :
  length (t_data (Spec.binary_mask img)) = (im_height img * im_width img)%nat.
Proof. apply bind2_length. Qed.

Lemma get3_image (vv vh : PILImage) (c h x : nat) :
  im_height vh = im_height vv → im_width vh = im_width vv →
  (c < 3)%nat → (h < im_height vv)%nat → (x < im_width vv)%nat →
  Torch.get3 (Spec.image vv vh) c h x = SInt (im_rgb vv h x c mod 256) ∧
  Torch.get3 (Spec.image vv vh) (3 + c) h x = SInt (im_rgb vh h x c mod 256).
Proof.
  intros Hh Hw Hc Hh' Hx. unfold Torch.get3, Spec.image. cbn [t_shape t_data].
  split; apply nth_lookup_Some.
  - rewrite lookup_app_l by (rewrite band_length; nia).
    by apply (bind3_lookup (λ c h x, SInt (im_rgb vv h x c mod 256))).
  - rewrite lookup_app_r by (rewrite band_length; nia).
    rewrite band_length.
    replace (((3 + c) * im_height vv + h) * im_width vv + x
             - 3 * (im_height vv * im_width vv))%nat
      with ((c * im_height vh + h) * im_width vh + x)%nat by (rewrite Hh, Hw; nia).
    apply (bind3_lookup (λ c h x, SInt (im_rgb vh h x c mod 256))); by rewrite ?Hh, ?Hw.
Qed.

Lemma getitem_mask2 (water flood : PILImage) :
  im_height flood = im_height water → im_width flood = im_width water →
  Torch.getitem (Spec.mask2 water flood) 0 = Ok (Spec.binary_mask water) ∧
  Torch.getitem (Spec.mask2 water flood) 1 = Ok (Spec.binary_mask flood).
Proof.
  intros Hh Hw. unfold Torch.getitem, Spec.mask2. cbn [t_shape t_data t_dtype].
  assert (Torch.numel [im_height water; im_width water] =
          length (t_data (Spec.binary_mask water))) as Hn
    by (rewrite binary_mask_length; unfold Torch.numel; simpl; lia).
  split; cbn -[take drop Spec.binary_mask Torch.numel]; rewrite Hn.
  - by rewrite drop_0, take_app_length.
  - change (1 <? Z.of_nat 2) with true. change (Z.to_nat 1) with 1%nat.
    cbv iota. rewrite Nat.mul_1_l, drop_app_length, take_ge.
    + unfold Spec.binary_mask. by rewrite Hh, Hw.
    + rewrite !binary_mask_length, Hh, Hw. lia.
Qed.

Lemma getitem_mask1 (water : PILImage) :
  Torch.getitem (Spec.mask1 water) 0 = Ok (Spec.binary_mask water).
Proof.
  unfold Torch.getitem, Spec.mask1. cbn [t_shape t_data t_dtype].
  cbn -[take drop Spec.binary_mask Torch.numel].
  rewrite drop_0, take_ge; [done|].
  rewrite binary_mask_length. unfold Torch.numel. simpl. lia.
Qed.

Lemma tile_ok_key fs split rec H W key :
  tile_ok fs split rec H W →
  key ∈ ["vv"; "vh"; "water_mask"] ∨ (String.eqb split "test" = false ∧ key = "flood_mask") →
  ∃ path img,
    rec !! key = Some path ∧ fs_open fs path = Some img ∧
    im_height img = H ∧ im_width img = W.
Proof.
  intros Hok Hkey. apply Hok. unfold Spec.channels.
  rewrite fmap_app, elem_of_app. destruct Hkey as [Hkey|[-> ->]].
  - left. exact Hkey.
  - right. simpl. constructor.
Qed.

(** C3: without transforms, [__getitem__] returns under "image" the three
    channels of the decoded VV picture followed by the three channels of
    the decoded VH picture: a 6 x H x W tensor whose entry [c, h, x] is
    channel [c] of VV pixel (h, x) and whose entry [3 + c, h, x] is channel
    [c] of VH pixel (h, x).  Each band is [_load_image]'s permutation of
    the decoded HxWxC array to CxHxW. *)
Theorem getitem_image_layout (s : ETCI2021.self) (index : Z) (w : World G)
    (rec : FileRecord) (H W : nat) :
  ETCI2021.transforms s = None →
  list_getitem (ETCI2021.files s) index = Ok rec →
  tile_ok (w_fs w) (ETCI2021.split s) rec H W →
  ∃ sample image vv vh tvv tvh,
    (ETCI2021.__getitem__ s index w).1 = Ok sample ∧
    sample !! "image" = Some image ∧
    rec !! "vv" ≫= fs_open (w_fs w) = Some vv ∧
    rec !! "vh" ≫= fs_open (w_fs w) = Some vh ∧
    Torch.permute (Torch.array_RGB vv) [2; 0; 1]%nat = Ok tvv ∧
    Torch.permute (Torch.array_RGB vh) [2; 0; 1]%nat = Ok tvh ∧
    Torch.cat [tvv; tvh] = Ok image ∧
    t_shape image = [6%nat; H; W] ∧
    ∀ c h x, (c < 3)%nat → (h < H)%nat → (x < W)%nat →
      Torch.get3 image c h x = SInt (im_rgb vv h x c mod 256) ∧
      Torch.get3 image (3 + c) h x = SInt (im_rgb vh h x c mod 256).
Proof.
  intros Htr Hrec Hok.
  destruct (tile_ok_key _ _ _ _ _ "vv" Hok) as (pvv & vv & Hvv & Ovv & Hh1 & Hw1);
    [left; repeat constructor|].
  destruct (tile_ok_key _ _ _ _ _ "vh" Hok) as (pvh & vh & Hvh & Ovh & Hh2 & Hw2);
    [left; repeat constructor|].
  destruct (tile_ok_key _ _ _ _ _ "water_mask" Hok) as (pwa & wa & Hwa & Owa & Hh3 & Hw3);
    [left; repeat constructor|].
  exists (match ETCI2021.__getitem__ s index w with (Ok x, _) => x | _ => ∅ end).
  exists (Spec.image vv vh), vv, vh, (Spec.band vv), (Spec.band vh).
  assert (∃ mask, (ETCI2021.__getitem__ s index w).1 =
                  Ok (<["image" := Spec.image vv vh]> (<["mask" := mask]> ∅))) as [mask Hrun].
  { destruct (String.eqb (ETCI2021.split s) "test") eqn:Hsp.
    - eexists. erewrite getitem_run_unlabelled; try done; congruence.
    - destruct (tile_ok_key _ _ _ _ _ "flood_mask" Hok)
        as (pfl & fl & Hfl & Ofl & Hh4 & Hw4); [by right|].
      eexists. erewrite getitem_run_labelled; try done; congruence. }
  destruct (ETCI2021.__getitem__ s index w) as [[sample|e] w'];
    simpl in Hrun; [injection Hrun as ->|done].
  split; [done|]. split; [by rewrite lookup_insert_eq|].
  split; [by rewrite Hvv|]. split; [by rewrite Hvh|].
  split; [apply permute_array_RGB|]. split; [apply permute_array_RGB|].
  split; [apply cat_bands; congruence|].
  split; [by unfold Spec.image; cbn [t_shape]; rewrite Hh1, Hw1|].
  intros c h x Hc Hh Hx. apply get3_image; congruence || lia.
Qed.

(** C7: for a valid split every record of the index has exactly the keys
    of the split: vv, vh, flood_mask, water_mask for "train" and "val",
    and vv, vh, water_mask for "test".  Without transforms [__getitem__]
    returns under "mask" a 2 x H x W tensor, water mask first and flood
    mask second, for "train" and "val", and a 1 x H x W tensor holding the
    water mask for "test". *)
Theorem records_and_mask_channels (root split : string) (w : World G) :
  dict_contains ETCI2021.metadata split = true →
  (∃ recs,
     (ETCI2021._load_files root split w).1 = Ok recs ∧
     ∀ r, r ∈ recs →
       if String.eqb split "test"
       then dom r = {["vv"; "vh"; "water_mask"]} ∧ size r = 3%nat
       else dom r = {["vv"; "vh"; "flood_mask"; "water_mask"]} ∧ size r = 4%nat) ∧
  ∀ (s : ETCI2021.self) (index : Z) (rec : FileRecord) (H W : nat),
    ETCI2021.split s = split →
    ETCI2021.transforms s = None →
    list_getitem (ETCI2021.files s) index = Ok rec →
    tile_ok (w_fs w) split rec H W →
    ∃ sample mask water,
      (ETCI2021.__getitem__ s index w).1 = Ok sample ∧
      sample !! "mask" = Some mask ∧
      rec !! "water_mask" ≫= fs_open (w_fs w) = Some water ∧
      if String.eqb split "test"
      then t_shape mask = [1%nat; H; W] ∧
           Torch.getitem mask 0 = Ok (Spec.binary_mask water)
      else ∃ flood,
           rec !! "flood_mask" ≫= fs_open (w_fs w) = Some flood ∧
           t_shape mask = [2%nat; H; W] ∧
           Torch.getitem mask 0 = Ok (Spec.binary_mask water) ∧
           Torch.getitem mask 1 = Ok (Spec.binary_mask flood).
Proof.
  intros Hv. split.
  - destruct (load_files_spec root split w Hv) as [evs ->].
    eexists; split; [done|]. intros r Hr.
    unfold Spec.index in Hr. destruct (_ ≫= _) as [directory|]; [|by inv Hr].
    apply list_elem_of_bind in Hr as (folder & Hr & _).
    unfold Spec.folder_records in Hr.
    destruct (String.eqb split "test"); cbn [negb] in Hr;
      apply list_elem_of_fmap in Hr as (t & -> & _).
    + destruct t as [[vv vh] wa]. split.
      * unfold Spec.record3. rewrite !dom_insert_L, dom_empty_L. set_solver.
      * unfold Spec.record3. by rewrite !map_size_insert_None, map_size_empty
          by (by simplify_map_eq).
    + destruct t as [[[vv vh] fl] wa]. split.
      * unfold Spec.record4. rewrite !dom_insert_L, dom_empty_L. set_solver.
      * unfold Spec.record4. by rewrite !map_size_insert_None, map_size_empty
          by (by simplify_map_eq).
  - intros s index rec H W <- Htr Hrec Hok.
    destruct (tile_ok_key _ _ _ _ _ "vv" Hok) as (pvv & vv & Hvv & Ovv & Hh1 & Hw1);
      [left; repeat constructor|].
    destruct (tile_ok_key _ _ _ _ _ "vh" Hok) as (pvh & vh & Hvh & Ovh & Hh2 & Hw2);
      [left; repeat constructor|].
    destruct (tile_ok_key _ _ _ _ _ "water_mask" Hok) as (pwa & wa & Hwa & Owa & Hh3 & Hw3);
      [left; repeat constructor|].
    destruct (String.eqb (ETCI2021.split s) "test") eqn:Hsp.
    + eexists _, (Spec.mask1 wa), wa.
      erewrite getitem_run_unlabelled; try done; [|congruence..].
      split; [done|]. split; [by simplify_map_eq|]. split; [by rewrite Hwa|].
      split; [by unfold Spec.mask1; cbn [t_shape]; rewrite Hh3, Hw3|].
      apply getitem_mask1.
    + destruct (tile_ok_key _ _ _ _ _ "flood_mask" Hok)
        as (pfl & fl & Hfl & Ofl & Hh4 & Hw4); [by right|].
      eexists _, (Spec.mask2 wa fl), wa.
      erewrite getitem_run_labelled; try done; [|congruence..].
      split; [done|]. split; [by simplify_map_eq|]. split; [by rewrite Hwa|].
      exists fl. split; [by rewrite Hfl|].
      split; [by unfold Spec.mask2; cbn [t_shape]; rewrite Hh3, Hw3|].
      apply getitem_mask2; congruence.
Qed.

End Loading.

Lemma load_target_binary_witness :
  let w := Fixture.world Fixture.fs in
  fs_open (w_fs w) "data/train/a/tiles/flood_label/1.png" = Some Fixture.blank ∧
  ∃ t,
    (ETCI2021._load_target "data/train/a/tiles/flood_label/1.png" w).1 = Ok t ∧
    t_data t = [SInt 1; SInt 0; SInt 0; SInt 1].
Proof.
  intros w. split; [reflexivity|].
  destruct (load_target_binary "data/train/a/tiles/flood_label/1.png" w
              Fixture.blank eq_refl) as (t & Ht & _).
  exists t. split; [exact Ht|].
  vm_compute in Ht. injection Ht as <-. reflexivity.
Defined.

Lemma fixture_tile_ok :
  tile_ok Fixture.fs "train" Fixture.first_train_record 2 2.
Proof.
  intros key Hin. set_unfold in Hin.
  destruct Hin as [[? ?] [-> [[= -> ->]|[[= -> ->]|[[= -> ->]|[[= -> ->]|[]]]]]]];
    eexists _, Fixture.blank; repeat split; reflexivity.
Defined.

Lemma getitem_image_layout_witness :
  let w := Fixture.world Fixture.fs in
  let s := Fixture.dataset "train" in
  ETCI2021.transforms s = None ∧
  list_getitem (ETCI2021.files s) 0 = Ok Fixture.first_train_record ∧
  tile_ok (w_fs w) (ETCI2021.split s) Fixture.first_train_record 2 2 ∧
  ∃ sample image,
    (ETCI2021.__getitem__ s 0 w).1 = Ok sample ∧
    sample !! "image" = Some image ∧
    t_shape image = [6; 2; 2]%nat.
Proof.
  intros w s.
  assert (list_getitem (ETCI2021.files s) 0 = Ok Fixture.first_train_record) as Hrec
    by (vm_compute; reflexivity).
  split; [reflexivity|]. split; [exact Hrec|]. split; [exact fixture_tile_ok|].
  destruct (getitem_image_layout s 0 w Fixture.first_train_record 2 2
              eq_refl Hrec fixture_tile_ok)
    as (sample & image & vv & vh & tvv & tvh & Hrun & Him & _ & _ & _ & _ & _ & Hsh & _).
  exists sample, image. split; [exact Hrun|]. split; [exact Him|exact Hsh].
Defined.

Lemma records_and_mask_channels_witness :
  let w := Fixture.world Fixture.fs in
  dict_contains ETCI2021.metadata "train" = true ∧
  ∃ recs,
    (ETCI2021._load_files "data" "train" w).1 = Ok recs ∧
    ∀ r, r ∈ recs →
      dom r = {["vv"; "vh"; "flood_mask"; "water_mask"]} ∧ size r = 4%nat.
Proof.
  intros w. split; [reflexivity|].
  exact (proj1 (records_and_mask_channels "data" "train" w eq_refl)).
Defined.

(* ================================================================== *)
(** * Binary64 rounding: [int(0.8 * n)]                                 *)
(* ================================================================== *)

Lemma digits2_bounds (p : positive) :
  2 ^ (Z.pos (digits2_pos p) - 1) <= Z.pos p < 2 ^ Z.pos (digits2_pos p).
Proof.
  induction p as [p IH|p IH|]; cbn [digits2_pos].
  - rewrite Pos2Z.inj_succ. replace (Z.succ (Z.pos (digits2_pos p)) - 1) with
      (Z.succ (Z.pos (digits2_pos p) - 1)) by lia.
    rewrite !Z.pow_succ_r by lia. lia.
  - rewrite Pos2Z.inj_succ. replace (Z.succ (Z.pos (digits2_pos p)) - 1) with
      (Z.succ (Z.pos (digits2_pos p) - 1)) by lia.
    rewrite !Z.pow_succ_r by lia. lia.
  - simpl. lia.
Qed.

Lemma digits2_unique (p : positive) (d : Z) :
  2 ^ (d - 1) <= Z.pos p < 2 ^ d → Z.pos (digits2_pos p) = d.
Proof.
  intros [Hlo Hhi]. pose proof (digits2_bounds p) as [Hlo' Hhi'].
  assert (0 < d) as Hd.
  { destruct (Z.le_gt_cases d 0) as [H|H]; [|done].
    assert (2 ^ d <= 2 ^ 0) by (apply Z.pow_le_mono_r; lia). simpl in *. lia. }
  destruct (Z.lt_trichotomy (Z.pos (digits2_pos p)) d) as [H|[H|H]]; [|done|].
  - assert (2 ^ Z.pos (digits2_pos p) <= 2 ^ (d - 1)) by (apply Z.pow_le_mono_r; lia). lia.
  - assert (2 ^ d <= 2 ^ (Z.pos (digits2_pos p) - 1)) by (apply Z.pow_le_mono_r; lia). lia.
Qed.

Lemma shr_1_m (mrs : shr_record) :
  0 <= shr_m mrs → shr_m (shr_1 mrs) = shr_m mrs / 2.
Proof.
  destruct mrs as [m r s]. cbn [shr_m]. intros Hm.
  destruct m as [|[p|p|]|p]; cbn [shr_1 shr_m];
    first [ reflexivity | lia
          | apply Z.div_unique with 1; lia
          | apply Z.div_unique with 0; lia ].
Qed.

Lemma iter_shr_1_m (k : positive) (mrs : shr_record) :
  0 <= shr_m mrs →
  shr_m (SpecFloat.iter_pos shr_1 k mrs) = shr_m mrs / 2 ^ Z.pos k.
Proof.
  revert mrs. induction k as [k IH|k IH|]; intros mrs Hm; cbn [SpecFloat.iter_pos].
  - assert (0 <= shr_m (shr_1 mrs)) as H1 by (rewrite shr_1_m by done; apply Z.div_pos; lia).
    assert (0 <= shr_m (SpecFloat.iter_pos shr_1 k (shr_1 mrs))) as H2
      by (rewrite IH by done; apply Z.div_pos; lia).
    rewrite IH, IH, shr_1_m by done.
    rewrite !Z.div_div by lia. f_equal.
    replace (Z.pos k~1) with (1 + Z.pos k + Z.pos k) by lia.
    rewrite !Z.pow_add_r by lia. lia.
  - assert (0 <= shr_m (SpecFloat.iter_pos shr_1 k mrs)) as H2
      by (rewrite IH by done; apply Z.div_pos; lia).
    rewrite IH, IH by done.
    rewrite !Z.div_div by lia. f_equal.
    replace (Z.pos k~0) with (Z.pos k + Z.pos k) by lia.
    by rewrite !Z.pow_add_r by lia.
  - rewrite shr_1_m by done. by rewrite Z.pow_1_r.
Qed.

(** Shifting [m] right by [n] bits. *)
Lemma shr_m_spec (m e n : Z) (l : location) :
  0 <= m → 0 <= n →
  shr_m (shr (shr_record_of_loc m l) e n).1 = m / 2 ^ n ∧
  (shr (shr_record_of_loc m l) e n).2 = e + n.
Proof.
  intros Hm Hn.
  assert (shr_m (shr_record_of_loc m l) = m) as Hl by (by destruct l as [|[]]).
  destruct n as [|n|n]; [| |lia]; cbn [shr fst snd].
  - rewrite Hl, Z.pow_0_r, Z.div_1_r. lia.
  - by rewrite iter_shr_1_m, Hl by lia.
Qed.

Lemma round_nearest_even_bounds (m : Z) (l : location) :
  m <= round_nearest_even m l <= m + 1.
Proof. destruct l as [|[]]; cbn; try destruct (Z.even m); lia. Qed.

Lemma fexp64 (e : Z) : -1074 <= e - 53 → fexp 53 1024 e = e - 53.
Proof. intros H. unfold fexp, emin. lia. Qed.

Lemma Zdigits2_bounds (r d : Z) :
  2 ^ (d - 1) <= r < 2 ^ d → 0 < d → Zdigits2 r = d.
Proof.
  intros Hr Hd.
  assert (0 < 2 ^ (d - 1)) by (apply Z.pow_pos_nonneg; lia).
  destruct r as [|p|p]; [lia| |lia].
  cbn [Zdigits2]. by apply digits2_unique.
Qed.

Lemma pow2_split (a b : Z) : 0 <= a → 0 <= b → 2 ^ (a + b) = 2 ^ a * 2 ^ b.
Proof. intros. by rewrite Z.pow_add_r. Qed.

(** Multiplying in binary64 and truncating: the integer part of the
    rounded product is the integer part of a mantissa that is off by at
    most one unit in the last place. *)
Lemma binary_round_aux_to_int (M : positive) (E d : Z) :
  Z.pos (digits2_pos M) = d → 53 <= d → -1074 <= d + E - 53 → E + d - 53 < -1 →
  ∃ r,
    Z.pos M / 2 ^ (d - 53) <= r <= Z.pos M / 2 ^ (d - 53) + 1 ∧
    F64.to_int (binary_round_aux 53 1024 false (Z.pos M) E loc_Exact) =
      Ok (r / 2 ^ (- (E + d - 53))).
Proof.
  intros Hd Hd53 Hmin Hneg.
  pose proof (digits2_bounds M) as HM. rewrite Hd in HM.
  unfold binary_round_aux, shr_fexp.
  cbn [Zdigits2]. rewrite Hd, fexp64 by lia.
  replace (d + E - 53 - E) with (d - 53) by lia.
  pose proof (shr_m_spec (Z.pos M) E (d - 53) loc_Exact) as [Hm1 He1]; [lia..|].
  destruct (shr (shr_record_of_loc (Z.pos M) loc_Exact) E (d - 53)) as [mrs' e'].
  cbn [fst snd] in Hm1, He1.
  set (r := round_nearest_even (shr_m mrs') (loc_of_shr_record mrs')).
  pose proof (round_nearest_even_bounds (shr_m mrs') (loc_of_shr_record mrs')) as Hr.
  fold r in Hr. rewrite Hm1 in Hr.
  exists r. split; [done|].
  assert (0 < 2 ^ (d - 53)) as Hp by (apply Z.pow_pos_nonneg; lia).
  assert (2 ^ (d - 1) = 2 ^ (d - 53) * 2 ^ 52) as Hlo
    by (rewrite <- pow2_split by lia; f_equal; lia).
  assert (2 ^ d = 2 ^ (d - 53) * 2 ^ 53) as Hhi
    by (rewrite <- pow2_split by lia; f_equal; lia).
  assert (2 ^ 52 <= Z.pos M / 2 ^ (d - 53)) as Hm_lo
    by (apply Z.div_le_lower_bound; lia).
  assert (Z.pos M / 2 ^ (d - 53) < 2 ^ 53) as Hm_hi
    by (apply Z.div_lt_upper_bound; lia).
  assert (Zdigits2 r = 53 ∨ Zdigits2 r = 54) as Hdr.
  { destruct (Z.lt_ge_cases r (2 ^ 53)).
    - left. apply Zdigits2_bounds; [|done]. split; [lia|done].
    - right. apply Zdigits2_bounds; [|done]. split; [done|].
      replace (2 ^ 54) with (2 * 2 ^ 53) by done. lia. }
  set (n2 := Zdigits2 r - 53).
  assert (fexp 53 1024 (Zdigits2 r + e') - e' = n2) as ->
    by (rewrite fexp64 by lia; unfold n2; lia).
  pose proof (shr_m_spec r e' n2 loc_Exact) as [Hm2 He2]; [lia| unfold n2; lia|].
  destruct (shr (shr_record_of_loc r loc_Exact) e' n2) as [mrs'' e''].
  cbn [fst snd] in Hm2, He2. rewrite Hm2.
  assert (0 <= n2 <= 1) as Hn2 by (unfold n2; lia).
  assert (2 ^ n2 = 1 ∨ 2 ^ n2 = 2) as Hpn
    by (assert (n2 = 0 ∨ n2 = 1) as [->| ->] by lia; auto).
  assert (2 ^ 51 <= r / 2 ^ n2) as Hpos.
  { apply Z.div_le_lower_bound; [lia|]. replace (2 ^ 52) with (2 * 2 ^ 51) in * by done. lia. }
  destruct (r / 2 ^ n2) as [|m2|m2] eqn:Hm2'; [lia| |lia].
  rewrite (proj2 (Z.leb_le e'' (1024 - 53))) by lia.
  unfold F64.to_int.
  rewrite (proj2 (Z.leb_gt 0 e'')) by lia.
  f_equal. rewrite <- Hm2', Z.div_div by (try apply Z.pow_pos_nonneg; lia).
  f_equal. rewrite <- pow2_split by lia. f_equal. lia.
Qed.

Lemma pos_iter_xO (p d : positive) :
  Z.pos (Pos.iter xO p d) = Z.pos p * 2 ^ Z.pos d.
Proof.
  induction d as [|d IH] using Pos.peano_ind.
  - cbn. lia.
  - rewrite Pos.iter_succ, Pos2Z.inj_succ, Z.pow_succ_r by lia.
    rewrite Pos2Z.inj_xO, IH. lia.
Qed.

(** [float(p)] of a positive integer below 2^53 is exact and normalised. *)
Lemma of_Z_pos (p : positive) (dn : Z) :
  Z.pos (digits2_pos p) = dn → dn <= 53 →
  ∃ mz, F64.of_Z (Z.pos p) = S754_finite false mz (dn - 53) ∧
        Z.pos mz = Z.pos p * 2 ^ (53 - dn) ∧
        Z.pos (digits2_pos mz) = 53.
Proof.
  intros Hdn Hle. pose proof (digits2_bounds p) as Hp. rewrite Hdn in Hp.
  assert (0 < dn) as Hpos by (rewrite <- Hdn; lia).
  unfold F64.of_Z, binary_normalize, binary_round, F64.prec, F64.emax.
  rewrite Hdn, fexp64 by lia.
  assert (∃ mz, shl_align p 0 (dn + 0 - 53) = (mz, dn - 53) ∧
                Z.pos mz = Z.pos p * 2 ^ (53 - dn)) as (mz & -> & Hmz).
  { unfold shl_align. destruct (dn + 0 - 53 - 0) as [|k|k] eqn:Hk; [|lia|].
    - exists p. split; [f_equal; lia|]. replace (53 - dn) with 0 by lia. lia.
    - exists (Pos.iter xO p k). split; [f_equal; lia|].
      rewrite pos_iter_xO. f_equal. f_equal. lia. }
  exists mz. split; [|split; [done|]].
  - assert (Z.pos (digits2_pos mz) = 53) as Hd.
    { apply digits2_unique. rewrite Hmz.
      replace (2 ^ (53 - 1)) with (2 ^ (dn - 1) * 2 ^ (53 - dn))
        by (rewrite <- pow2_split by lia; f_equal; lia).
      replace (2 ^ 53) with (2 ^ dn * 2 ^ (53 - dn))
        by (rewrite <- pow2_split by lia; f_equal; lia).
      assert (0 < 2 ^ (53 - dn)) by (apply Z.pow_pos_nonneg; lia). nia. }
    unfold binary_round_aux, shr_fexp. cbn [Zdigits2].
    rewrite Hd, fexp64 by lia.
    replace (53 + (dn - 53) - 53 - (dn - 53)) with 0 by lia.
    cbn [shr shr_record_of_loc shr_m loc_of_shr_record round_nearest_even Zdigits2].
    rewrite Hd, fexp64 by lia.
    replace (53 + (dn - 53) - 53 - (dn - 53)) with 0 by lia.
    cbn [shr shr_record_of_loc shr_m].
    by rewrite (proj2 (Z.leb_le (dn - 53) (1024 - 53))) by lia.
  - apply digits2_unique. rewrite Hmz.
    replace (2 ^ (53 - 1)) with (2 ^ (dn - 1) * 2 ^ (53 - dn))
      by (rewrite <- pow2_split by lia; f_equal; lia).
    replace (2 ^ 53) with (2 ^ dn * 2 ^ (53 - dn))
      by (rewrite <- pow2_split by lia; f_equal; lia).
    assert (0 < 2 ^ (53 - dn)) by (apply Z.pow_pos_nonneg; lia). nia.
Qed.

Lemma pow2_le_inv (a b : Z) : 0 <= b → 2 ^ a < 2 ^ b → a < b.
Proof.
  intros Hb H. destruct (Z.lt_ge_cases a b) as [|Hge]; [done|].
  assert (2 ^ b <= 2 ^ a) by (apply Z.pow_le_mono_r; lia). lia.
Qed.

(** The bound matters only far beyond any list that fits in memory: at
    2^52 the product is exact in binary64 and one above the floor. *)
Remark int_0_8_times_huge :
  ETCI2021DataModule.int_0_8_times (2 ^ 52) = Ok (4 * 2 ^ 52 / 5 + 1).
Proof. vm_compute. reflexivity. Qed.

(** [int(0.8 * n)] is [floor(4 n / 5)] for every size below 2^48. *)
Lemma int_0_8_times_floor (n : Z) :
  0 <= n < 2 ^ 48 → ETCI2021DataModule.int_0_8_times n = Ok (4 * n / 5).
Proof.
  intros Hn. unfold ETCI2021DataModule.int_0_8_times.
  replace (F64.of_decimal 8 1) with (S754_finite false 7205759403792794 (-53))
    by (vm_compute; reflexivity).
  destruct n as [|p|p]; [reflexivity| |lia].
  set (dn := Z.pos (digits2_pos p)).
  pose proof (digits2_bounds p) as Hp. fold dn in Hp.
  assert (0 < dn) as Hdn0 by (unfold dn; lia).
  assert (dn <= 48) as Hdn.
  { assert (dn - 1 < 48); [|lia]. apply pow2_le_inv; lia. }
  destruct (of_Z_pos p dn eq_refl) as (mz & -> & Hmz & Hdz); [lia|].
  pose proof (digits2_bounds mz) as Hz. rewrite Hdz in Hz.
  unfold F64.mul, SFmul, F64.prec, F64.emax. cbn [xorb].
  set (M := (7205759403792794 * mz)%positive).
  set (d := Z.pos (digits2_pos M)).
  pose proof (digits2_bounds M) as HM. fold d in HM.
  assert (Z.pos M = 7205759403792794 * Z.pos mz) as HMz by (unfold M; lia).
  assert (2 ^ 104 <= Z.pos M < 2 ^ 106) as HMb.
  { rewrite HMz. replace (2 ^ (53 - 1)) with (2 ^ 52) in Hz by done.
    split.
    - replace (2 ^ 104) with (2 ^ 52 * 2 ^ 52) by done.
      assert (2 ^ 52 <= 7205759403792794) by done. nia.
    - replace (2 ^ 106) with (2 ^ 53 * 2 ^ 53) by done.
      assert (7205759403792794 < 2 ^ 53) by done. nia. }
  assert (0 < d) as Hd0 by (unfold d; lia).
  assert (105 <= d <= 106) as Hd.
  { split.
    - assert (104 < d); [|lia]. apply pow2_le_inv; lia.
    - assert (d - 1 < 106); [|lia]. apply pow2_le_inv; lia. }
  destruct (binary_round_aux_to_int M (-53 + (dn - 53)) d eq_refl) as (r & Hr & ->);
    [lia..|].
  f_equal.
  set (k := - (-53 + (dn - 53) + d - 53)).
  assert (5 <= k) as Hk by (unfold k; lia).
  set (P := 2 ^ (53 - dn)) in *.
  set (D := 2 ^ (d - 53)) in *.
  set (K := 2 ^ k).
  assert (0 < P) as HP by (apply Z.pow_pos_nonneg; lia).
  assert (0 < D) as HD by (apply Z.pow_pos_nonneg; lia).
  assert (0 < K) as HK by (apply Z.pow_pos_nonneg; lia).
  assert (D * K = P * 2 ^ 53) as HDK.
  { unfold D, K, P. rewrite <- !pow2_split by lia. f_equal. unfold k. lia. }
  assert (32 <= K) as HK32.
  { replace 32 with (2 ^ 5) by done. apply Z.pow_le_mono_r; lia. }
  assert (D * 32 <= P * 2 ^ 53) as HD32 by nia.
  set (q := 4 * Z.pos p / 5).
  assert (5 * q <= 4 * Z.pos p < 5 * q + 5) as Hq.
  { unfold q. pose proof (Z.div_mod (4 * Z.pos p) 5).
    pose proof (Z.mod_pos_bound (4 * Z.pos p) 5). lia. }
  assert (q * K <= r < (q + 1) * K) as Hb.
  { replace (2 ^ 53) with 9007199254740992 in * by done.
    replace (2 ^ 48) with 281474976710656 in * by done.
    split.
    - transitivity (Z.pos M / D); [|lia].
      apply Z.div_le_lower_bound; [done|].
      rewrite HMz, Hmz. nia.
    - assert (Z.pos M / D < (q + 1) * K - 1); [|lia].
      apply Z.div_lt_upper_bound; [done|].
      rewrite HMz, Hmz. nia. }
  symmetry. apply (Z.div_unique r K q (r - q * K)); lia.
Qed.

(* ================================================================== *)
(** * Preprocessing a sample                                            *)
(* ================================================================== *)

Lemma bind_Ok {A B} (a : A) (k : A → result B) : Ok a ≫= k = k a.
Proof. reflexivity. Qed.

Lemma getitem_in_range (t : Tensor) (n : nat) (tl : list nat) (i : Z) :
  t_shape t = n :: tl → 0 <= i < Z.of_nat n →
  Torch.getitem t i =
    Ok {| t_dtype := t_dtype t; t_shape := tl;
          t_data := take (Torch.numel tl) (drop (Z.to_nat i * Torch.numel tl) (t_data t)) |}.
Proof.
  intros Hs Hi. unfold Torch.getitem. rewrite Hs.
  rewrite (proj2 (Z.ltb_ge i 0)) by lia.
  rewrite (proj2 (Z.leb_le 0 i)) by lia.
  by rewrite (proj2 (Z.ltb_lt i (Z.of_nat n))) by lia.
Qed.

Lemma getitem_past_end (t : Tensor) (n : nat) (tl : list nat) (i : Z) :
  t_shape t = n :: tl → Z.of_nat n <= i →
  Torch.getitem t i = Raise IndexError.
Proof.
  intros Hs Hi. unfold Torch.getitem. rewrite Hs.
  rewrite (proj2 (Z.ltb_ge i 0)) by lia.
  rewrite (proj2 (Z.ltb_ge i (Z.of_nat n))) by lia.
  by rewrite andb_false_r.
Qed.

Lemma cat_pair (a b : Tensor) (na nb : nat) (tl : list nat) :
  t_shape a = na :: tl → t_shape b = nb :: tl → tl ≠ [] →
  Torch.cat [a; b] =
    Ok {| t_dtype := Torch.promote (t_dtype a) (Torch.promote (t_dtype b) Bool);
          t_shape := (na + nb)%nat :: tl;
          t_data :=
            let d := Torch.promote (t_dtype a) (Torch.promote (t_dtype b) Bool) in
            (Torch.cast_scalar d <$> t_data a) ++ (Torch.cast_scalar d <$> t_data b) |}.
Proof.
  intros Ha Hb Htl. unfold Torch.cat.
  rewrite !filter_cons_True, filter_nil
    by (rewrite ?Ha, ?Hb; intros [= _ ?]; done).
  rewrite Ha. cbn [forallb]. rewrite Hb. cbn [tail].
  rewrite bool_decide_eq_true_2 by done. cbn [andb].
  rewrite bind_cons, bind_singleton.
  cbn [fmap list_fmap foldr compose head default sum_list sum_list_with].
  rewrite Ha, Hb. cbn [head default]. by rewrite Nat.add_0_r.
Qed.

Lemma Normalize_run (mean std : list spec_float) (t : Tensor) (C H W : nat) :
  t_dtype t = Float32 → t_shape t = [C; H; W] →
  length mean = C → length std = C → existsb F32.is_zero std = false →
  Torch.Normalize mean std t =
    Ok {| t_dtype := Float32; t_shape := [C; H; W];
          t_data :=
            imap (λ i x,
                    let ch := ((i / (H * W)) mod C)%nat in
                    Torch.normalize_scalar
                      (nth ch mean F32.zero) (nth ch std F32.zero) x)
                 (t_data t) |}.
Proof.
  intros Hd Hs Hm Hsd Hz. unfold Torch.Normalize.
  rewrite Hd, Hs, Hz, Hm, Hsd.
  rewrite bool_decide_eq_true_2 by done. cbn [negb rev app].
  rewrite bool_decide_eq_true_2 by auto.
  do 2 f_equal. apply imap_ext. intros i x _. cbn zeta.
  by rewrite Nat.Div0.mod_mod.
Qed.

Lemma gt_long_binary (t : Tensor) (c : Z) :
  Forall (λ x, x = SInt 0 ∨ x = SInt 1) (t_data (Torch.to Int64 (Torch.gt t c))).
Proof.
  unfold Torch.to, Torch.gt. cbn [t_data].
  apply Forall_fmap, Forall_fmap, Forall_forall. intros x _.
  destruct x as [z|x]; cbn; [destruct (c <? z)|destruct (SFltb _ _)]; auto.
Qed.

(** C9: on a sample whose image is 6 x H x W and whose mask is C x H x W
    with C >= 2, [preprocess] returns the image as a float 7 x H x W
    tensor: the six image channels followed by the water mask, every entry
    divided by 255 and then normalised with the mean and deviation of its
    channel; and it returns as mask the flood channel turned into 0/1
    [long] labels.  With a one-channel mask, reading the flood channel
    raises [IndexError]. *)
Theorem preprocess_layout (s : ETCI2021DataModule.self) (sample : Sample)
    (image mask : Tensor) (H W C : nat) :
  ETCI2021DataModule.norm s =
    Torch.Normalize ETCI2021DataModule.band_means ETCI2021DataModule.band_stds →
  sample !! "image" = Some image →
  sample !! "mask" = Some mask →
  t_shape image = [6%nat; H; W] →
  t_shape mask = [C; H; W] →
  ((2 <= C)%nat →
     ∃ out image' water flood,
       ETCI2021DataModule.preprocess s sample = Ok out ∧
       Torch.getitem mask 0 = Ok water ∧
       Torch.getitem mask 1 = Ok flood ∧
       out !! "mask" = Some (Torch.to Int64 (Torch.gt flood 0)) ∧
       Forall (λ x, x = SInt 0 ∨ x = SInt 1)
         (t_data (Torch.to Int64 (Torch.gt flood 0))) ∧
       out !! "image" = Some image' ∧
       t_dtype image' = Float32 ∧
       t_shape image' = [7%nat; H; W] ∧
       length (t_data image') = (length (t_data image) + length (t_data water))%nat ∧
       ∀ i x, (t_data image ++ t_data water) !! i = Some x →
         let d := Torch.promote (t_dtype image) (Torch.promote (t_dtype mask) Bool) in
         let ch := ((i / (H * W)) mod 7)%nat in
         t_data image' !! i =
           Some (Torch.normalize_scalar
                   (nth ch ETCI2021DataModule.band_means F32.zero)
                   (nth ch ETCI2021DataModule.band_stds F32.zero)
                   (Torch.div_scalar (F32.of_Z 255)
                      (Torch.cast_scalar Float32 (Torch.cast_scalar d x))))) ∧
  (C = 1%nat → ETCI2021DataModule.preprocess s sample = Raise IndexError).
Proof.
  intros Hnorm Himg Hmask Hsi Hsm.
  pose (water := {| t_dtype := t_dtype mask; t_shape := [H; W];
                    t_data := take (Torch.numel [H; W])
                                (drop (Z.to_nat 0 * Torch.numel [H; W]) (t_data mask)) |}).
  pose (flood := {| t_dtype := t_dtype mask; t_shape := [H; W];
                    t_data := take (Torch.numel [H; W])
                                (drop (Z.to_nat 1 * Torch.numel [H; W]) (t_data mask)) |}).
  split.
  - intros HC.
    assert (Torch.getitem mask 0 = Ok water) as Hg0
      by (apply (getitem_in_range mask C [H; W] 0 Hsm); lia).
    assert (Torch.getitem mask 1 = Ok flood) as Hg1
      by (apply (getitem_in_range mask C [H; W] 1 Hsm); lia).
    eexists _, _, water, flood. split; [|split; [exact Hg0|split; [exact Hg1|]]].
    + unfold ETCI2021DataModule.preprocess, dict_get.
      rewrite Himg, Hmask, !bind_Ok, Hg0, bind_Ok, ?Hmask, ?bind_Ok, Hg1, bind_Ok.
      rewrite (cat_pair image (Torch.unsqueeze water) 6 1 [H; W]) by done.
      rewrite bind_Ok, lookup_insert_eq, bind_Ok.
      unfold Torch.idiv at 1. cbn [Torch.to t_dtype t_shape t_data Torch.unsqueeze].
      rewrite decide_True by done. rewrite bind_Ok, lookup_insert_eq, bind_Ok.
      rewrite Hnorm.
      rewrite (Normalize_run _ _ _ 7 H W) by (done || by vm_compute).
      rewrite bind_Ok. reflexivity.
    + split; [by rewrite lookup_insert_eq|].
      split; [apply gt_long_binary|].
      split; [by rewrite lookup_insert_ne, lookup_insert_eq by done|].
      split; [done|]. split; [done|].
      split.
      * cbn [t_data]. by rewrite length_imap, !length_fmap, length_app, !length_fmap.
      * intros i x Hx d ch. cbn [t_data].
        rewrite list_lookup_imap, !list_lookup_fmap, <- fmap_app, list_lookup_fmap, Hx.
        reflexivity.
  - intros ->.
    unfold ETCI2021DataModule.preprocess, dict_get.
    rewrite Himg, Hmask, !bind_Ok.
    rewrite (getitem_in_range mask 1 [H; W] 0 Hsm) by lia.
    rewrite bind_Ok, ?Hmask, ?bind_Ok.
    by rewrite (getitem_past_end mask 1 [H; W] 1 Hsm) by lia.
Qed.

Lemma preprocess_layout_witness :
  let s := Fixture.datamodule in
  let image := Spec.image Fixture.blank Fixture.blank in
  let mask := Spec.mask2 Fixture.blank Fixture.blank in
  Fixture.sample !! "image" = Some image ∧
  Fixture.sample !! "mask" = Some mask ∧
  t_shape image = [6; 2; 2]%nat ∧
  t_shape mask = [2; 2; 2]%nat ∧
  ∃ out image',
    ETCI2021DataModule.preprocess s Fixture.sample = Ok out ∧
    out !! "image" = Some image' ∧
    t_shape image' = [7; 2; 2]%nat.
Proof.
  intros s image mask.
  split; [reflexivity|]. split; [reflexivity|].
  split; [reflexivity|]. split; [reflexivity|].
  destruct (proj1 (preprocess_layout s Fixture.sample image mask 2 2 2
                     eq_refl eq_refl eq_refl eq_refl eq_refl))
    as (out & image' & water & flood & Hrun & _ & _ & _ & _ & Him & _ & Hsh & _);
    [lia|].
  exists out, image'. split; [exact Hrun|]. split; [exact Him|exact Hsh].
Defined.

(* ================================================================== *)
(** * Setting up the data module                                        *)
(* ================================================================== *)

Lemma list_slice_range {A} (l : list A) (a b : nat) :
  (a <= b <= length l)%nat →
  list_slice l (Z.of_nat a) (Z.of_nat b) = take (b - a) (drop a l).
Proof.
  intros Hab. unfold list_slice.
  rewrite !(proj2 (Z.ltb_ge _ 0)) by lia.
  rewrite !Z.min_l by lia. rewrite Nat2Z.id. f_equal. lia.
Qed.

Section Setup.

Context {G : Type} `{!TorchRandom G}.
Variable download_and_extract_archive :
  string → string → string → option string → FileSystem → result FileSystem.
Implicit Types (w : World G) (s : ETCI2021DataModule.self).

Local Abbreviation setup := (ETCI2021DataModule.setup download_and_extract_archive).

Lemma randperm_length (n : nat) (g : G) : length (randperm n g).1 = n.
Proof. by rewrite randperm_perm, length_seq. Qed.

(** What [setup] leaves in the data module when both split directories
    exist and the train split has fewer than 2^48 samples. *)
Lemma setup_run s w (n : nat) (g : G) :
  fs_exists (w_fs w) (Path.join (ETCI2021DataModule.root_dir s) ["train"]) = true →
  fs_exists (w_fs w) (Path.join (ETCI2021DataModule.root_dir s) ["test"]) = true →
  n = length (Spec.index (w_fs w) (ETCI2021DataModule.root_dir s) "train") →
  Z.of_nat n < 2 ^ 48 →
  manual_seed Generator (ETCI2021DataModule.seed s) = Ok g →
  let tf := Some (ETCI2021DataModule.preprocess s) in
  let d := constructed (w_fs w) (ETCI2021DataModule.root_dir s) "train" tf in
  let k := Z.to_nat (4 * Z.of_nat n / 5) in
  let perm := (randperm n g).1 in
  (setup s w).1 =
    Ok {| ETCI2021DataModule.root_dir := ETCI2021DataModule.root_dir s;
          ETCI2021DataModule.seed := ETCI2021DataModule.seed s;
          ETCI2021DataModule.batch_size := ETCI2021DataModule.batch_size s;
          ETCI2021DataModule.num_workers := ETCI2021DataModule.num_workers s;
          ETCI2021DataModule.norm := ETCI2021DataModule.norm s;
          ETCI2021DataModule.train_dataset := Some (Data.Subset d (take k perm));
          ETCI2021DataModule.val_dataset := Some (Data.Subset d (drop k perm));
          ETCI2021DataModule.test_dataset :=
            Some (Data.Whole
                    (constructed (w_fs w) (ETCI2021DataModule.root_dir s) "val" tf)) |}.
Proof.
  intros Htrain Hval Hn Hbound Hseed tf d k perm.
  unfold ETCI2021DataModule.setup.
  destruct (init_no_download_run download_and_extract_archive
              (ETCI2021DataModule.root_dir s) "train" tf false w "train" eq_refl)
    as [evs1 Hi1].
  rewrite Htrain in Hi1. rewrite (bind_run _ _ _ _ _ Hi1).
  destruct (init_no_download_run download_and_extract_archive
              (ETCI2021DataModule.root_dir s) "val" tf false
              (log_events
                 (EvExists (Path.join (ETCI2021DataModule.root_dir s) ["train"]) :: evs1) w)
              "test" eq_refl)
    as [evs2 Hi2].
  rewrite log_events_fs, Hval in Hi2. rewrite (bind_run _ _ _ _ _ Hi2).
  fold (constructed (w_fs w) (ETCI2021DataModule.root_dir s) "train" tf).
  fold (constructed (w_fs w) (ETCI2021DataModule.root_dir s) "val" tf).
  fold d.
  assert (ETCI2021.__len__ d = Z.of_nat n) as Hlen by (by rewrite Hn).
  rewrite Hlen, int_0_8_times_floor, bind_lift_Ok by lia.
  rewrite Hseed, bind_lift_Ok.
  assert (0 <= 4 * Z.of_nat n / 5 <= Z.of_nat n) as Hk.
  { split; [apply Z.div_pos; lia|]. apply Z.div_le_upper_bound; lia. }
  unfold Data.random_split. cbn [foldr]. rewrite Hlen.
  replace (4 * Z.of_nat n / 5 + (Z.of_nat n - 4 * Z.of_nat n / 5 + 0))
    with (Z.of_nat n) by lia.
  rewrite Z.eqb_refl, Nat2Z.id. cbn [negb Data.accumulate zip_with].
  fold perm. rewrite bind_lift_Ok. unfold ret. cbn [fst].
  do 3 f_equal.
  - f_equal. replace (0 + 4 * Z.of_nat n / 5 - 4 * Z.of_nat n / 5) with (Z.of_nat 0) by lia.
    replace (0 + 4 * Z.of_nat n / 5) with (Z.of_nat k) by (unfold k; lia).
    rewrite list_slice_range by (unfold perm; rewrite randperm_length; lia).
    by rewrite Nat.sub_0_r, drop_0.
  - f_equal.
    replace (0 + 4 * Z.of_nat n / 5 + (Z.of_nat n - 4 * Z.of_nat n / 5) -
             (Z.of_nat n - 4 * Z.of_nat n / 5)) with (Z.of_nat k) by (unfold k; lia).
    replace (0 + 4 * Z.of_nat n / 5 + (Z.of_nat n - 4 * Z.of_nat n / 5))
      with (Z.of_nat n) by lia.
    rewrite list_slice_range by (unfold perm; rewrite randperm_length; lia).
    apply take_ge. rewrite length_drop. unfold perm. rewrite randperm_length. lia.
Qed.

(** C4: [setup] splits the "train" dataset 80/20.  For a train dataset of
    [n] samples the train partition has [int(0.8 * n)] samples, which is
    the floor of [0.8 n]; the validation partition has the remaining
    [n] minus that many, so the two sizes sum to [n].  The test loader
    wraps the whole "val" dataset, which is not split. *)
Theorem setup_split_sizes (s : ETCI2021DataModule.self) (w : World G) (n : nat) (g : G) :
  fs_exists (w_fs w) (Path.join (ETCI2021DataModule.root_dir s) ["train"]) = true →
  fs_exists (w_fs w) (Path.join (ETCI2021DataModule.root_dir s) ["test"]) = true →
  n = length (Spec.index (w_fs w) (ETCI2021DataModule.root_dir s) "train") →
  Z.of_nat n < 2 ^ 48 →
  manual_seed Generator (ETCI2021DataModule.seed s) = Ok g →
  ∃ s' train val test,
    (setup s w).1 = Ok s' ∧
    ETCI2021DataModule.train_dataset s' = Some train ∧
    ETCI2021DataModule.val_dataset s' = Some val ∧
    ETCI2021DataModule.test_dataset s' = Some (Data.Whole test) ∧
    ETCI2021DataModule.int_0_8_times (Z.of_nat n) = Ok (Data.len train) ∧
    Data.len train = 4 * Z.of_nat n / 5 ∧
    5 * Data.len train <= 4 * Z.of_nat n < 5 * Data.len train + 5 ∧
    Data.len val = Z.of_nat n - Data.len train ∧
    Data.len train + Data.len val = Z.of_nat n ∧
    ETCI2021.split test = "val" ∧
    ETCI2021.files test = Spec.index (w_fs w) (ETCI2021DataModule.root_dir s) "val" ∧
    Data.len (Data.Whole test) =
      Z.of_nat (length (Spec.index (w_fs w) (ETCI2021DataModule.root_dir s) "val")) ∧
    (0 < ETCI2021DataModule.batch_size s → 0 <= ETCI2021DataModule.num_workers s →
     ETCI2021DataModule.test_dataloader s' =
       Ok {| Data.dl_dataset := Data.Whole test;
             Data.dl_batch_size := ETCI2021DataModule.batch_size s;
             Data.dl_num_workers := ETCI2021DataModule.num_workers s;
             Data.dl_shuffle := false |}).
Proof.
  intros Htrain Hval Hn Hbound Hseed.
  pose proof (setup_run s w n g Htrain Hval Hn Hbound Hseed) as Hrun. cbv zeta in Hrun.
  set (perm := (randperm n g).1) in *.
  assert (length perm = n) as Hperm by apply randperm_length.
  assert (0 <= 4 * Z.of_nat n / 5 <= Z.of_nat n) as Hk.
  { split; [apply Z.div_pos; lia|]. apply Z.div_le_upper_bound; lia. }
  assert (5 * (4 * Z.of_nat n / 5) <= 4 * Z.of_nat n < 5 * (4 * Z.of_nat n / 5) + 5) as Hfl.
  { pose proof (Z.div_mod (4 * Z.of_nat n) 5).
    pose proof (Z.mod_pos_bound (4 * Z.of_nat n) 5). lia. }
  eexists _, _, _, _. split; [exact Hrun|].
  cbn [ETCI2021DataModule.train_dataset ETCI2021DataModule.val_dataset
       ETCI2021DataModule.test_dataset].
  split; [reflexivity|]. split; [reflexivity|]. split; [reflexivity|].
  cbn [Data.len].
  rewrite length_take_le, length_drop, Hperm by lia.
  rewrite int_0_8_times_floor by lia.
  repeat (split; [first [reflexivity | f_equal; lia | lia]|]).
  intros Hb Hw. unfold ETCI2021DataModule.test_dataloader, Data.DataLoader_new.
  cbn [ETCI2021DataModule.test_dataset ETCI2021DataModule.attr
       ETCI2021DataModule.batch_size ETCI2021DataModule.num_workers].
  rewrite bind_Ok.
  rewrite (proj2 (Z.ltb_ge _ 0)) by lia.
  by rewrite (proj2 (Z.leb_gt _ 0)) by lia.
Qed.

(** C10: the partition depends on the dataset and the seed only.  Two runs
    of [setup] over the same files with the same seed put the same indices
    in the train partition and the same indices in the validation
    partition, whatever the state of the global generator, the earlier
    calls, or the other settings of the data module; together the two
    partitions are the permutation drawn from a generator freshly seeded
    with the seed. *)
Theorem setup_deterministic (s1 s2 : ETCI2021DataModule.self) (w1 w2 : World G)
    (n : nat) (g : G) :
  ETCI2021DataModule.root_dir s1 = ETCI2021DataModule.root_dir s2 →
  ETCI2021DataModule.seed s1 = ETCI2021DataModule.seed s2 →
  w_fs w1 = w_fs w2 →
  fs_exists (w_fs w1) (Path.join (ETCI2021DataModule.root_dir s1) ["train"]) = true →
  fs_exists (w_fs w1) (Path.join (ETCI2021DataModule.root_dir s1) ["test"]) = true →
  n = length (Spec.index (w_fs w1) (ETCI2021DataModule.root_dir s1) "train") →
  Z.of_nat n < 2 ^ 48 →
  manual_seed Generator (ETCI2021DataModule.seed s1) = Ok g →
  ∃ s1' s2' train val,
    (setup s1 w1).1 = Ok s1' ∧
    (setup s2 w2).1 = Ok s2' ∧
    partition_indices s1' = Some (train, val) ∧
    partition_indices s2' = Some (train, val) ∧
    train ++ val = (randperm n g).1 ∧
    train ++ val ≡ₚ seq 0 n.
Proof.
  intros Hroot Hseed Hfs Htrain Hval Hn Hbound Hg.
  pose proof (setup_run s1 w1 n g Htrain Hval Hn Hbound Hg) as Hrun1.
  rewrite Hroot, Hfs in Htrain, Hval, Hn. rewrite Hseed in Hg.
  pose proof (setup_run s2 w2 n g Htrain Hval Hn Hbound Hg) as Hrun2.
  cbv zeta in Hrun1, Hrun2.
  eexists _, _, _, _. split; [exact Hrun1|]. split; [exact Hrun2|].
  split; [reflexivity|]. split; [reflexivity|].
  rewrite take_drop. split; [reflexivity|apply randperm_perm].
Qed.

End Setup.

Lemma setup_split_sizes_witness :
  let s := Fixture.datamodule in
  let w := Fixture.world_rng Fixture.fs 5 in
  fs_exists (w_fs w) (Path.join (ETCI2021DataModule.root_dir s) ["train"]) = true ∧
  fs_exists (w_fs w) (Path.join (ETCI2021DataModule.root_dir s) ["test"]) = true ∧
  3%nat = length (Spec.index (w_fs w) (ETCI2021DataModule.root_dir s) "train") ∧
  Z.of_nat 3 < 2 ^ 48 ∧
  @manual_seed Z Fixture.rng (@Generator Z Fixture.rng) (ETCI2021DataModule.seed s) = Ok 0 ∧
  ∃ s' train val,
    (ETCI2021DataModule.setup (TorchRandom0 := Fixture.rng) Fixture.no_download s w).1 = Ok s' ∧
    ETCI2021DataModule.train_dataset s' = Some train ∧
    ETCI2021DataModule.val_dataset s' = Some val ∧
    Data.len train = 2 ∧ Data.len val = 1.
Proof.
  intros s w.
  assert (3%nat = length (Spec.index (w_fs w) (ETCI2021DataModule.root_dir s) "train"))
    as Hn by (vm_compute; reflexivity).
  assert (Z.of_nat 3 < 2 ^ 48) as Hb by (vm_compute; reflexivity).
  split; [reflexivity|]. split; [reflexivity|]. split; [exact Hn|]. split; [exact Hb|].
  split; [reflexivity|].
  destruct (setup_split_sizes (TorchRandom0 := Fixture.rng) Fixture.no_download s w 3 0
              eq_refl eq_refl Hn Hb eq_refl)
    as (s' & train & val & test & Hrun & Htr & Hva & _ & _ & Hlt & _ & Hlv & _).
  exists s', train, val.
  split; [exact Hrun|]. split; [exact Htr|]. split; [exact Hva|].
  split; [rewrite Hlt; reflexivity | rewrite Hlv, Hlt; reflexivity].
Defined.

Lemma setup_deterministic_witness :
  let s1 := ETCI2021DataModule.__init__ "data" 7 64 0 in
  let s2 := ETCI2021DataModule.__init__ "data" 7 16 2 in
  let w1 := Fixture.world_rng Fixture.fs 5 in
  let w2 := log_event (EvPrint "second run") (Fixture.world_rng Fixture.fs 12) in
  ∃ s1' s2' train val,
    (ETCI2021DataModule.setup (TorchRandom0 := Fixture.rng) Fixture.no_download s1 w1).1 = Ok s1' ∧
    (ETCI2021DataModule.setup (TorchRandom0 := Fixture.rng) Fixture.no_download s2 w2).1 = Ok s2' ∧
    partition_indices s1' = Some (train, val) ∧
    partition_indices s2' = Some (train, val).
Proof.
  intros s1 s2 w1 w2.
  assert (3%nat = length (Spec.index (w_fs w1) (ETCI2021DataModule.root_dir s1) "train"))
    as Hn by (vm_compute; reflexivity).
  assert (Z.of_nat 3 < 2 ^ 48) as Hb by (vm_compute; reflexivity).
  destruct (setup_deterministic (TorchRandom0 := Fixture.rng) Fixture.no_download
              s1 s2 w1 w2 3 7 eq_refl eq_refl eq_refl eq_refl eq_refl Hn Hb eq_refl)
    as (s1' & s2' & train & val & H1 & H2 & H3 & H4 & _).
  exists s1', s2', train, val. repeat split; assumption.
Defined.

(* ================================================================== *)
(** * Further properties of the indexer                                 *)
(* ================================================================== *)

Lemma length_list_bind {A B} (f : A → list B) (l : list A) :
  length (l ≫= f) = sum_list (length ∘ f <$> l).
Proof.
  induction l as [|x l IH]; [done|].
  rewrite bind_cons, length_app, IH. done.
Qed.

Lemma log_events_nil {G} (w : World G) : log_events [] w = w.
Proof. destruct w. unfold log_events. simpl. by rewrite app_nil_r. Qed.

Section IndexerMore.

Context {G : Type}.
Implicit Types (w : World G) (fs : FileSystem).

Lemma load_files_folder_trace split files folder w :
  ETCI2021._load_files_folder split files folder w =
    (Ok (files ++ Spec.folder_records (w_fs w) split folder),
     log_events (Trace.folder_globs split folder) w).
Proof.
  unfold Trace.folder_globs.
  unfold ETCI2021._load_files_folder, Spec.folder_records, Spec.listing, bind, glob, ret.
  destruct (String.eqb split "test"); simpl;
    (apply (f_equal2 pair);
     [ f_equal; apply fold_left_append
     | unfold log_event, log_events; simpl; f_equal; by rewrite <- !app_assoc ]).
  - by intros acc [[??]?].
  - by intros acc [[[??]?]?].
Qed.

Lemma load_files_loop_trace split folders files w :
  for_ folders files (ETCI2021._load_files_folder split) w =
    (Ok (files ++ (folder ← folders; Spec.folder_records (w_fs w) split folder)),
     log_events (folder ← folders; Trace.folder_globs split folder) w).
Proof.
  revert files w. induction folders as [|folder folders IH]; intros files w.
  - cbn [for_]. unfold ret. cbn. by rewrite app_nil_r, log_events_nil.
  - cbn [for_]. unfold bind. rewrite load_files_folder_trace, IH.
    rewrite !bind_cons, log_events_app, log_events_fs. by rewrite <- app_assoc.
Qed.

(** X1: [_load_files] lists the split directory once and then, folder by
    folder in sorted order, the vv, vh and water_body_label directories
    and, unless the split is "test", the flood_label directory.  These
    listings are all it does: the file system and the global generator are
    untouched, and nothing is opened or downloaded. *)
Theorem load_files_trace (root split directory : string) (w : World G) :
  ETCI2021.metadata !! split ≫= (.!! "directory") = Some directory →
  ETCI2021._load_files root split w =
    (Ok (Spec.index (w_fs w) root split),
     log_events (Trace.load_files (w_fs w) root split directory) w).
Proof.
  intros Hdir. pose proof Hdir as (_ & meta & Hm & Hd)%split_directory.
  unfold ETCI2021._load_files, Spec.index, dict_get.
  rewrite Hdir, Hm, bind_lift_Ok, Hd, bind_lift_Ok, bind_glob.
  fold (Spec.folders (w_fs w) root directory).
  rewrite load_files_loop_trace.
  by rewrite log_event_events, log_events_app, log_events_fs.
Qed.

Lemma folder_records_length fs split folder :
  length (Spec.folder_records fs split folder) = Trace.folder_count fs split folder.
Proof.
  unfold Spec.folder_records, Trace.folder_count, Spec.channels, Spec.listing.
  destruct (String.eqb split "test"); cbn [negb app fmap list_fmap foldr snd];
    rewrite length_fmap, ?zip4_length, ?zip3_length, !sorted_length; lia.
Qed.

(** X2: the length of a dataset is the sum, over the folders of its split
    directory, of the length of the shortest channel listing of the folder;
    a folder with an empty channel directory adds nothing. *)
Theorem len_sum_of_shortest
    (download_and_extract_archive :
       string → string → string → option string → FileSystem → result FileSystem)
    (root split directory : string)
    (transforms : option (Sample → result Sample)) (checksum : bool) (w : World G) :
  ETCI2021.metadata !! split ≫= (.!! "directory") = Some directory →
  fs_exists (w_fs w) (Path.join root [directory]) = true →
  ∃ s,
    (ETCI2021.__init__ download_and_extract_archive root split transforms false
       checksum w).1 = Ok s ∧
    ETCI2021.__len__ s =
      Z.of_nat (sum_list (Trace.folder_count (w_fs w) split <$>
                            Spec.folders (w_fs w) root directory)).
Proof.
  intros Hdir Hex.
  destruct (init_no_download_run download_and_extract_archive root split transforms
              checksum w directory Hdir) as [evs Hrun].
  rewrite Hex in Hrun. rewrite Hrun. eexists. split; [reflexivity|].
  unfold ETCI2021.__len__. cbn [ETCI2021.files]. f_equal.
  unfold Spec.index. rewrite Hdir, length_list_bind.
  f_equal. apply list_fmap_ext. intros _ folder _. apply folder_records_length.
Qed.

Lemma elem_of_zip4 {A B C D} (xs : list A) (ys : list B) (zs : list C) (us : list D)
    x y z u :
  (x, y, z, u) ∈ zip4 xs ys zs us → x ∈ xs ∧ y ∈ ys ∧ z ∈ zs ∧ u ∈ us.
Proof.
  intros [i Hi]%list_elem_of_lookup. apply zip4_lookup in Hi as (? & ? & ? & ?).
  repeat split; by eapply list_elem_of_lookup_2.
Qed.

Lemma elem_of_zip3 {A B C} (xs : list A) (ys : list B) (zs : list C) x y z :
  (x, y, z) ∈ zip3 xs ys zs → x ∈ xs ∧ y ∈ ys ∧ z ∈ zs.
Proof.
  intros [i Hi]%list_elem_of_lookup. apply zip3_lookup in Hi as (? & ? & ?).
  repeat split; by eapply list_elem_of_lookup_2.
Qed.

(** X3: every record of the index is made of files of one folder: there
    is a folder of the split directory such that, for each channel of the
    split, the record names a path that the listing of that channel's
    directory in this folder returned. *)
Theorem index_records_from_one_folder (root split directory : string) (w : World G) :
  ETCI2021.metadata !! split ≫= (.!! "directory") = Some directory →
  ∃ recs,
    (ETCI2021._load_files root split w).1 = Ok recs ∧
    ∀ r, r ∈ recs →
      ∃ folder,
        folder ∈ Spec.folders (w_fs w) root directory ∧
        ∀ key sub, (key, sub) ∈ Spec.channels split →
          ∃ path, r !! key = Some path ∧
                  path ∈ fs_glob (w_fs w) (Path.join folder [sub; "*.png"]).
Proof.
  intros Hdir.
  assert (dict_contains ETCI2021.metadata split = true) as Hsplit.
  { unfold dict_contains. destruct (ETCI2021.metadata !! split); [|done].
    by apply bool_decide_eq_true_2. }
  destruct (load_files_spec root split w Hsplit) as [evs ->].
  eexists. split; [reflexivity|]. intros r Hr.
  unfold Spec.index in Hr. rewrite Hdir in Hr.
  apply list_elem_of_bind in Hr as (folder & Hr & Hfolder).
  exists folder. split; [done|].
  unfold Spec.folder_records, Spec.channels, Spec.listing in *.
  destruct (String.eqb split "test"); cbn [negb app] in *;
    apply list_elem_of_fmap in Hr as (t & -> & Ht).
  - destruct t as [[vv vh] wa].
    apply elem_of_zip3 in Ht as (Hvv & Hvh & Hwa).
    rewrite sorted_elem_of in Hvv, Hvh, Hwa.
    intros key sub Hin. set_unfold in Hin.
    destruct Hin as [[= -> ->]|[[= -> ->]|[[= -> ->]|[]]]];
      (eexists; split;
       [ unfold Spec.record3, Spec.record4;
         rewrite ?lookup_insert_ne by done; apply lookup_insert_eq
       | done ]).
  - destruct t as [[[vv vh] fl] wa].
    apply elem_of_zip4 in Ht as (Hvv & Hvh & Hfl & Hwa).
    rewrite sorted_elem_of in Hvv, Hvh, Hfl, Hwa.
    intros key sub Hin. set_unfold in Hin.
    destruct Hin as [[= -> ->]|[[= -> ->]|[[= -> ->]|[[= -> ->]|[]]]]];
      (eexists; split;
       [ unfold Spec.record3, Spec.record4;
         rewrite ?lookup_insert_ne by done; apply lookup_insert_eq
       | done ]).
Qed.

End IndexerMore.

(* ================================================================== *)
(** * Further properties of the dataset                                 *)
(* ================================================================== *)

Lemma list_getitem_out_of_range {A} (l : list A) (i : Z) :
  i < - Z.of_nat (length l) ∨ Z.of_nat (length l) <= i →
  list_getitem l i = Raise IndexError.
Proof.
  intros Hi. unfold list_getitem.
  destruct (Z.ltb_spec i 0); cbv zeta.
  - rewrite (proj2 (Z.leb_gt 0 (i + Z.of_nat (length l)))) by lia. done.
  - rewrite (proj2 (Z.ltb_ge i (Z.of_nat (length l)))) by lia.
    by rewrite andb_false_r.
Qed.

Lemma list_getitem_negative {A} (l : list A) (i : Z) :
  - Z.of_nat (length l) <= i < 0 →
  list_getitem l i = list_getitem l (i + Z.of_nat (length l)).
Proof.
  intros Hi. unfold list_getitem.
  rewrite (proj2 (Z.ltb_lt i 0)) by lia.
  by rewrite (proj2 (Z.ltb_ge (i + Z.of_nat (length l)) 0)) by lia.
Qed.

Lemma cat_bands_mismatch (vv vh : PILImage) :
  (im_height vh, im_width vh) ≠ (im_height vv, im_width vv) →
  Torch.cat [Spec.band vv; Spec.band vh] =
    Raise (RuntimeError "cat: sizes of tensors must match except in dimension 0").
Proof.
  intros Hne. unfold Torch.cat.
  rewrite !filter_cons_True, filter_nil by done.
  cbn [t_shape Spec.band forallb tail].
  rewrite bool_decide_eq_false_2; [done|].
  intros [[= Hh Hw] _]. apply Hne. by rewrite Hh, Hw.
Qed.

Section DatasetMore.

Context {G : Type}.
Variable download_and_extract_archive :
  string → string → string → option string → FileSystem → result FileSystem.
Implicit Types (w : World G) (s : ETCI2021.self).

Local Abbreviation init := (ETCI2021.__init__ download_and_extract_archive).

Lemma bind_ret {A B} (a : A) (k : A → M G B) w : bind (ret a) k w = k a w.
Proof. reflexivity. Qed.

Lemma bind_run_raise {A B} (m : M G A) (k : A → M G B) w e w' :
  m w = (Raise e, w') → bind m k w = (Raise e, w').
Proof. intros H. unfold bind. by rewrite H. Qed.

Lemma load_image_unreadable path w :
  fs_open (w_fs w) path = None →
  ETCI2021._load_image path w = (Raise (OSError path), log_event (EvOpen path) w).
Proof.
  intros Ho. unfold ETCI2021._load_image, Image_open, bind.
  change (Path.join path []) with path. by rewrite Ho.
Qed.

(** X4: [__getitem__] follows Python's list indexing: an index outside
    [-len, len) raises [IndexError] before any file is opened, and a
    negative index [-k] reads the same sample as [len - k]. *)
Theorem getitem_index_bounds s (index : Z) w :
  (index < - ETCI2021.__len__ s ∨ ETCI2021.__len__ s <= index →
     ETCI2021.__getitem__ s index w = (Raise IndexError, w)) ∧
  (- ETCI2021.__len__ s <= index < 0 →
     ETCI2021.__getitem__ s index w =
       ETCI2021.__getitem__ s (index + ETCI2021.__len__ s) w).
Proof.
  unfold ETCI2021.__len__, ETCI2021.__getitem__. split; intros Hi.
  - by rewrite list_getitem_out_of_range.
  - by rewrite list_getitem_negative.
Qed.

(** X5: a file of the record that cannot be opened stops [__getitem__]
    with an [OSError] naming it, and no later file of the record is opened:
    if the VV file is unreadable only it was tried; if VV opens and VH does
    not, exactly these two were tried. *)
Theorem getitem_unreadable_file s (index : Z) w (rec : FileRecord) (pvv pvh : string) :
  list_getitem (ETCI2021.files s) index = Ok rec →
  rec !! "vv" = Some pvv →
  rec !! "vh" = Some pvh →
  (fs_open (w_fs w) pvv = None →
     ETCI2021.__getitem__ s index w = (Raise (OSError pvv), log_events [EvOpen pvv] w)) ∧
  (is_Some (fs_open (w_fs w) pvv) → fs_open (w_fs w) pvh = None →
     ETCI2021.__getitem__ s index w =
       (Raise (OSError pvh), log_events [EvOpen pvv; EvOpen pvh] w)).
Proof.
  intros Hrec Hvv Hvh. unfold ETCI2021.__getitem__, dict_get.
  rewrite Hrec, bind_lift_Ok, Hvv, bind_lift_Ok. split.
  - intros Ho.
    by rewrite (bind_run_raise _ _ _ _ _ (load_image_unreadable pvv w Ho)).
  - intros [vv Ovv] Ovh.
    rewrite (bind_run _ _ _ _ _ (load_image_run pvv w vv Ovv)).
    rewrite Hvh, bind_lift_Ok.
    rewrite (bind_run_raise _ _ _ _ _
               (load_image_unreadable pvh (log_event (EvOpen pvv) w) Ovh)).
    by rewrite !log_event_events, !log_events_app.
Qed.

(** X6: when the VV and VH pictures of a record differ in size,
    [__getitem__] fails in [torch.cat] with a [RuntimeError]; this happens
    after the masks were read (and, for "train" and "val", stacked). *)
Theorem getitem_size_mismatch s (index : Z) w (rec : FileRecord)
    (pvv pvh pwa : string) (vv vh water : PILImage) :
  list_getitem (ETCI2021.files s) index = Ok rec →
  rec !! "vv" = Some pvv → rec !! "vh" = Some pvh → rec !! "water_mask" = Some pwa →
  fs_open (w_fs w) pvv = Some vv → fs_open (w_fs w) pvh = Some vh →
  fs_open (w_fs w) pwa = Some water →
  (String.eqb (ETCI2021.split s) "test" = false →
     ∃ pfl flood,
       rec !! "flood_mask" = Some pfl ∧ fs_open (w_fs w) pfl = Some flood ∧
       im_height flood = im_height water ∧ im_width flood = im_width water) →
  (im_height vh, im_width vh) ≠ (im_height vv, im_width vv) →
  ∃ evs,
    ETCI2021.__getitem__ s index w =
      (Raise (RuntimeError "cat: sizes of tensors must match except in dimension 0"),
       log_events ([EvOpen pvv; EvOpen pvh; EvOpen pwa] ++ evs) w).
Proof.
  intros Hrec Hvv Hvh Hwa Ovv Ovh Owa Hflood Hne.
  unfold ETCI2021.__getitem__, dict_get.
  rewrite Hrec, bind_lift_Ok, Hvv, bind_lift_Ok.
  rewrite (bind_run _ _ _ _ _ (load_image_run pvv w vv Ovv)).
  rewrite Hvh, bind_lift_Ok.
  rewrite (bind_run _ _ _ _ _ (load_image_run pvh (log_event (EvOpen pvv) w) vh Ovh)).
  rewrite Hwa, bind_lift_Ok.
  rewrite (bind_run _ _ _ _ _
             (load_target_run pwa (log_event (EvOpen pvh) (log_event (EvOpen pvv) w))
                water Owa)).
  destruct (String.eqb (ETCI2021.split s) "test") eqn:Hsp; cbn [negb].
  - exists []. erewrite bind_run; [|reflexivity].
    rewrite cat_bands_mismatch, bind_lift_Raise by done.
    by rewrite !log_event_events, !log_events_app.
  - destruct (Hflood eq_refl) as (pfl & flood & Hfl & Ofl & Hh & Hw).
    exists [EvOpen pfl]. erewrite bind_run; last first.
    { rewrite Hfl, bind_lift_Ok.
      rewrite (bind_run _ _ _ _ _
                 (load_target_run pfl
                    (log_event (EvOpen pwa)
                       (log_event (EvOpen pvh) (log_event (EvOpen pvv) w)))
                    flood Ofl)).
      by rewrite stack_masks. }
    rewrite cat_bands_mismatch, bind_lift_Raise by done.
    by rewrite !log_event_events, !log_events_app.
Qed.

(** ** Downloading *)

(** X7: with [download=True] and the split directory already present
    nothing is downloaded: [__init__] checks the directory, prints "Files
    already downloaded and verified" and goes on exactly as with
    [download=False]. *)
Theorem init_download_present (root split directory : string)
    (transforms : option (Sample → result Sample)) (checksum : bool) w :
  ETCI2021.metadata !! split ≫= (.!! "directory") = Some directory →
  fs_exists (w_fs w) (Path.join root [directory]) = true →
  init root split transforms true checksum w =
    init root split transforms false checksum
      (log_events [EvExists (Path.join root [directory]);
                   EvPrint "Files already downloaded and verified"] w).
Proof.
  intros Hdir Hex. pose proof (split_directory _ _ Hdir) as [Hv _].
  unfold ETCI2021.__init__. rewrite Hv. unfold assert_.
  rewrite !bind_ret.
  erewrite (bind_run (ETCI2021._download _ _)); [reflexivity|].
  unfold ETCI2021._download.
  erewrite bind_run; [|by apply check_integrity_run].
  cbn [ETCI2021.root]. rewrite Hex. unfold print.
  by rewrite !log_event_events, !log_events_app.
Qed.

(** X8: with [download=True] and the split directory absent the archive
    of the split is fetched exactly once, into [root], under the file name
    of the split, and with its MD5 only when [checksum] is set.  An error
    of the download is the error of [__init__]; after a download that
    succeeds, construction goes on as with [download=False] on the file
    system the download left. *)
Theorem init_download_absent (root split : string)
    (transforms : option (Sample → result Sample)) (checksum : bool) w
    (meta : gmap string string) (directory url filename md5 : string) :
  ETCI2021.metadata !! split = Some meta →
  meta !! "directory" = Some directory → meta !! "url" = Some url →
  meta !! "filename" = Some filename → meta !! "md5" = Some md5 →
  fs_exists (w_fs w) (Path.join root [directory]) = false →
  let arg := if checksum then Some md5 else None in
  let w1 := log_events [EvExists (Path.join root [directory]);
                        EvDownload url root filename arg] w in
  init root split transforms true checksum w =
    match download_and_extract_archive url root filename arg (w_fs w) with
    | Ok fs' => init root split transforms false checksum (set_fs fs' w1)
    | Raise e => (Raise e, w1)
    end.
Proof.
  intros Hm Hd Hu Hf Hmd Hex arg w1.
  assert (ETCI2021.metadata !! split ≫= (.!! "directory") = Some directory) as Hdir
    by (by rewrite Hm).
  pose proof (split_directory _ _ Hdir) as [Hv _].
  assert (ETCI2021._download download_and_extract_archive
            {| ETCI2021.root := root; ETCI2021.split := split;
               ETCI2021.transforms := transforms; ETCI2021.checksum := checksum;
               ETCI2021.files := [] |} w =
          match download_and_extract_archive url root filename arg (w_fs w) with
          | Ok fs' => (Ok tt, set_fs fs' w1)
          | Raise e => (Raise e, w1)
          end) as Hdl.
  { unfold ETCI2021._download.
    erewrite bind_run; [|by apply check_integrity_run].
    cbn [ETCI2021.root ETCI2021.split ETCI2021.checksum]. rewrite Hex.
    unfold dict_get. rewrite Hm, bind_lift_Ok, Hu, bind_lift_Ok, bind_lift_Ok,
      Hf, bind_lift_Ok.
    subst arg w1. destruct checksum.
    - erewrite bind_run; last first.
      { rewrite bind_lift_Ok, Hmd, bind_lift_Ok. reflexivity. }
      cbn [w_fs log_event].
      destruct (download_and_extract_archive _ _ _ _ _);
        by rewrite !log_event_events, !log_events_app.
    - erewrite bind_run; [|reflexivity].
      cbn [w_fs log_event].
      destruct (download_and_extract_archive _ _ _ _ _);
        by rewrite !log_event_events, !log_events_app. }
  unfold ETCI2021.__init__. rewrite Hv. unfold assert_.
  rewrite bind_ret.
  destruct (download_and_extract_archive url root filename arg (w_fs w)) as [fs'|e].
  - rewrite (bind_run _ _ _ _ _ Hdl). by rewrite !bind_ret.
  - by rewrite (bind_run_raise _ _ _ _ _ Hdl).
Qed.

(** ** What construction and reading never do *)

Lemma only_ret {A} P (a : A) : only_logs P (ret (G:=G) a).
Proof. intros w. exists []. by rewrite log_events_nil. Qed.

Lemma only_raise {A} P e : only_logs P (raise (G:=G) (A:=A) e).
Proof. intros w. exists []. by rewrite log_events_nil. Qed.

Lemma only_lift {A} P (r : result A) : only_logs P (lift (G:=G) r).
Proof. intros w. exists []. by rewrite log_events_nil. Qed.

Lemma only_logged {A} (P : Event → Prop) (f : World G → result A) ev :
  P ev → only_logs P (λ w, (f w, log_event ev w)).
Proof. intros HP w. exists [ev]. split; [done|by constructor]. Qed.

Lemma only_bind {A B} P (m : M G A) (k : A → M G B) :
  only_logs P m → (∀ a, only_logs P (k a)) → only_logs P (bind m k).
Proof.
  intros Hm Hk w. unfold bind. destruct (Hm w) as (evs1 & H1 & HP1).
  destruct (m w) as [[a|e] w1]; simpl in *; subst w1.
  - destruct (Hk a (log_events evs1 w)) as (evs2 & H2 & HP2).
    exists (evs1 ++ evs2). rewrite H2, log_events_app.
    split; [done|by apply Forall_app].
  - by exists evs1.
Qed.

Lemma only_for {A S} P (xs : list A) (body : S → A → M G S) acc :
  (∀ acc x, only_logs P (body acc x)) → only_logs P (for_ xs acc body).
Proof.
  intros Hb. revert acc. induction xs as [|x xs IH]; intros acc; simpl.
  - apply only_ret.
  - apply only_bind; [apply Hb | apply IH].
Qed.

Lemma only_check_integrity s : only_logs is_lookup (ETCI2021._check_integrity (G:=G) s).
Proof.
  unfold ETCI2021._check_integrity.
  apply only_bind; [apply only_lift|intros meta].
  apply only_bind; [apply only_lift|intros directory].
  apply only_bind; [by apply (only_logged is_lookup)|intros ex].
  destruct (negb ex); apply only_ret.
Qed.

Lemma only_load_files root split :
  only_logs is_lookup (ETCI2021._load_files (G:=G) root split).
Proof.
  unfold ETCI2021._load_files.
  apply only_bind; [apply only_lift|intros meta].
  apply only_bind; [apply only_lift|intros directory].
  apply only_bind; [by apply (only_logged is_lookup)|intros folders].
  apply only_for. intros acc folder. unfold ETCI2021._load_files_folder.
  apply only_bind; [by apply (only_logged is_lookup)|intros vvs].
  apply only_bind; [by apply (only_logged is_lookup)|intros vhs].
  apply only_bind; [by apply (only_logged is_lookup)|intros was].
  destruct (negb _); [|apply only_ret].
  apply only_bind; [by apply (only_logged is_lookup)|intros fls]. apply only_ret.
Qed.

Lemma only_init root split transforms checksum :
  only_logs (G:=G) is_lookup (init root split transforms false checksum).
Proof.
  unfold ETCI2021.__init__, assert_.
  apply only_bind; [destruct (dict_contains _ _); [apply only_ret|apply only_raise]|].
  intros _. apply only_bind; [apply only_ret|intros _].
  apply only_bind; [apply only_check_integrity|intros ok].
  destruct (negb ok); [apply only_raise|].
  apply only_bind; [apply only_load_files|intros fs]. apply only_ret.
Qed.




End DatasetMore.

(* ================================================================== *)
(** * Further properties of preprocessing                               *)
(* ================================================================== *)

Lemma gt_long_binary_mask (img : PILImage) :
  Torch.to Int64 (Torch.gt (Spec.binary_mask img) 0) = Spec.binary_mask img.
Proof.
  unfold Torch.to, Torch.gt, Spec.binary_mask. cbn [t_shape t_data]. f_equal.
  rewrite <- list_fmap_compose.
  rewrite fmap_bind. apply list_bind_ext; [|done]. intros h.
  rewrite fmap_bind. apply list_bind_ext; [|done]. intros x.
  destruct (0 <? im_l img h x mod 256); reflexivity.
Qed.

(** What [preprocess] returns on a sample with a 6 x H x W image and a
    mask of at least two channels. *)
Lemma preprocess_run (s : ETCI2021DataModule.self) (sample : Sample)
    (image mask flood : Tensor) (H W C : nat) :
  ETCI2021DataModule.norm s =
    Torch.Normalize ETCI2021DataModule.band_means ETCI2021DataModule.band_stds →
  sample !! "image" = Some image → sample !! "mask" = Some mask →
  t_shape image = [6%nat; H; W] → t_shape mask = [C; H; W] → (2 <= C)%nat →
  Torch.getitem mask 1 = Ok flood →
  ∃ out image',
    ETCI2021DataModule.preprocess s sample = Ok out ∧
    out !! "image" = Some image' ∧
    out !! "mask" = Some (Torch.to Int64 (Torch.gt flood 0)) ∧
    t_dtype image' = Float32 ∧ t_shape image' = [7%nat; H; W].
Proof.
  intros Hnorm Himg Hmask Hsi Hsm HC Hg1.
  pose (water := {| t_dtype := t_dtype mask; t_shape := [H; W];
                    t_data := take (Torch.numel [H; W])
                                (drop (Z.to_nat 0 * Torch.numel [H; W]) (t_data mask)) |}).
  assert (Torch.getitem mask 0 = Ok water) as Hg0
    by (apply (getitem_in_range mask C [H; W] 0 Hsm); lia).
  eexists _, _. split; [|split; [|split; [|split]]].
  - unfold ETCI2021DataModule.preprocess, dict_get.
    rewrite Himg, Hmask, !bind_Ok, Hg0, bind_Ok, ?Hmask, ?bind_Ok, Hg1, bind_Ok.
    rewrite (cat_pair image (Torch.unsqueeze water) 6 1 [H; W]) by done.
    rewrite bind_Ok, lookup_insert_eq, bind_Ok.
    unfold Torch.idiv at 1. cbn [Torch.to t_dtype t_shape t_data Torch.unsqueeze].
    rewrite decide_True by done. rewrite bind_Ok, lookup_insert_eq, bind_Ok.
    rewrite Hnorm.
    rewrite (Normalize_run _ _ _ 7 H W) by (done || by vm_compute).
    rewrite bind_Ok. reflexivity.
  - by rewrite lookup_insert_ne, lookup_insert_eq by done.
  - by rewrite lookup_insert_eq.
  - done.
  - done.
Qed.

(** X10: [preprocess] needs both keys and touches only them.  A sample
    without "image" raises [KeyError] for "image", one with an image but no
    "mask" raises [KeyError] for "mask"; and whenever [preprocess] returns,
    the sample has the keys it had, and every entry other than "image" and
    "mask" is as it was. *)
Theorem preprocess_keys (s : ETCI2021DataModule.self) (sample : Sample) :
  (sample !! "image" = None →
     ETCI2021DataModule.preprocess s sample = Raise (KeyError "image")) ∧
  (is_Some (sample !! "image") → sample !! "mask" = None →
     ETCI2021DataModule.preprocess s sample = Raise (KeyError "mask")) ∧
  (∀ out, ETCI2021DataModule.preprocess s sample = Ok out →
     dom out = dom sample ∧
     ∀ k, k ≠ "image" → k ≠ "mask" → out !! k = sample !! k).
Proof.
  unfold ETCI2021DataModule.preprocess, dict_get. split; [|split].
  - by intros ->.
  - by intros [image ->] ->.
  - intros out Hout.
    destruct (sample !! "image") as [image|] eqn:Himg; [|done].
    destruct (sample !! "mask") as [mask|] eqn:Hmask; [|done].
    rewrite !bind_Ok in Hout.
    destruct (Torch.getitem mask 0) as [m0|]; [|done]. rewrite bind_Ok in Hout.
    rewrite ?Hmask, ?bind_Ok in Hout.
    destruct (Torch.getitem mask 1) as [m1|]; [|done]. rewrite bind_Ok in Hout.
    destruct (Torch.cat _) as [c|]; [|done].
    rewrite bind_Ok, lookup_insert_eq, bind_Ok in Hout.
    destruct (Torch.idiv _ _) as [x|]; [|done].
    rewrite bind_Ok, lookup_insert_eq, bind_Ok in Hout.
    destruct (ETCI2021DataModule.norm s x) as [y|]; [|done].
    rewrite bind_Ok in Hout. injection Hout as <-.
    assert ("image" ∈ dom sample) by (apply elem_of_dom; eauto).
    assert ("mask" ∈ dom sample) by (apply elem_of_dom; eauto).
    split.
    + rewrite !dom_insert_L. apply set_eq. intros k.
      rewrite !elem_of_union, !elem_of_singleton. intuition (subst; done).
    + intros k Hk1 Hk2. by rewrite !lookup_insert_ne by done.
Qed.

Section Pipeline.

Context {G : Type}.
Implicit Types (w : World G) (s : ETCI2021.self).

(** The sample before the transform, and the files opened for it. *)
Lemma getitem_labelled_raw s index w rec
    pvv pvh pwa pfl (vv vh water flood : PILImage) :
  String.eqb (ETCI2021.split s) "test" = false →
  list_getitem (ETCI2021.files s) index = Ok rec →
  rec !! "vv" = Some pvv → rec !! "vh" = Some pvh →
  rec !! "water_mask" = Some pwa → rec !! "flood_mask" = Some pfl →
  fs_open (w_fs w) pvv = Some vv → fs_open (w_fs w) pvh = Some vh →
  fs_open (w_fs w) pwa = Some water → fs_open (w_fs w) pfl = Some flood →
  im_height vh = im_height vv → im_width vh = im_width vv →
  im_height flood = im_height water → im_width flood = im_width water →
  let sample : Sample :=
    <["image" := Spec.image vv vh]> (<["mask" := Spec.mask2 water flood]> ∅) in
  ETCI2021.__getitem__ s index w =
    (match ETCI2021.transforms s with Some f => f sample | None => Ok sample end,
     log_events [EvOpen pvv; EvOpen pvh; EvOpen pwa; EvOpen pfl] w).
Proof.
  intros Hsp Hrec Hvv Hvh Hwa Hfl Ovv Ovh Owa Ofl ? ? ? ? sample.
  unfold ETCI2021.__getitem__, dict_get.
  rewrite Hrec, bind_lift_Ok, Hvv, bind_lift_Ok.
  rewrite (bind_run _ _ _ _ _ (load_image_run pvv w vv Ovv)).
  rewrite Hvh, bind_lift_Ok.
  rewrite (bind_run _ _ _ _ _ (load_image_run pvh (log_event (EvOpen pvv) w) vh Ovh)).
  rewrite Hwa, bind_lift_Ok.
  rewrite (bind_run _ _ _ _ _
             (load_target_run pwa (log_event (EvOpen pvh) (log_event (EvOpen pvv) w))
                water Owa)).
  rewrite Hsp. cbn [negb].
  erewrite bind_run; last first.
  { rewrite Hfl, bind_lift_Ok.
    rewrite (bind_run _ _ _ _ _
               (load_target_run pfl
                  (log_event (EvOpen pwa) (log_event (EvOpen pvh) (log_event (EvOpen pvv) w)))
                  flood Ofl)).
    by rewrite stack_masks. }
  rewrite cat_bands, bind_lift_Ok by done. fold sample.
  destruct (ETCI2021.transforms s); unfold lift, ret;
    by rewrite !log_event_events, !log_events_app.
Qed.

Lemma getitem_unlabelled_raw s index w rec pvv pvh pwa (vv vh water : PILImage) :
  String.eqb (ETCI2021.split s) "test" = true →
  list_getitem (ETCI2021.files s) index = Ok rec →
  rec !! "vv" = Some pvv → rec !! "vh" = Some pvh → rec !! "water_mask" = Some pwa →
  fs_open (w_fs w) pvv = Some vv → fs_open (w_fs w) pvh = Some vh →
  fs_open (w_fs w) pwa = Some water →
  im_height vh = im_height vv → im_width vh = im_width vv →
  let sample : Sample :=
    <["image" := Spec.image vv vh]> (<["mask" := Spec.mask1 water]> ∅) in
  ETCI2021.__getitem__ s index w =
    (match ETCI2021.transforms s with Some f => f sample | None => Ok sample end,
     log_events [EvOpen pvv; EvOpen pvh; EvOpen pwa] w).
Proof.
  intros Hsp Hrec Hvv Hvh Hwa Ovv Ovh Owa ? ? sample.
  unfold ETCI2021.__getitem__, dict_get.
  rewrite Hrec, bind_lift_Ok, Hvv, bind_lift_Ok.
  rewrite (bind_run _ _ _ _ _ (load_image_run pvv w vv Ovv)).
  rewrite Hvh, bind_lift_Ok.
  rewrite (bind_run _ _ _ _ _ (load_image_run pvh (log_event (EvOpen pvv) w) vh Ovh)).
  rewrite Hwa, bind_lift_Ok.
  rewrite (bind_run _ _ _ _ _
             (load_target_run pwa (log_event (EvOpen pvh) (log_event (EvOpen pvv) w))
                water Owa)).
  rewrite Hsp. cbn [negb].
  erewrite bind_run; [|reflexivity].
  rewrite cat_bands, bind_lift_Ok by done.
  change (Torch.unsqueeze (Spec.binary_mask water)) with (Spec.mask1 water). fold sample.
  destruct (ETCI2021.transforms s); unfold lift, ret;
    by rewrite !log_event_events, !log_events_app.
Qed.

(** X11: a dataset built with the data module's [preprocess] as its
    transform, as [setup] builds them, yields for "train" and "val"
    samples whose image is a float 7 x H x W tensor and whose mask is
    exactly the 0/1 flood mask, H x W.  On the "test" split the same
    transform raises [IndexError], the sample having no flood channel. *)
Theorem getitem_preprocessed (dm : ETCI2021DataModule.self) s (index : Z) w
    (rec : FileRecord) (H W : nat) :
  ETCI2021DataModule.norm dm =
    Torch.Normalize ETCI2021DataModule.band_means ETCI2021DataModule.band_stds →
  ETCI2021.transforms s = Some (ETCI2021DataModule.preprocess dm) →
  list_getitem (ETCI2021.files s) index = Ok rec →
  tile_ok (w_fs w) (ETCI2021.split s) rec H W →
  if String.eqb (ETCI2021.split s) "test"
  then (ETCI2021.__getitem__ s index w).1 = Raise IndexError
  else ∃ out image flood,
         (ETCI2021.__getitem__ s index w).1 = Ok out ∧
         out !! "image" = Some image ∧
         t_dtype image = Float32 ∧ t_shape image = [7%nat; H; W] ∧
         rec !! "flood_mask" ≫= fs_open (w_fs w) = Some flood ∧
         out !! "mask" = Some (Spec.binary_mask flood).
Proof.
  intros Hnorm Htr Hrec Hok.
  destruct (tile_ok_key _ _ _ _ _ "vv" Hok) as (pvv & vv & Hvv & Ovv & Hh1 & Hw1);
    [left; repeat constructor|].
  destruct (tile_ok_key _ _ _ _ _ "vh" Hok) as (pvh & vh & Hvh & Ovh & Hh2 & Hw2);
    [left; repeat constructor|].
  destruct (tile_ok_key _ _ _ _ _ "water_mask" Hok) as (pwa & wa & Hwa & Owa & Hh3 & Hw3);
    [left; repeat constructor|].
  destruct (String.eqb (ETCI2021.split s) "test") eqn:Hsp.
  - rewrite (getitem_unlabelled_raw s index w rec pvv pvh pwa vv vh wa)
      by (done || congruence).
    rewrite Htr. cbn [fst].
    unfold ETCI2021DataModule.preprocess, dict_get.
    rewrite lookup_insert_eq, lookup_insert_ne, lookup_insert_eq, !bind_Ok by done.
    rewrite getitem_mask1, bind_Ok.
    rewrite ?lookup_insert_ne, ?lookup_insert_eq, ?bind_Ok by done.
    by rewrite (getitem_past_end (Spec.mask1 wa) 1 [im_height wa; im_width wa] 1 eq_refl)
      by lia.
  - destruct (tile_ok_key _ _ _ _ _ "flood_mask" Hok)
      as (pfl & fl & Hfl & Ofl & Hh4 & Hw4); [by right|].
    rewrite (getitem_labelled_raw s index w rec pvv pvh pwa pfl vv vh wa fl)
      by (done || congruence).
    rewrite Htr. cbn [fst].
    destruct (getitem_mask2 wa fl) as [_ Hg1]; [congruence..|].
    destruct (preprocess_run dm
                (<["image" := Spec.image vv vh]> (<["mask" := Spec.mask2 wa fl]> ∅))
                (Spec.image vv vh) (Spec.mask2 wa fl) (Spec.binary_mask fl) H W 2 Hnorm)
      as (out & image' & Hrun & Him & Hma & Hdt & Hsh);
      [by rewrite lookup_insert_eq
      |by rewrite lookup_insert_ne, lookup_insert_eq by done
      |by unfold Spec.image; cbn [t_shape]; rewrite Hh1, Hw1
      |by unfold Spec.mask2; cbn [t_shape]; rewrite Hh3, Hw3
      |lia|done|].
    exists out, image', fl. rewrite Hfl. cbn. rewrite gt_long_binary_mask in Hma.
    done.
Qed.

End Pipeline.

(* ================================================================== *)
(** * Further properties of the data module                             *)
(* ================================================================== *)

Section SetupMore.

Context {G : Type} `{!TorchRandom G}.
Variable download_and_extract_archive :
  string → string → string → option string → FileSystem → result FileSystem.
Implicit Types (w : World G) (s : ETCI2021DataModule.self).

Local Abbreviation setup := (ETCI2021DataModule.setup download_and_extract_archive).
Local Abbreviation prepare_data :=
  (ETCI2021DataModule.prepare_data download_and_extract_archive).

(** X12: [setup] needs both split directories.  Without [root/train] it
    raises the "dataset not found" [RuntimeError] after that one existence
    check; with [root/train] present but [root/test], the directory of
    the "val" split, absent, it raises the same error. *)
Theorem setup_requires_both_splits s w :
  (fs_exists (w_fs w) (Path.join (ETCI2021DataModule.root_dir s) ["train"]) = false →
     setup s w =
       (Raise (RuntimeError not_found_message),
        log_events [EvExists (Path.join (ETCI2021DataModule.root_dir s) ["train"])] w)) ∧
  (fs_exists (w_fs w) (Path.join (ETCI2021DataModule.root_dir s) ["train"]) = true →
   fs_exists (w_fs w) (Path.join (ETCI2021DataModule.root_dir s) ["test"]) = false →
     (setup s w).1 = Raise (RuntimeError not_found_message)).
Proof.
  unfold ETCI2021DataModule.setup.
  destruct (init_no_download_run download_and_extract_archive
              (ETCI2021DataModule.root_dir s) "train"
              (Some (ETCI2021DataModule.preprocess s)) false w "train" eq_refl)
    as [evs1 Hi1].
  split.
  - intros Htrain. rewrite Htrain in Hi1.
    by rewrite (bind_run_raise _ _ _ _ _ Hi1).
  - intros Htrain Hval. rewrite Htrain in Hi1. rewrite (bind_run _ _ _ _ _ Hi1).
    destruct (init_no_download_run download_and_extract_archive
                (ETCI2021DataModule.root_dir s) "val"
                (Some (ETCI2021DataModule.preprocess s)) false
                (log_events
                   (EvExists (Path.join (ETCI2021DataModule.root_dir s) ["train"]) :: evs1) w)
                "test" eq_refl)
      as [evs2 Hi2].
    rewrite log_events_fs, Hval in Hi2.
    by rewrite (bind_run_raise _ _ _ _ _ Hi2).
Qed.

Lemma only_setup s : only_logs (G:=G) is_lookup (setup s).
Proof.
  unfold ETCI2021DataModule.setup.
  apply only_bind; [apply only_init|intros d].
  apply only_bind; [apply only_init|intros test].
  apply only_bind; [apply only_lift|intros size_train].
  apply only_bind; [apply only_lift|intros g].
  apply only_bind; [apply only_lift|intros parts].
  destruct parts as [|train [|val [|? ?]]]; apply only_raise || apply only_ret.
Qed.

(** X13: [prepare_data] only checks that the train split is there: it
    returns when [root/train] exists and raises the "dataset not found"
    [RuntimeError] otherwise.  Neither it nor [setup] ever calls the
    downloader: all they do to the world is look paths up, leaving the file
    system and the global random generator as they were. *)
Theorem prepare_data_checks_only s w :
  (prepare_data s w).1 =
    (if fs_exists (w_fs w) (Path.join (ETCI2021DataModule.root_dir s) ["train"])
     then Ok tt else Raise (RuntimeError not_found_message)) ∧
  only_logs (G:=G) is_lookup (prepare_data s) ∧
  only_logs (G:=G) is_lookup (setup s).
Proof.
  split; [|split].
  - unfold ETCI2021DataModule.prepare_data.
    destruct (init_no_download_run download_and_extract_archive
                (ETCI2021DataModule.root_dir s) "train" None false w "train" eq_refl)
      as [evs Hi].
    destruct (fs_exists _ _).
    + by rewrite (bind_run _ _ _ _ _ Hi).
    + by rewrite (bind_run_raise _ _ _ _ _ Hi).
  - unfold ETCI2021DataModule.prepare_data.
    apply only_bind; [apply only_init|intros _; apply only_ret].
  - apply only_setup.
Qed.

(** X14: after [setup] every sample of the train split is in exactly one
    of the two partitions: the train and validation subsets are subsets of
    one and the same dataset, the "train" split with [preprocess] as its
    transform, their index lists have no index in common and hold no index
    twice, and together they hold precisely the indices below its length. *)
Theorem setup_partition s w (n : nat) (g : G) :
  fs_exists (w_fs w) (Path.join (ETCI2021DataModule.root_dir s) ["train"]) = true →
  fs_exists (w_fs w) (Path.join (ETCI2021DataModule.root_dir s) ["test"]) = true →
  n = length (Spec.index (w_fs w) (ETCI2021DataModule.root_dir s) "train") →
  Z.of_nat n < 2 ^ 48 →
  manual_seed Generator (ETCI2021DataModule.seed s) = Ok g →
  ∃ s' d train val,
    (setup s w).1 = Ok s' ∧
    ETCI2021DataModule.train_dataset s' = Some (Data.Subset d train) ∧
    ETCI2021DataModule.val_dataset s' = Some (Data.Subset d val) ∧
    ETCI2021.split d = "train" ∧
    ETCI2021.transforms d = Some (ETCI2021DataModule.preprocess s) ∧
    ETCI2021.__len__ d = Z.of_nat n ∧
    NoDup (train ++ val) ∧
    ∀ i, (i < n)%nat ↔ i ∈ train ∨ i ∈ val.
Proof.
  intros Htrain Hval Hn Hbound Hseed.
  pose proof (setup_run download_and_extract_archive s w n g
                Htrain Hval Hn Hbound Hseed) as Hrun.
  cbv zeta in Hrun.
  eexists _, _, _, _. split; [exact Hrun|].
  split; [reflexivity|]. split; [reflexivity|]. split; [reflexivity|].
  split; [reflexivity|].
  split; [by unfold ETCI2021.__len__, constructed; cbn [ETCI2021.files]; rewrite Hn|].
  rewrite take_drop. split.
  - rewrite randperm_perm. apply NoDup_seq.
  - intros i. rewrite <- elem_of_app, take_drop, randperm_perm, elem_of_seq. lia.
Qed.


(** X16: in the 80/20 split of a non-empty train dataset the validation
    partition is never empty, the train partition is empty only for a
    dataset of one sample, and from two samples on the train partition is
    at least as large as the validation partition. *)
Theorem setup_small_datasets s w (n : nat) (g : G) :
  fs_exists (w_fs w) (Path.join (ETCI2021DataModule.root_dir s) ["train"]) = true →
  fs_exists (w_fs w) (Path.join (ETCI2021DataModule.root_dir s) ["test"]) = true →
  n = length (Spec.index (w_fs w) (ETCI2021DataModule.root_dir s) "train") →
  Z.of_nat n < 2 ^ 48 →
  manual_seed Generator (ETCI2021DataModule.seed s) = Ok g →
  (1 <= n)%nat →
  ∃ s' train val,
    (setup s w).1 = Ok s' ∧
    ETCI2021DataModule.train_dataset s' = Some train ∧
    ETCI2021DataModule.val_dataset s' = Some val ∧
    1 <= Data.len val ∧
    (Data.len train = 0 ↔ n = 1%nat) ∧
    ((2 <= n)%nat → Data.len val <= Data.len train).
Proof.
  intros Htrain Hval Hn Hbound Hseed Hn1.
  pose proof (setup_run download_and_extract_archive s w n g
                Htrain Hval Hn Hbound Hseed) as Hrun.
  cbv zeta in Hrun.
  set (perm := (randperm n g).1) in *.
  assert (length perm = n) as Hperm by apply randperm_length.
  assert (5 * (4 * Z.of_nat n / 5) <= 4 * Z.of_nat n < 5 * (4 * Z.of_nat n / 5) + 5) as Hfl.
  { pose proof (Z.div_mod (4 * Z.of_nat n) 5).
    pose proof (Z.mod_pos_bound (4 * Z.of_nat n) 5). lia. }
  eexists _, _, _. split; [exact Hrun|].
  split; [reflexivity|]. split; [reflexivity|].
  cbn [Data.len]. rewrite length_take_le, length_drop, Hperm by lia.
  lia.
Qed.

End SetupMore.

(* ================================================================== *)
(** * Plotting a sample                                                 *)
(* ================================================================== *)

Lemma take1_drop_lookup {A} (l : list A) (k : nat) (x : A) :
  l !! k = Some x → take 1 (drop k l) = [x].
Proof. intros Hk. by rewrite (drop_S _ _ _ Hk). Qed.

(** [image[:3]] is the VV band. *)
Lemma slice0_image_vv (vv vh : PILImage) :
  Plot.slice0 (Spec.image vv vh) None (Some 3) = Ok (Spec.band vv).
Proof.
  assert (take (3 * Torch.numel [im_height vv; im_width vv])
            (drop (0 * Torch.numel [im_height vv; im_width vv])
               (t_data (Spec.band vv) ++ t_data (Spec.band vh))) =
          t_data (Spec.band vv)) as Hd.
  { rewrite Nat.mul_0_l, drop_0.
    replace (3 * Torch.numel [im_height vv; im_width vv])%nat
      with (length (t_data (Spec.band vv)))
      by (rewrite band_length; unfold Torch.numel; simpl; lia).
    by rewrite take_app_length. }
  exact (f_equal (λ d, Ok {| t_dtype := UInt8;
                             t_shape := [3%nat; im_height vv; im_width vv];
                             t_data := d |}) Hd).
Qed.

(** [image[3:]] is the VH band. *)
Lemma slice0_image_vh (vv vh : PILImage) :
  im_height vh = im_height vv → im_width vh = im_width vv →
  Plot.slice0 (Spec.image vv vh) (Some 3) None = Ok (Spec.band vh).
Proof.
  intros Hh Hw.
  assert (take (3 * Torch.numel [im_height vv; im_width vv])
            (drop (3 * Torch.numel [im_height vv; im_width vv])
               (t_data (Spec.band vv) ++ t_data (Spec.band vh))) =
          t_data (Spec.band vh)) as Hd.
  { replace (3 * Torch.numel [im_height vv; im_width vv])%nat
      with (length (t_data (Spec.band vv)))
      by (rewrite band_length; unfold Torch.numel; simpl; lia).
    rewrite drop_app_length, take_ge; [done|].
    rewrite !band_length, Hh, Hw. lia. }
  transitivity (Ok {| t_dtype := UInt8;
                      t_shape := [3%nat; im_height vv; im_width vv];
                      t_data := t_data (Spec.band vh) |}).
  - exact (f_equal (λ d, Ok {| t_dtype := UInt8;
                               t_shape := [3%nat; im_height vv; im_width vv];
                               t_data := d |}) Hd).
  - unfold Spec.band. cbn [t_data]. by rewrite <- Hh, <- Hw.
Qed.

(** [np.rollaxis(band, 0, 3)] undoes the [permute((2, 0, 1))] of
    [_load_image]: it gives the decoded HxWx3 array back. *)
Lemma rollaxis_band (img : PILImage) :
  Plot.rollaxis_0_3 (Spec.band img) = Ok (Torch.array_RGB img).
Proof.
  unfold Plot.rollaxis_0_3, Torch.array_RGB. cbn [t_shape t_dtype Spec.band].
  do 2 f_equal.
  apply Forall_bind_ext, Forall_forall. intros h Hh%elem_of_seq.
  apply Forall_bind_ext, Forall_forall. intros x Hx%elem_of_seq.
  apply Forall_bind_ext, Forall_forall. intros c Hc%elem_of_seq.
  apply take1_drop_lookup. unfold Torch.numel. cbn [foldr]. rewrite Nat.mul_1_r.
  unfold Spec.band. cbn [t_data].
  apply (bind3_lookup (λ c h x, SInt (im_rgb img h x c mod 256))); lia.
Qed.

(** Runs the drawing calls of [plot] on a concrete row of panels, using
    the hypotheses that say which arrays [imshow] accepts. *)
Ltac run_plot :=
  unfold Plot.imshow;
  repeat match goal with
         | H : ?f ?x = true |- context [?f ?x] => rewrite H
         end;
  vm_compute;
  repeat (match goal with
          | H : ?f ?x = true |- context [?f ?x] => rewrite H
          end; vm_compute);
  reflexivity.

Section PlotMore.

Variable imshow_accepts : Tensor → bool.

Local Abbreviation plot := (Plot.plot imshow_accepts).

Lemma on_axes_at (axs : list Plot.Axes) (i : nat) (ax ax' : Plot.Axes)
    (f : Plot.Axes → result Plot.Axes) :
  axs !! i = Some ax → f ax = Ok ax' →
  Plot.on_axes axs (Z.of_nat i) f = Ok (<[i := ax']> axs).
Proof.
  intros Hi Hf. unfold Plot.on_axes, list_getitem.
  pose proof (lookup_lt_Some _ _ _ Hi).
  rewrite (proj2 (Z.ltb_ge (Z.of_nat i) 0)) by lia. cbv zeta.
  rewrite (proj2 (Z.leb_le 0 (Z.of_nat i))) by lia.
  rewrite (proj2 (Z.ltb_lt (Z.of_nat i) _)) by lia.
  cbn [andb]. by rewrite Nat2Z.id, Hi, bind_Ok, Hf, bind_Ok.
Qed.

(** Drawing one panel: [imshow], [axis("off")] and, when titles are
    shown, [set_title]. *)
Lemma draw_panel (axs : list Plot.Axes) (i : nat) (show_titles : bool)
    (x : Tensor) (title : string) :
  axs !! i = Some Plot.blank_axes → imshow_accepts x = true →
  (axs ← Plot.imshow imshow_accepts axs (Z.of_nat i) x;
   axs ← Plot.axis_off axs (Z.of_nat i);
   if show_titles then Plot.set_title axs (Z.of_nat i) title else Ok axs) =
    Ok (<[i := Plot.panel show_titles (x, title)]> axs).
Proof.
  intros Hi Hx. pose proof (lookup_lt_Some _ _ _ Hi).
  unfold Plot.imshow, Plot.axis_off, Plot.set_title.
  erewrite (on_axes_at axs i Plot.blank_axes); [|done|by rewrite Hx].
  rewrite bind_Ok.
  erewrite on_axes_at; [|by apply list_lookup_insert_eq|reflexivity].
  rewrite bind_Ok, list_insert_insert_eq.
  destruct show_titles; [|done].
  erewrite on_axes_at; [|by apply list_lookup_insert_eq|reflexivity].
  by rewrite list_insert_insert_eq.
Qed.

(** X17: [plot] draws a sample of [__getitem__] as it was decoded.  For a
    sample whose image is the VV band followed by the VH band and whose mask
    is the water mask, followed by the flood mask on a labelled split, the
    figure has one panel for the VV picture, one for the VH picture, both
    back in the HxWx3 layout of the decoded file, one for the water mask,
    one for the flood mask if there is one and one for the "prediction"
    entry if there is one, in this order; every panel has its axis off and
    carries its title exactly when titles are asked for, and the figure is
    four units wide per panel. *)
Theorem plot_sample_panels (sample : Sample) (vv vh water : PILImage)
    (flood : option PILImage) (show_titles : bool) (suptitle : option string) :
  im_height vh = im_height vv → im_width vh = im_width vv →
  (∀ f, flood = Some f →
        im_height f = im_height water ∧ im_width f = im_width water) →
  sample !! "image" = Some (Spec.image vv vh) →
  sample !! "mask" =
    Some (match flood with
          | Some f => Spec.mask2 water f
          | None => Spec.mask1 water
          end) →
  let shown :=
    [(Torch.array_RGB vv, "VV"); (Torch.array_RGB vh, "VH");
     (Spec.binary_mask water, "Water mask")] ++
    match flood with Some f => [(Spec.binary_mask f, "Flood mask")] | None => [] end ++
    match sample !! "prediction" with Some p => [(p, "Predictions")] | None => [] end in
  Forall (λ p, imshow_accepts p.1 = true) shown →
  plot sample show_titles suptitle =
    Ok {| Plot.fig_size := (Z.of_nat (length shown) * 4, 3);
          Plot.fig_axes := Plot.panel show_titles <$> shown;
          Plot.fig_suptitle := suptitle |}.
Proof.
  intros Hh Hw Hflood Himg Hmask shown Hshown.
  unfold Plot.plot, dict_get, dict_contains.
  rewrite Himg, !bind_Ok, slice0_image_vv, bind_Ok, rollaxis_band, !bind_Ok.
  rewrite (slice0_image_vh _ _ Hh Hw), bind_Ok, rollaxis_band, bind_Ok.
  rewrite Hmask, !bind_Ok.
  subst shown. revert Hshown.
  rewrite !Forall_app, !Forall_cons. cbn [fst].
  intros [(Hvv & Hvh & Hwater & _) [Hfl Hpred]].
  destruct flood as [f|].
  - destruct (Hflood f eq_refl) as [Hfh Hfw].
    rewrite (proj1 (getitem_mask2 water f Hfh Hfw)), bind_Ok.
    cbn [Plot.shape0 Spec.mask2 t_shape]. rewrite bind_Ok.
    change (1 <? Z.of_nat 2) with true. cbv iota.
    rewrite (proj2 (getitem_mask2 water f Hfh Hfw)), !bind_Ok.
    apply Forall_cons in Hfl as [Hfl _]. cbn [fst] in Hfl.
    revert Hvv Hvh Hwater Hfl Hpred.
    generalize (Torch.array_RGB vv) (Torch.array_RGB vh)
      (Spec.binary_mask water) (Spec.binary_mask f).
    intros vv' vh' water' f' Hvv Hvh Hwater Hfl Hpred.
    destruct (sample !! "prediction") as [p|] eqn:Hp.
    + apply Forall_cons in Hpred as [Hpred _]. cbn [fst] in Hpred.
      rewrite bool_decide_eq_true_2, ?bind_Ok by done.
      destruct show_titles; run_plot.
    + rewrite bool_decide_eq_false_2 by (by intros [? ?]).
      destruct show_titles; run_plot.
  - rewrite getitem_mask1, bind_Ok.
    cbn [Plot.shape0 Spec.mask1 t_shape]. rewrite bind_Ok.
    change (1 <? Z.of_nat 1) with false. cbv iota. rewrite ?bind_Ok.
    revert Hvv Hvh Hwater Hpred.
    generalize (Torch.array_RGB vv) (Torch.array_RGB vh) (Spec.binary_mask water).
    intros vv' vh' water' Hvv Hvh Hwater Hpred.
    destruct (sample !! "prediction") as [p|] eqn:Hp.
    + apply Forall_cons in Hpred as [Hpred _]. cbn [fst] in Hpred.
      rewrite bool_decide_eq_true_2, ?bind_Ok by done.
      destruct show_titles; run_plot.
    + rewrite bool_decide_eq_false_2 by (by intros [? ?]).
      destruct show_titles; run_plot.
Qed.

Lemma slice0_shape (t : Tensor) (n : nat) (tl : list nat) (a b : option Z) :
  t_shape t = n :: tl →
  ∃ x k, Plot.slice0 t a b = Ok x ∧ t_shape x = k :: tl.
Proof. intros Hs. unfold Plot.slice0. rewrite Hs. by eexists _, _. Qed.

Lemma rollaxis_ok (x : Tensor) (s0 s1 s2 : nat) :
  t_shape x = [s0; s1; s2] → ∃ y, Plot.rollaxis_0_3 x = Ok y.
Proof. intros Hs. unfold Plot.rollaxis_0_3. rewrite Hs. by eexists. Qed.

(** X18: [plot] cannot draw a sample that went through [preprocess].
    There the mask is the two-dimensional flood mask, so that [mask[0]] is
    its first row: provided [imshow] rejects one-dimensional arrays, as
    matplotlib does, [plot] of the preprocessed sample raises [TypeError]
    whatever else is in the sample. *)
Theorem plot_preprocessed_sample (s : ETCI2021DataModule.self) (sample : Sample)
    (image mask : Tensor) (H W C : nat)
    (show_titles : bool) (suptitle : option string) :
  ETCI2021DataModule.norm s =
    Torch.Normalize ETCI2021DataModule.band_means ETCI2021DataModule.band_stds →
  sample !! "image" = Some image → sample !! "mask" = Some mask →
  t_shape image = [6%nat; H; W] → t_shape mask = [C; H; W] →
  (2 <= C)%nat → (1 <= H)%nat →
  (∀ t, length (t_shape t) = 1%nat → imshow_accepts t = false) →
  ∃ out,
    ETCI2021DataModule.preprocess s sample = Ok out ∧
    plot out show_titles suptitle = Raise TypeError.
Proof.
  intros Hnorm Himg Hmask Hsi Hsm HC HH Hreject.
  pose proof (getitem_in_range mask C [H; W] 1 Hsm ltac:(lia)) as Hg1.
  destruct (preprocess_run s sample image mask _ H W C
              Hnorm Himg Hmask Hsi Hsm HC Hg1)
    as (out & image' & Hout & Himg' & Hmask' & _ & Hsi').
  exists out. split; [done|].
  destruct (slice0_shape image' _ _ None (Some 3) Hsi') as (x1 & k1 & Hx1 & Hs1).
  destruct (slice0_shape image' _ _ (Some 3) None Hsi') as (x2 & k2 & Hx2 & Hs2).
  destruct (rollaxis_ok x1 _ _ _ Hs1) as [vv' Hvv].
  destruct (rollaxis_ok x2 _ _ _ Hs2) as [vh' Hvh].
  set (flood := Torch.to Int64 (Torch.gt _ 0)) in Hmask'.
  assert (t_shape flood = [H; W]) as Hsf by done.
  pose proof (getitem_in_range flood H [W] 0 Hsf ltac:(lia)) as Hw0.
  set (row := {| t_dtype := t_dtype flood; t_shape := [W]; t_data := _ |}) in Hw0.
  assert (imshow_accepts row = false) as Hrow by (by apply Hreject).
  unfold Plot.plot, dict_get, dict_contains.
  rewrite Himg', !bind_Ok, Hx1, bind_Ok, Hvv, !bind_Ok, Hx2, bind_Ok, Hvh, bind_Ok.
  rewrite Hmask', !bind_Ok, Hw0, !bind_Ok.
  unfold Plot.shape0. rewrite Hsf, bind_Ok.
  assert (∃ fm : option Tensor,
            (if 1 <? Z.of_nat H
             then Torch.getitem flood 1 ≫= λ flood_mask, Ok (Some flood_mask, 3 + 1)
             else Ok (None, 3)) =
            Ok (fm, match fm with Some _ => 4 | None => 3 end)) as [fm ->].
  { destruct (Z.ltb_spec 1 (Z.of_nat H)).
    - rewrite (getitem_in_range flood H [W] 1 Hsf) by lia. by eexists (Some _).
    - by exists None. }
  rewrite bind_Ok.
  clearbody row. clear Hw0.
  destruct (out !! "prediction") as [p|] eqn:Hp.
  - rewrite bool_decide_eq_true_2, ?bind_Ok by done.
    unfold Plot.imshow. rewrite Hrow.
    by destruct fm, (imshow_accepts vv'), (imshow_accepts vh').
  - rewrite bool_decide_eq_false_2 by (by intros [? ?]).
    unfold Plot.imshow. rewrite Hrow.
    by destruct fm, (imshow_accepts vv'), (imshow_accepts vh').
Qed.

End PlotMore.

(* ================================================================== *)
(** * The further properties on the fixtures                            *)
(* ================================================================== *)

Lemma load_files_trace_witness :
  let w := Fixture.world Fixture.fs in
  ETCI2021.metadata !! "val" ≫= (.!! "directory") = Some "test" ∧
  (ETCI2021._load_files "data" "val" w).2 =
    log_events
      [EvGlob "data/test/*";
       EvGlob "data/test/c/tiles/vv/*.png";
       EvGlob "data/test/c/tiles/vh/*.png";
       EvGlob "data/test/c/tiles/water_body_label/*.png";
       EvGlob "data/test/c/tiles/flood_label/*.png"] w.
Proof.
  intros w. split; [reflexivity|].
  exact (f_equal snd (load_files_trace "data" "val" "test" w eq_refl)).
Defined.

Lemma len_sum_of_shortest_witness :
  let w := Fixture.world Fixture.ragged_fs in
  ETCI2021.metadata !! "train" ≫= (.!! "directory") = Some "train" ∧
  fs_exists (w_fs w) (Path.join "data" ["train"]) = true ∧
  ∃ s,
    (ETCI2021.__init__ Fixture.no_download "data" "train" None false false w).1 = Ok s ∧
    ETCI2021.__len__ s = 2.
Proof.
  intros w. split; [reflexivity|]. split; [reflexivity|].
  destruct (len_sum_of_shortest Fixture.no_download "data" "train" "train" None false w
              eq_refl eq_refl) as (s & Hs & Hl).
  exists s. split; [exact Hs|]. rewrite Hl. reflexivity.
Defined.

Lemma index_records_from_one_folder_witness :
  let w := Fixture.world Fixture.ragged_fs in
  ETCI2021.metadata !! "train" ≫= (.!! "directory") = Some "train" ∧
  ∃ recs,
    (ETCI2021._load_files "data" "train" w).1 = Ok recs ∧
    ∀ r, r ∈ recs →
      ∃ folder,
        folder ∈ Spec.folders (w_fs w) "data" "train" ∧
        ∀ key sub, (key, sub) ∈ Spec.channels "train" →
          ∃ path, r !! key = Some path ∧
                  path ∈ fs_glob (w_fs w) (Path.join folder [sub; "*.png"]).
Proof.
  intros w. split; [reflexivity|].
  exact (index_records_from_one_folder "data" "train" "train" w eq_refl).
Defined.

Lemma getitem_index_bounds_witness :
  let w := Fixture.world Fixture.fs in
  let s := Fixture.dataset "train" in
  ETCI2021.__len__ s <= 3 ∧
  ETCI2021.__getitem__ s 3 w = (Raise IndexError, w).
Proof.
  intros w s.
  assert (ETCI2021.__len__ s <= 3) as Hlen by (apply Z.leb_le; reflexivity).
  split; [exact Hlen|].
  exact (proj1 (getitem_index_bounds s 3 w) (or_intror Hlen)).
Defined.

Lemma getitem_unreadable_file_witness :
  let w := Fixture.world Cases.unreadable_fs in
  let s := Fixture.dataset "train" in
  let pvv := "data/train/a/tiles/vv/1.png" in
  list_getitem (ETCI2021.files s) 0 = Ok Fixture.first_train_record ∧
  Fixture.first_train_record !! "vv" = Some pvv ∧
  Fixture.first_train_record !! "vh" = Some "data/train/a/tiles/vh/1.png" ∧
  fs_open (w_fs w) pvv = None ∧
  ETCI2021.__getitem__ s 0 w = (Raise (OSError pvv), log_events [EvOpen pvv] w).
Proof.
  intros w s pvv.
  assert (list_getitem (ETCI2021.files s) 0 = Ok Fixture.first_train_record) as Hrec
    by (vm_compute; reflexivity).
  split; [exact Hrec|]. split; [reflexivity|]. split; [reflexivity|].
  split; [reflexivity|].
  exact (proj1 (getitem_unreadable_file s 0 w Fixture.first_train_record pvv
                  "data/train/a/tiles/vh/1.png" Hrec eq_refl eq_refl) eq_refl).
Defined.

Lemma getitem_size_mismatch_witness :
  let w := Fixture.world Cases.mismatched_fs in
  let s := Fixture.dataset "train" in
  let rec := Fixture.first_train_record in
  let pvv := "data/train/a/tiles/vv/1.png" in
  let pvh := "data/train/a/tiles/vh/1.png" in
  let pwa := "data/train/a/tiles/water_body_label/1.png" in
  list_getitem (ETCI2021.files s) 0 = Ok rec ∧
  rec !! "vv" = Some pvv ∧ rec !! "vh" = Some pvh ∧ rec !! "water_mask" = Some pwa ∧
  fs_open (w_fs w) pvv = Some Fixture.blank ∧
  fs_open (w_fs w) pvh = Some Cases.wide ∧
  fs_open (w_fs w) pwa = Some Fixture.blank ∧
  (∃ pfl flood,
     rec !! "flood_mask" = Some pfl ∧ fs_open (w_fs w) pfl = Some flood ∧
     im_height flood = im_height Fixture.blank ∧
     im_width flood = im_width Fixture.blank) ∧
  (im_height Cases.wide, im_width Cases.wide) ≠
    (im_height Fixture.blank, im_width Fixture.blank) ∧
  ∃ evs,
    ETCI2021.__getitem__ s 0 w =
      (Raise (RuntimeError "cat: sizes of tensors must match except in dimension 0"),
       log_events ([EvOpen pvv; EvOpen pvh; EvOpen pwa] ++ evs) w).
Proof.
  intros w s rec pvv pvh pwa.
  assert (list_getitem (ETCI2021.files s) 0 = Ok rec) as Hrec
    by (vm_compute; reflexivity).
  assert (∃ pfl flood,
            rec !! "flood_mask" = Some pfl ∧ fs_open (w_fs w) pfl = Some flood ∧
            im_height flood = im_height Fixture.blank ∧
            im_width flood = im_width Fixture.blank) as Hflood
    by (exists "data/train/a/tiles/flood_label/1.png", Fixture.blank;
        repeat split; reflexivity).
  assert ((im_height Cases.wide, im_width Cases.wide) ≠
          (im_height Fixture.blank, im_width Fixture.blank)) as Hne
    by (intros Heq; discriminate Heq).
  split; [exact Hrec|]. do 6 (split; [reflexivity|]).
  split; [exact Hflood|]. split; [exact Hne|].
  exact (getitem_size_mismatch s 0 w rec pvv pvh pwa Fixture.blank Cases.wide
           Fixture.blank Hrec eq_refl eq_refl eq_refl eq_refl eq_refl eq_refl
           (λ _, Hflood) Hne).
Defined.

Lemma init_download_present_witness :
  let w := Fixture.world Fixture.fs in
  ETCI2021.metadata !! "train" ≫= (.!! "directory") = Some "train" ∧
  fs_exists (w_fs w) (Path.join "data" ["train"]) = true ∧
  ETCI2021.__init__ Fixture.no_download "data" "train" None true false w =
    ETCI2021.__init__ Fixture.no_download "data" "train" None false false
      (log_events [EvExists "data/train";
                   EvPrint "Files already downloaded and verified"] w).
Proof.
  intros w. split; [reflexivity|]. split; [reflexivity|].
  exact (init_download_present Fixture.no_download "data" "train" "train" None false w
           eq_refl eq_refl).
Defined.

Lemma init_download_absent_witness :
  let w := Fixture.world Cases.empty_fs in
  let url := "https://drive.google.com/file/d/14HqNW5uWLS92n7KrxKgDwUTsSEST6LCr" in
  ETCI2021.metadata !! "train" = Some Cases.train_meta ∧
  Cases.train_meta !! "directory" = Some "train" ∧
  Cases.train_meta !! "url" = Some url ∧
  Cases.train_meta !! "filename" = Some "train.zip" ∧
  Cases.train_meta !! "md5" = Some "1e95792fe0f6e3c9000abdeab2a8ab0f" ∧
  fs_exists (w_fs w) (Path.join "data" ["train"]) = false ∧
  ETCI2021.__init__ Cases.unpack "data" "train" None true true w =
    ETCI2021.__init__ Cases.unpack "data" "train" None false true
      (set_fs Fixture.fs
         (log_events
            [EvExists "data/train";
             EvDownload url "data" "train.zip" (Some "1e95792fe0f6e3c9000abdeab2a8ab0f")]
            w)).
Proof.
  intros w url.
  assert (ETCI2021.metadata !! "train" = Some Cases.train_meta) as Hmeta
    by (vm_compute; reflexivity).
  split; [exact Hmeta|]. do 5 (split; [reflexivity|]).
  exact (init_download_absent Cases.unpack "data" "train" None true w
           Cases.train_meta "train" url "train.zip" "1e95792fe0f6e3c9000abdeab2a8ab0f"
           Hmeta eq_refl eq_refl eq_refl eq_refl eq_refl).
Defined.

Lemma preprocess_keys_witness :
  (∅ : Sample) !! "image" = None ∧
  ETCI2021DataModule.preprocess Fixture.datamodule ∅ = Raise (KeyError "image").
Proof.
  split; [reflexivity|].
  exact (proj1 (preprocess_keys Fixture.datamodule ∅) eq_refl).
Defined.

Lemma getitem_preprocessed_witness :
  let w := Fixture.world Fixture.fs in
  let s := Cases.piped_dataset in
  let rec := Fixture.first_train_record in
  ETCI2021DataModule.norm Fixture.datamodule =
    Torch.Normalize ETCI2021DataModule.band_means ETCI2021DataModule.band_stds ∧
  ETCI2021.transforms s = Some (ETCI2021DataModule.preprocess Fixture.datamodule) ∧
  list_getitem (ETCI2021.files s) 0 = Ok rec ∧
  tile_ok (w_fs w) (ETCI2021.split s) rec 2 2 ∧
  ∃ out image flood,
    (ETCI2021.__getitem__ s 0 w).1 = Ok out ∧
    out !! "image" = Some image ∧
    t_dtype image = Float32 ∧ t_shape image = [7; 2; 2]%nat ∧
    rec !! "flood_mask" ≫= fs_open (w_fs w) = Some flood ∧
    out !! "mask" = Some (Spec.binary_mask flood).
Proof.
  intros w s rec.
  assert (list_getitem (ETCI2021.files s) 0 = Ok rec) as Hrec
    by (vm_compute; reflexivity).
  split; [reflexivity|]. split; [reflexivity|]. split; [exact Hrec|].
  split; [exact fixture_tile_ok|].
  exact (getitem_preprocessed Fixture.datamodule s 0 w rec 2 2
           eq_refl eq_refl Hrec fixture_tile_ok).
Defined.

Lemma setup_requires_both_splits_witness :
  let s := Fixture.datamodule in
  let w := Fixture.world_rng Cases.empty_fs 5 in
  fs_exists (w_fs w) (Path.join (ETCI2021DataModule.root_dir s) ["train"]) = false ∧
  ETCI2021DataModule.setup (TorchRandom0 := Fixture.rng) Fixture.no_download s w =
    (Raise (RuntimeError not_found_message), log_events [EvExists "data/train"] w).
Proof.
  intros s w. split; [reflexivity|].
  exact (proj1 (setup_requires_both_splits (TorchRandom0 := Fixture.rng)
                  Fixture.no_download s w) eq_refl).
Defined.

Lemma setup_partition_witness :
  let s := Fixture.datamodule in
  let w := Fixture.world_rng Fixture.fs 5 in
  fs_exists (w_fs w) (Path.join (ETCI2021DataModule.root_dir s) ["train"]) = true ∧
  fs_exists (w_fs w) (Path.join (ETCI2021DataModule.root_dir s) ["test"]) = true ∧
  3%nat = length (Spec.index (w_fs w) (ETCI2021DataModule.root_dir s) "train") ∧
  Z.of_nat 3 < 2 ^ 48 ∧
  @manual_seed Z Fixture.rng (@Generator Z Fixture.rng) (ETCI2021DataModule.seed s) = Ok 0 ∧
  ∃ s' d train val,
    (ETCI2021DataModule.setup (TorchRandom0 := Fixture.rng) Fixture.no_download s w).1 = Ok s' ∧
    ETCI2021DataModule.train_dataset s' = Some (Data.Subset d train) ∧
    ETCI2021DataModule.val_dataset s' = Some (Data.Subset d val) ∧
    NoDup (train ++ val) ∧
    ∀ i, (i < 3)%nat ↔ i ∈ train ∨ i ∈ val.
Proof.
  intros s w.
  assert (3%nat = length (Spec.index (w_fs w) (ETCI2021DataModule.root_dir s) "train"))
    as Hn by (vm_compute; reflexivity).
  assert (Z.of_nat 3 < 2 ^ 48) as Hb by (vm_compute; reflexivity).
  split; [reflexivity|]. split; [reflexivity|]. split; [exact Hn|]. split; [exact Hb|].
  split; [reflexivity|].
  destruct (setup_partition (TorchRandom0 := Fixture.rng) Fixture.no_download s w 3 0
              eq_refl eq_refl Hn Hb eq_refl)
    as (s' & d & train & val & Hrun & Htr & Hva & _ & _ & _ & Hnd & Hcover).
  exists s', d, train, val.
  split; [exact Hrun|]. split; [exact Htr|]. split; [exact Hva|].
  split; [exact Hnd|exact Hcover].
Defined.


Lemma setup_small_datasets_witness :
  let s := Fixture.datamodule in
  let w := Fixture.world_rng Fixture.fs 5 in
  fs_exists (w_fs w) (Path.join (ETCI2021DataModule.root_dir s) ["train"]) = true ∧
  fs_exists (w_fs w) (Path.join (ETCI2021DataModule.root_dir s) ["test"]) = true ∧
  3%nat = length (Spec.index (w_fs w) (ETCI2021DataModule.root_dir s) "train") ∧
  Z.of_nat 3 < 2 ^ 48 ∧
  @manual_seed Z Fixture.rng (@Generator Z Fixture.rng) (ETCI2021DataModule.seed s) = Ok 0 ∧
  (1 <= 3)%nat ∧
  ∃ s' train val,
    (ETCI2021DataModule.setup (TorchRandom0 := Fixture.rng) Fixture.no_download s w).1 = Ok s' ∧
    ETCI2021DataModule.train_dataset s' = Some train ∧
    ETCI2021DataModule.val_dataset s' = Some val ∧
    1 <= Data.len val ∧ Data.len val <= Data.len train.
Proof.
  intros s w.
  assert (3%nat = length (Spec.index (w_fs w) (ETCI2021DataModule.root_dir s) "train"))
    as Hn by (vm_compute; reflexivity).
  assert (Z.of_nat 3 < 2 ^ 48) as Hb by (vm_compute; reflexivity).
  assert (1 <= 3)%nat as H1 by lia.
  split; [reflexivity|]. split; [reflexivity|]. split; [exact Hn|]. split; [exact Hb|].
  split; [reflexivity|]. split; [exact H1|].
  destruct (setup_small_datasets (TorchRandom0 := Fixture.rng) Fixture.no_download
              s w 3 0 eq_refl eq_refl Hn Hb eq_refl H1)
    as (s' & train & val & Hrun & Htr & Hva & Hval & _ & Hle).
  exists s', train, val.
  split; [exact Hrun|]. split; [exact Htr|]. split; [exact Hva|].
  split; [exact Hval|apply Hle; lia].
Defined.

Lemma plot_sample_panels_witness :
  let sample := Cases.predicted_sample in
  let b := Fixture.blank in
  sample !! "image" = Some (Spec.image b b) ∧
  sample !! "mask" = Some (Spec.mask2 b b) ∧
  sample !! "prediction" = Some (Spec.binary_mask b) ∧
  Forall (λ t, Cases.accepts_images t = true)
    [Torch.array_RGB b; Spec.binary_mask b] ∧
  Plot.plot Cases.accepts_images sample true None =
    Ok {| Plot.fig_size := (20, 3);
          Plot.fig_axes :=
            Plot.panel true <$>
              [(Torch.array_RGB b, "VV"); (Torch.array_RGB b, "VH");
               (Spec.binary_mask b, "Water mask"); (Spec.binary_mask b, "Flood mask");
               (Spec.binary_mask b, "Predictions")];
          Plot.fig_suptitle := None |}.
Proof.
  intros sample b.
  split; [reflexivity|]. split; [reflexivity|]. split; [reflexivity|].
  split; [repeat constructor|].
  exact (plot_sample_panels Cases.accepts_images sample b b b (Some b) true None
           eq_refl eq_refl (λ f Hf, match Hf in _ = o return
                                       match o with
                                       | Some f => im_height f = im_height b ∧
                                                   im_width f = im_width b
                                       | None => True
                                       end
                                     with eq_refl => conj eq_refl eq_refl end)
           eq_refl eq_refl ltac:(repeat constructor)).
Defined.

Lemma plot_preprocessed_sample_witness :
  let s := Fixture.datamodule in
  let image := Spec.image Fixture.blank Fixture.blank in
  let mask := Spec.mask2 Fixture.blank Fixture.blank in
  ETCI2021DataModule.norm s =
    Torch.Normalize ETCI2021DataModule.band_means ETCI2021DataModule.band_stds ∧
  Fixture.sample !! "image" = Some image ∧
  Fixture.sample !! "mask" = Some mask ∧
  t_shape image = [6; 2; 2]%nat ∧ t_shape mask = [2; 2; 2]%nat ∧
  (2 <= 2)%nat ∧ (1 <= 2)%nat ∧
  (∀ t, length (t_shape t) = 1%nat → Cases.accepts_images t = false) ∧
  ∃ out,
    ETCI2021DataModule.preprocess s Fixture.sample = Ok out ∧
    Plot.plot Cases.accepts_images out true None = Raise TypeError.
Proof.
  intros s image mask.
  assert (∀ t, length (t_shape t) = 1%nat → Cases.accepts_images t = false) as Hreject
    by (intros t Ht; unfold Cases.accepts_images; rewrite Ht; reflexivity).
  assert (2 <= 2)%nat as H2 by lia.
  assert (1 <= 2)%nat as H1 by lia.
  do 5 (split; [reflexivity|]).
  split; [exact H2|]. split; [exact H1|]. split; [exact Hreject|].
  exact (plot_preprocessed_sample Cases.accepts_images s Fixture.sample image mask
           2 2 2 true None eq_refl eq_refl eq_refl eq_refl eq_refl H2 H1 Hreject).
Defined.
